(** * Connection discovery, request dispatch and session management

    A shallow embedding of the client-side logic of the vehicle
    diagnostics app: [utils/apiConfig], [utils/connectionTest], the API
    service module with [apiCall], and [context/AuthContext].

    Asynchronous functions become computations in a state monad with
    JavaScript-style exceptions: a computation maps a [World] to a
    [Result] and a new [World].  State written before a [throw] stays
    written, as in the source.  A promise that never settles is the third
    result, [Pending]. *)

From stdpp Require Import base option strings gmap list pretty.

Open Scope string_scope.
Open Scope list_scope.

(** ** Values exchanged with the platform *)

(** JavaScript exceptions, by class. *)
Inductive Exn :=
  | Error (message : string)        (* new Error(message) *)
  | TypeError (message : string)    (* network failure of fetch, null dereference *)
  | AbortError                      (* the AbortController fired *)
  | SyntaxError                     (* the body is not JSON *)
  | SQLiteError.                    (* a statement or the open call failed *)

Definition exn_name (e : Exn) : string :=
  match e with
  | Error _ => "Error"
  | TypeError _ => "TypeError"
  | AbortError => "AbortError"
  | SyntaxError => "SyntaxError"
  | SQLiteError => "Error"
  end.

Definition exn_message (e : Exn) : string :=
  match e with
  | Error m => m
  | TypeError m => m
  | AbortError => "Aborted"
  | SyntaxError => "JSON Parse error"
  | SQLiteError => "database error"
  end.

Inductive Result (A : Type) :=
  | Ok (a : A)
  | Throw (e : Exn)
  | Pending.
Arguments Ok {A} a.
Arguments Throw {A} e.
Arguments Pending {A}.

(** The [User] type of AuthContext. *)
Record User := {
  user_id : Z;
  user_email : string;
  user_name : string;
  user_role : string;
  user_is_active : bool;
  user_created_at : string;
}.

(** A parsed JSON body, seen through the members the code reads. *)
Record JsonData := {
  data_detail : option string;
  data_access_token : option string;
  data_user : option User;
}.

(** An HTTP response: [text] is the raw body, [json] the result of
    parsing it ([None] when the body is not JSON). *)
Record Response := {
  status : nat;
  statusText : string;
  text : string;
  json : option JsonData;
}.

(** response.ok: the status is in the range 200-299. *)
Definition ok (r : Response) : bool :=
  ((200 <=? status r)%nat && (status r <=? 299)%nat)%bool.

(** A request body: nothing, JSON.stringify of an object given by its
    members, or a FormData with one file descriptor. *)
Inductive ReqBody :=
  | NoBody
  | JsonBody (members : list (string * string))
  | FormBody (uri type name : string).

(** A request as handed to [fetch].  [timeout] is [Some t] when the
    caller wired an AbortController to a timer of [t] milliseconds, and
    [None] when the request carries no abort signal. *)
Record Request := {
  url : string;
  method : option string;
  headers : gmap string string;
  body : ReqBody;
  timeout : option N;
}.

(** What the network does with a request. *)
Inductive NetOutcome :=
  | Respond (latency : N) (r : Response)
  | NetworkFailure
  | NoReply.

(** ** The local SQLite file *)

Record Row := {
  row_id : Z;
  row_email : string;
  row_name : string;
  row_password : string;
  row_role : string;
  row_is_active : Z;
  row_created_at : string;
  row_last_synced : string;
}.

(** [users] is [None] while the table does not exist.  The four flags
    say whether opening the file, the CREATE TABLE script, a SELECT and
    an INSERT succeed. *)
Record Disk := {
  can_open : bool;
  exec_ok : bool;
  query_ok : bool;
  run_ok : bool;
  users : option (list Row);
}.

Inductive SQLiteDatabase := carfirstaid_db.

Inductive StorageOp :=
  | GetItem (key : string)
  | SetItem (key value : string)
  | RemoveItem (key : string).

Global Instance StorageOp_eq_dec : EqDecision StorageOp.
Proof. solve_decision. Defined.

(** ** Environment and world *)

(** What the code reads but never writes. [net] answers a request given
    the requests issued before it. *)
Record Env := {
  CLOUD_BACKEND_URL : string;
  Platform_OS : string;
  net : list Request → Request → NetOutcome;
  Date_now : N;
  Date_toISOString : string;
  Math_random36 : string;
  JSON_stringify : User → string;
}.

Record World := {
  net_log : list Request;                 (* every request handed to fetch *)
  isConnected : bool;                     (* NetInfo *)
  storage : gmap string string;           (* AsyncStorage *)
  storage_log : list StorageOp;
  disk : Disk;
  DYNAMIC_API_BASE_URL : option string;   (* module variable of the API service *)
  db : option SQLiteDatabase;             (* module variable of AuthContext *)
  user : option User;                     (* AuthProvider state *)
  token : option string;
  isLoading : bool;
  isMechanicVerified : bool;
  apiUrl : string;
}.

Definition with_net_log (l : list Request) (w : World) : World :=
  {| net_log := l; isConnected := isConnected w; storage := storage w;
     storage_log := storage_log w; disk := disk w;
     DYNAMIC_API_BASE_URL := DYNAMIC_API_BASE_URL w; db := db w;
     user := user w; token := token w; isLoading := isLoading w;
     isMechanicVerified := isMechanicVerified w; apiUrl := apiUrl w |}.

Definition with_storage (m : gmap string string) (l : list StorageOp) (w : World) : World :=
  {| net_log := net_log w; isConnected := isConnected w; storage := m;
     storage_log := l; disk := disk w;
     DYNAMIC_API_BASE_URL := DYNAMIC_API_BASE_URL w; db := db w;
     user := user w; token := token w; isLoading := isLoading w;
     isMechanicVerified := isMechanicVerified w; apiUrl := apiUrl w |}.

Definition with_disk (d : Disk) (w : World) : World :=
  {| net_log := net_log w; isConnected := isConnected w; storage := storage w;
     storage_log := storage_log w; disk := d;
     DYNAMIC_API_BASE_URL := DYNAMIC_API_BASE_URL w; db := db w;
     user := user w; token := token w; isLoading := isLoading w;
     isMechanicVerified := isMechanicVerified w; apiUrl := apiUrl w |}.

Definition with_DYNAMIC_API_BASE_URL (u : option string) (w : World) : World :=
  {| net_log := net_log w; isConnected := isConnected w; storage := storage w;
     storage_log := storage_log w; disk := disk w;
     DYNAMIC_API_BASE_URL := u; db := db w;
     user := user w; token := token w; isLoading := isLoading w;
     isMechanicVerified := isMechanicVerified w; apiUrl := apiUrl w |}.

Definition with_db (h : option SQLiteDatabase) (w : World) : World :=
  {| net_log := net_log w; isConnected := isConnected w; storage := storage w;
     storage_log := storage_log w; disk := disk w;
     DYNAMIC_API_BASE_URL := DYNAMIC_API_BASE_URL w; db := h;
     user := user w; token := token w; isLoading := isLoading w;
     isMechanicVerified := isMechanicVerified w; apiUrl := apiUrl w |}.

Definition with_user (u : option User) (w : World) : World :=
  {| net_log := net_log w; isConnected := isConnected w; storage := storage w;
     storage_log := storage_log w; disk := disk w;
     DYNAMIC_API_BASE_URL := DYNAMIC_API_BASE_URL w; db := db w;
     user := u; token := token w; isLoading := isLoading w;
     isMechanicVerified := isMechanicVerified w; apiUrl := apiUrl w |}.

Definition with_token (t : option string) (w : World) : World :=
  {| net_log := net_log w; isConnected := isConnected w; storage := storage w;
     storage_log := storage_log w; disk := disk w;
     DYNAMIC_API_BASE_URL := DYNAMIC_API_BASE_URL w; db := db w;
     user := user w; token := t; isLoading := isLoading w;
     isMechanicVerified := isMechanicVerified w; apiUrl := apiUrl w |}.

Definition with_isLoading (b : bool) (w : World) : World :=
  {| net_log := net_log w; isConnected := isConnected w; storage := storage w;
     storage_log := storage_log w; disk := disk w;
     DYNAMIC_API_BASE_URL := DYNAMIC_API_BASE_URL w; db := db w;
     user := user w; token := token w; isLoading := b;
     isMechanicVerified := isMechanicVerified w; apiUrl := apiUrl w |}.

Definition with_isMechanicVerified (b : bool) (w : World) : World :=
  {| net_log := net_log w; isConnected := isConnected w; storage := storage w;
     storage_log := storage_log w; disk := disk w;
     DYNAMIC_API_BASE_URL := DYNAMIC_API_BASE_URL w; db := db w;
     user := user w; token := token w; isLoading := isLoading w;
     isMechanicVerified := b; apiUrl := apiUrl w |}.

Definition with_apiUrl (u : string) (w : World) : World :=
  {| net_log := net_log w; isConnected := isConnected w; storage := storage w;
     storage_log := storage_log w; disk := disk w;
     DYNAMIC_API_BASE_URL := DYNAMIC_API_BASE_URL w; db := db w;
     user := user w; token := token w; isLoading := isLoading w;
     isMechanicVerified := isMechanicVerified w; apiUrl := u |}.

(** The device gains or loses connectivity. *)
Definition with_isConnected (b : bool) (w : World) : World :=
  {| net_log := net_log w; isConnected := b; storage := storage w;
     storage_log := storage_log w; disk := disk w;
     DYNAMIC_API_BASE_URL := DYNAMIC_API_BASE_URL w; db := db w;
     user := user w; token := token w; isLoading := isLoading w;
     isMechanicVerified := isMechanicVerified w; apiUrl := apiUrl w |}.

(** ** The monad of asynchronous computations *)

Definition M (A : Type) : Type := World → Result A * World.

Definition ret {A} (a : A) : M A := λ w, (Ok a, w).

Definition bind {A B} (m : M A) (k : A → M B) : M B := λ w,
  match m w with
  | (Ok a, w') => k a w'
  | (Throw e, w') => (Throw e, w')
  | (Pending, w') => (Pending, w')
  end.

Definition throw {A} (e : Exn) : M A := λ w, (Throw e, w).

(** try { m } catch (error) { handler error } *)
Definition try_catch {A} (m : M A) (handler : Exn → M A) : M A := λ w,
  match m w with
  | (Throw e, w') => handler e w'
  | r => r
  end.

(** try { m } finally { fin }: [fin] runs after a value and after an
    exception, not while [m] is still pending. *)
Definition try_finally {A} (m : M A) (fin : M unit) : M A := λ w,
  match m w with
  | (Ok a, w') =>
      match fin w' with
      | (Ok _, w'') => (Ok a, w'')
      | (Throw e, w'') => (Throw e, w'')
      | (Pending, w'') => (Pending, w'')
      end
  | (Throw e, w') =>
      match fin w' with
      | (Ok _, w'') => (Throw e, w'')
      | (Throw e', w'') => (Throw e', w'')
      | (Pending, w'') => (Pending, w'')
      end
  | (Pending, w') => (Pending, w')
  end.

Definition gets {A} (f : World → A) : M A := λ w, (Ok (f w), w).
Definition modify (f : World → World) : M unit := λ w, (Ok tt, f w).

Global Instance M_ret : MRet M := @ret.
Global Instance M_bind : MBind M := λ A B k m, bind m k.

(** JavaScript truthiness of a [string | null]. *)
Definition truthy (s : option string) : bool :=
  match s with
  | Some s => negb (String.eqb s "")
  | None => false
  end.

(** ** String methods *)

(** s.startsWith(p) *)
Fixpoint startsWith (p s : string) : bool :=
  match p, s with
  | "", _ => true
  | String _ _, "" => false
  | String a p', String b s' => Ascii.eqb a b && startsWith p' s'
  end.

Fixpoint string_drop (n : nat) (s : string) : string :=
  match n, s with
  | 0, _ => s
  | S _, "" => ""
  | S n', String _ s' => string_drop n' s'
  end.

(** s.replace(pattern, replacement) for a string pattern: the first
    occurrence of the pattern is replaced, the others stay. *)
Fixpoint String_replace (pattern replacement s : string) : string :=
  if startsWith pattern s then replacement +:+ string_drop (String.length pattern) s
  else match s with
       | "" => ""
       | String c s' => String c (String_replace pattern replacement s')
       end.

(** s.includes(sub) *)
Fixpoint String_includes (sub s : string) : bool :=
  if startsWith sub s then true
  else match s with
       | "" => false
       | String _ s' => String_includes sub s'
       end.

(** ** utils/apiConfig *)

Module ApiConfig.

Definition PLACEHOLDER_URL : string := "https://your-app-name.onrender.com/api".
Definition HEALTH_CHECK_TIMEOUT : N := 30000.
Definition API_TIMEOUT : N := 60000.

Definition json_headers : gmap string string :=
  {[ "Accept" := "application/json"; "Content-Type" := "application/json" ]}.

Section WithEnv.
Context (env : Env).

Definition cloud_configured : bool :=
  negb (String.eqb (CLOUD_BACKEND_URL env) PLACEHOLDER_URL).

Definition getApiBaseUrl : string :=
  if cloud_configured then CLOUD_BACKEND_URL env
  else if String.eqb (Platform_OS env) "android" then "http://localhost:8000/api"
  else if String.eqb (Platform_OS env) "ios" then "http://localhost:8000/api"
  else "http://localhost:8000/api".

(** The platform's fetch.  A request with an abort timer of [t] ms is
    rejected with AbortError unless the response arrives before [t]; a
    request without one waits for as long as the network takes. *)
Definition fetch (req : Request) : M Response := λ w,
  let w' := with_net_log (net_log w ++ [req]) w in
  match net env (net_log w) req with
  | Respond latency r =>
      match timeout req with
      | Some t => if (latency <? t)%N then (Ok r, w') else (Throw AbortError, w')
      | None => (Ok r, w')
      end
  | NetworkFailure => (Throw (TypeError "Network request failed"), w')
  | NoReply =>
      match timeout req with
      | Some _ => (Throw AbortError, w')
      | None => (Pending, w')
      end
  end.

Definition health_request (url : string) (t : N) : Request :=
  {| url := url +:+ "/health"; method := Some "GET"; headers := json_headers;
     body := NoBody; timeout := Some t |}.

Definition testConnection (url : string) : M bool :=
  try_catch
    (response ← fetch (health_request url HEALTH_CHECK_TIMEOUT);
     let isOk := ok response in
     mret isOk)
    (λ _, mret false).

(** possibleUrls.push(x) *)
Definition push (urls : list string) (x : string) : list string := urls ++ [x].

Definition possibleUrls : list string :=
  let urls := [] in
  let urls := if cloud_configured then push urls (CLOUD_BACKEND_URL env) else urls in
  if String.eqb (Platform_OS env) "android" then
    let urls := push urls "http://localhost:8000/api" in
    let urls := push urls "http://10.0.2.2:8000/api" in
    let urls := push urls "http://127.0.0.1:8000/api" in
    push urls "http://192.168.1.100:8000/api"
  else if String.eqb (Platform_OS env) "ios" then
    let urls := push urls "http://localhost:8000/api" in
    let urls := push urls "http://127.0.0.1:8000/api" in
    push urls "http://192.168.1.100:8000/api"
  else urls.

(** The for-of loop of findWorkingConnection. *)
Fixpoint findWorkingConnection_loop (urls : list string) : M (option string) :=
  match urls with
  | [] => mret None
  | url :: rest =>
      isConnected ← try_catch (testConnection url) (λ _, mret false);
      if (isConnected : bool) then mret (Some url)
      else findWorkingConnection_loop rest
  end.

Definition findWorkingConnection : M (option string) :=
  findWorkingConnection_loop possibleUrls.

(** fetchWithTimeout(url, options, timeout): the default headers come
    first and the caller's override them. *)
Definition fetchWithTimeout (url : string) (method : option string)
    (hdrs : gmap string string) (body : ReqBody) (timeout : N) : M Response :=
  try_catch
    (fetch {| url := url; method := method; headers := hdrs ∪ json_headers;
              body := body; timeout := Some timeout |})
    (λ error, throw error).


End WithEnv.
End ApiConfig.

(** ** AsyncStorage *)

(** The key-value store of the device, taken to be reliable: reads,
    writes and removals of string values always resolve.  Every
    operation is also recorded in [storage_log]. *)
Module AsyncStorage.

Definition getItem (key : string) : M (option string) := λ w,
  (Ok (storage w !! key),
   with_storage (storage w) (storage_log w ++ [GetItem key]) w).

(** The value is [None] when the caller passes undefined, which the
    storage refuses. *)
Definition setItem (key : string) (value : option string) : M unit := λ w,
  match value with
  | Some v =>
      (Ok tt, with_storage (<[key := v]> (storage w)) (storage_log w ++ [SetItem key v]) w)
  | None => (Throw (Error "AsyncStorage: the value is not a string"), w)
  end.

Definition removeItem (key : string) : M unit := λ w,
  (Ok tt,
   with_storage (delete key (storage w)) (storage_log w ++ [RemoveItem key]) w).

End AsyncStorage.

(** response.json() *)
Definition response_json (r : Response) : M JsonData :=
  match json r with
  | Some data => mret data
  | None => throw SyntaxError
  end.

(** s || fallback on a [string | undefined] *)
Definition or_else (s : option string) (fallback : string) : string :=
  match s with
  | Some s => if String.eqb s "" then fallback else s
  | None => fallback
  end.

(** ** utils/connectionTest *)

Module ConnectionTest.

Inductive Details :=
  | DetailsData (data : JsonData)
  | DetailsStatus (status : nat) (statusText : string)
  | DetailsError (error message : string)
  | DetailsTested (testedUrls : list string) (platform : string)
      (suggestions : list string).

Record ConnectionTestResult := {
  success : bool;
  message : string;
  details : Details;
  workingUrl : option string;
}.

Definition machineIPs : list string :=
  ["192.168.1.100"; "192.168.0.100"; "192.168.114.97"; "10.0.0.100"].

Definition suggestions : list string :=
  ["Make sure your backend server is running";
   "Check if the backend is accessible at http://localhost:8000";
   "Verify your machine's IP address";
   "Check firewall settings"].

Section WithEnv.
Context (env : Env).

Definition testSingleConnection (baseUrl : string) : M ConnectionTestResult :=
  try_catch
    (let healthUrl := baseUrl +:+ "/health" in
     response ← ApiConfig.fetchWithTimeout env healthUrl (Some "GET")
                  ApiConfig.json_headers NoBody 5000;
     if ok response then
       data ← response_json response;
       mret {| success := true;
               message := "Successfully connected to " +:+ baseUrl;
               details := DetailsData data;
               workingUrl := Some baseUrl |}
     else
       mret {| success := false;
               message := "Server responded with status " +:+ pretty (status response);
               details := DetailsStatus (status response) (statusText response);
               workingUrl := None |})
    (λ error,
       mret {| success := false;
               message := "Connection failed: " +:+ exn_message error;
               details := DetailsError (exn_name error) (exn_message error);
               workingUrl := None |}).

Definition getPossibleBackendUrls : list string :=
  let push := ApiConfig.push in
  let urls := [] in
  let urls :=
    if String.eqb (Platform_OS env) "web" then
      let urls := push urls "http://localhost:8000/api" in
      push urls "http://127.0.0.1:8000/api"
    else if String.eqb (Platform_OS env) "android" then
      let urls := push urls "http://10.0.2.2:8000/api" in
      let urls := push urls "http://localhost:8000/api" in
      push urls "http://127.0.0.1:8000/api"
    else if String.eqb (Platform_OS env) "ios" then
      let urls := push urls "http://localhost:8000/api" in
      push urls "http://127.0.0.1:8000/api"
    else urls in
  (* machineIPs.forEach((ip) => urls.push(...)) *)
  fold_left (λ urls ip, push urls ("http://" +:+ ip +:+ ":8000/api")) machineIPs urls.

(** The for-of loop of testBackendConnection. *)
Fixpoint testBackendConnection_loop (possibleUrls urls : list string)
    : M ConnectionTestResult :=
  match urls with
  | [] =>
      mret {| success := false;
              message := "Could not connect to any backend URL";
              details := DetailsTested possibleUrls (Platform_OS env) suggestions;
              workingUrl := None |}
  | url :: rest =>
      result ← testSingleConnection url;
      if success result then mret result
      else testBackendConnection_loop possibleUrls rest
  end.

Definition testBackendConnection : M ConnectionTestResult :=
  let possibleUrls := getPossibleBackendUrls in
  testBackendConnection_loop possibleUrls possibleUrls.

(** One entry of diagnostics.tests. *)
Record DiagnosticTest := {
  test_url : string;
  test_success : bool;
  test_responseTime : Z;
  test_error : option string;
  test_details : Details;
}.

Record Diagnostics := {
  diag_platform : string;
  diag_timestamp : string;
  diag_tests : list DiagnosticTest;
  diag_recommendations : list string;
}.

(** The for-of loop of runDiagnostics.  [now] is Date.now(), read off
    the requests issued so far. *)
Fixpoint runDiagnostics_loop (now : list Request → Z) (urls : list string)
    (tests : list DiagnosticTest) : M (list DiagnosticTest) :=
  match urls with
  | [] => mret tests
  | url :: rest =>
      startTime ← gets (λ w, now (net_log w));
      result ← testSingleConnection url;
      endTime ← gets (λ w, now (net_log w));
      runDiagnostics_loop now rest
        (tests ++ [{| test_url := url;
                      test_success := success result;
                      test_responseTime := (endTime - startTime)%Z;
                      test_error := if success result then None else Some (message result);
                      test_details := details result |}])
  end.

Definition runDiagnostics (now : list Request → Z) : M Diagnostics :=
  let urls := getPossibleBackendUrls in
  tests ← runDiagnostics_loop now urls [];
  let successfulTests := List.filter test_success tests in
  let recommendations :=
    match successfulTests with
    | [] =>
        ["No backend connections successful";
         "Check if backend server is running on port 8000";
         "Verify backend is accessible at http://localhost:8000";
         "Check firewall and network settings"]
    | first :: _ =>
        ["Found " +:+ pretty (length successfulTests) +:+ " working connection(s)";
         "Recommended URL: " +:+ test_url first]
    end in
  mret {| diag_platform := Platform_OS env;
          diag_timestamp := Date_toISOString env;
          diag_tests := tests;
          diag_recommendations := recommendations |}.

End WithEnv.
End ConnectionTest.

(** ** The API service module *)

Module Api.

(** The members of RequestInit that reach fetch through the spread of
    [options]. *)
Record RequestInit := {
  init_method : option string;
  init_headers : gmap string string;
  init_body : ReqBody;
  init_signal : option N;
}.

(** options = {} *)
Definition no_options : RequestInit :=
  {| init_method := None; init_headers := ∅; init_body := NoBody; init_signal := None |}.

(** ...(token && { Authorization: `Bearer ${token}` }) *)
Definition auth_header (token : option string) : gmap string string :=
  match token with
  | Some t => if truthy token then {[ "Authorization" := "Bearer " +:+ t ]} else ∅
  | None => ∅
  end.

Section WithEnv.
Context (env : Env).

Definition findWorkingApiUrl_discover : M string :=
  workingUrl ← ApiConfig.findWorkingConnection env;
  match workingUrl with
  | Some u =>
      if truthy workingUrl then
        modify (with_DYNAMIC_API_BASE_URL (Some u));;
        mret u
      else
        let fallbackUrl := ApiConfig.getApiBaseUrl env in
        modify (with_DYNAMIC_API_BASE_URL (Some fallbackUrl));;
        mret fallbackUrl
  | None =>
      let fallbackUrl := ApiConfig.getApiBaseUrl env in
      modify (with_DYNAMIC_API_BASE_URL (Some fallbackUrl));;
      mret fallbackUrl
  end.

Definition findWorkingApiUrl : M string :=
  cached ← gets DYNAMIC_API_BASE_URL;
  match cached with
  | Some u => if truthy cached then mret u else findWorkingApiUrl_discover
  | None => findWorkingApiUrl_discover
  end.

Definition getWorkingApiBaseUrl : M string := findWorkingApiUrl.

Definition getAuthToken : M (option string) :=
  try_catch (AsyncStorage.getItem "authToken") (λ _, mret None).

(** The request apiCall hands to fetch: the spread of [options], then
    the headers object, whose members are the JSON content type, the
    bearer token when there is one, and the caller's headers, later
    members overriding earlier ones. *)
Definition apiCall_request (API_BASE_URL endpoint : string) (options : RequestInit)
    (token : option string) : Request :=
  {| url := API_BASE_URL +:+ endpoint;
     method := init_method options;
     headers := init_headers options ∪ auth_header token
                ∪ {[ "Content-Type" := "application/json" ]};
     body := init_body options;
     timeout := init_signal options |}.

Definition apiCall (endpoint : string) (options : RequestInit) : M JsonData :=
  API_BASE_URL ← getWorkingApiBaseUrl;
  token ← getAuthToken;
  response ← ApiConfig.fetch env (apiCall_request API_BASE_URL endpoint options token);
  if negb (ok response) then
    if (status response =? 401)%nat then
      AsyncStorage.removeItem "authToken";;
      throw (Error "Not authenticated")
    else
      error ← try_catch (response_json response)
                (λ _, mret {| data_detail := Some "Network error";
                              data_access_token := None; data_user := None |});
      throw (Error (or_else (data_detail error) "API request failed"))
  else response_json response.

(** The call sites of apiCall in the module. *)
Definition fetchDiagnosticHistory : M JsonData := apiCall "/diagnostics/" no_options.

Definition fetchDiagnosticById (id : Z) : M JsonData :=
  apiCall ("/diagnostics/" +:+ pretty id) no_options.

Definition searchMechanics (query : string) : M JsonData :=
  apiCall ("/mechanics/search?" +:+ query) no_options.

Definition fetchMechanics : M JsonData := apiCall "/mechanics/" no_options.

Definition fetchMechanicById (id : Z) : M JsonData :=
  apiCall ("/mechanics/" +:+ pretty id) no_options.

Definition getMechanicContactInfo (id : Z) : M JsonData :=
  apiCall ("/mechanics/" +:+ pretty id +:+ "/contact-info") no_options.

Definition registerAsMechanic (mechanicData : list (string * string)) : M JsonData :=
  apiCall "/mechanics/register"
    {| init_method := Some "POST"; init_headers := ∅;
       init_body := JsonBody mechanicData; init_signal := None |}.

Definition createFeedback (feedbackData : list (string * string)) : M JsonData :=
  apiCall "/feedback/"
    {| init_method := Some "POST"; init_headers := ∅;
       init_body := JsonBody feedbackData; init_signal := None |}.

Definition fetchMechanicFeedback (mechanicId : Z) : M JsonData :=
  apiCall ("/feedback/?mechanic_id=" +:+ pretty mechanicId) no_options.

Definition fetchMyFeedback : M JsonData := apiCall "/feedback/my" no_options.

Definition fetchFeedbackStats (mechanicId : Z) : M JsonData :=
  apiCall ("/feedback/stats/mechanic/" +:+ pretty mechanicId) no_options.

Definition fetchNotifications : M JsonData := apiCall "/notifications/" no_options.

Definition markNotificationRead (notificationId : Z) : M JsonData :=
  apiCall ("/notifications/" +:+ pretty notificationId +:+ "/read")
    {| init_method := Some "PUT"; init_headers := ∅;
       init_body := NoBody; init_signal := None |}.

Definition markAllNotificationsRead : M JsonData :=
  apiCall "/notifications/mark-all-read"
    {| init_method := Some "PUT"; init_headers := ∅;
       init_body := NoBody; init_signal := None |}.

Definition getUnreadCount : M JsonData := apiCall "/notifications/unread-count" no_options.

Definition logout : M unit := AsyncStorage.removeItem "authToken".

(** The request of loginUser and registerUser: a POST of the JSON
    members, without token and without abort signal. *)
Definition auth_request (API_BASE_URL path : string) (members : list (string * string))
    : Request :=
  {| url := API_BASE_URL +:+ path; method := Some "POST";
     headers := {[ "Content-Type" := "application/json" ]};
     body := JsonBody members; timeout := None |}.

Definition loginUser (email password : string) : M JsonData :=
  API_BASE_URL ← getWorkingApiBaseUrl;
  response ← ApiConfig.fetch env
    (auth_request API_BASE_URL "/auth/login" [("email", email); ("password", password)]);
  if negb (ok response) then throw (Error "Invalid credentials")
  else
    data ← response_json response;
    (if truthy (data_access_token data)
     then AsyncStorage.setItem "authToken" (data_access_token data)
     else mret tt);;
    mret data.

Definition registerUser (email password name : string) : M JsonData :=
  API_BASE_URL ← getWorkingApiBaseUrl;
  response ← ApiConfig.fetch env
    (auth_request API_BASE_URL "/auth/register"
       [("email", email); ("password", password); ("name", name)]);
  if negb (ok response) then throw (Error "Registration failed")
  else
    data ← response_json response;
    (if truthy (data_access_token data)
     then AsyncStorage.setItem "authToken" (data_access_token data)
     else mret tt);;
    mret data.

(** The argument of the two analysis functions: a URI string, or an
    object of which the members uri, type and name are read. *)
Inductive FileArg :=
  | FileString (s : string)
  | FileObject (uri type name : option string).

(** imageFile.uri || imageFile: an object without uri is appended as it
    is, and [object_locator] is how the platform's FormData writes it. *)
Definition file_uri (object_locator : FileArg → string) (f : FileArg) : string :=
  match f with
  | FileString s => s
  | FileObject uri _ _ => if truthy uri then default "" uri else object_locator f
  end.

Definition file_type (f : FileArg) (fallback : string) : string :=
  match f with
  | FileString _ => fallback
  | FileObject _ type _ => or_else type fallback
  end.

Definition file_name (f : FileArg) (fallback : string) : string :=
  match f with
  | FileString _ => fallback
  | FileObject _ _ name => or_else name fallback
  end.

Definition NETWORK_REQUEST_FAILED : string :=
  "Network request failed - check your connection".

(** The request of the two analysis functions. *)
Definition analyze_request (API_BASE_URL path token : string) (file : ReqBody) : Request :=
  {| url := API_BASE_URL +:+ path; method := Some "POST";
     headers := {[ "Authorization" := "Bearer " +:+ token;
                   "Content-Type" := "multipart/form-data" ]};
     body := file; timeout := None |}.

(** The common body of analyzeDashboardImage and analyzeEngineSound,
    which differ in the path, the defaults of the file descriptor and the
    fallback error message. *)
Definition analyze (object_locator : FileArg → string) (path defaultType defaultName
    failure : string) (file : FileArg) : M JsonData :=
  API_BASE_URL ← getWorkingApiBaseUrl;
  token ← getAuthToken;
  if negb (truthy token) then throw (Error "Not authenticated")
  else
    let formData := FormBody (file_uri object_locator file)
                      (file_type file defaultType) (file_name file defaultName) in
    try_catch
      (response ← ApiConfig.fetch env
         (analyze_request API_BASE_URL path (default "" token) formData);
       if negb (ok response) then
         if (status response =? 401)%nat then
           AsyncStorage.removeItem "authToken";;
           throw (Error "Not authenticated")
         else
           let errorText := text response in
           throw (Error (or_else (Some errorText) failure))
       else response_json response)
      (λ _, throw (Error NETWORK_REQUEST_FAILED)).

Definition analyzeDashboardImage (object_locator : FileArg → string) (imageFile : FileArg)
    : M JsonData :=
  analyze object_locator "/diagnostics/analyze-dashboard" "image/jpeg" "dashboard.jpg"
    "Failed to analyze dashboard image" imageFile.

Definition analyzeEngineSound (object_locator : FileArg → string) (audioFile : FileArg)
    : M JsonData :=
  analyze object_locator "/diagnostics/analyze-sound" "audio/m4a" "engine_sound.m4a"
    "Failed to analyze engine sound" audioFile.

(** connectToNotifications: the URL of the WebSocket it opens. *)
Definition connectToNotifications (token : string) : M string :=
  API_BASE_URL ← getWorkingApiBaseUrl;
  let wsUrl := String_replace "http" "ws" API_BASE_URL +:+ "/notifications/ws/" +:+ token in
  mret wsUrl.

End WithEnv.
End Api.

(** ** context/AuthContext *)

Module AuthContext.

Record MechanicInfo := {
  business_name : option string;
  phone : option string;
  specialization : option string;
  experience_years : option Z;
  address : option string;
}.

(** The members JSON.stringify(info) writes: those that are defined. *)
Definition info_members (info : MechanicInfo) : list (string * string) :=
  omap (λ p : string * option string, (λ v, (p.1, v)) <$> p.2)
    [("business_name", business_name info);
     ("phone", phone info);
     ("specialization", specialization info);
     ("experience_years", pretty <$> experience_years info);
     ("address", address info)].

(** WHERE email = ? AND password = ? *)
Definition row_matches (email password : string) (r : Row) : bool :=
  String.eqb (row_email r) email && String.eqb (row_password r) password.

(** INSERT OR REPLACE: rows in conflict on the primary key [id] or on
    the unique [email] are deleted, then the new row is added. *)
Definition insert_or_replace (r : Row) (rows : list Row) : list Row :=
  List.filter (λ r', negb ((row_id r' =? row_id r)%Z || String.eqb (row_email r') (row_email r)))
    rows ++ [r].

Definition with_users (rows : option (list Row)) (d : Disk) : Disk :=
  {| can_open := can_open d; exec_ok := exec_ok d; query_ok := query_ok d;
     run_ok := run_ok d; users := rows |}.

Definition NetInfo_fetch : M bool := gets isConnected.

(** SQLite.openDatabaseAsync("carfirstaid.db") *)
Definition openDatabaseAsync : M SQLiteDatabase := λ w,
  if can_open (disk w) then (Ok carfirstaid_db, w) else (Throw SQLiteError, w).

(** db.execAsync(CREATE TABLE IF NOT EXISTS users ...) *)
Definition execAsync_create_users : M unit := λ w,
  if exec_ok (disk w) then
    (Ok tt, with_disk (with_users (Some (default [] (users (disk w)))) (disk w)) w)
  else (Throw SQLiteError, w).

(** db!.getFirstAsync(SELECT * FROM users WHERE email = ? AND password = ?) *)
Definition getFirstAsync_user (email password : string) : M (option Row) := λ w,
  match db w with
  | None => (Throw (TypeError "Cannot read property 'getFirstAsync' of null"), w)
  | Some _ =>
      if query_ok (disk w) then
        match users (disk w) with
        | Some rows => (Ok (List.find (row_matches email password) rows), w)
        | None => (Throw SQLiteError, w)
        end
      else (Throw SQLiteError, w)
  end.

(** db!.runAsync(INSERT OR REPLACE INTO users ...) *)
Definition runAsync_insert_user (r : Row) : M unit := λ w,
  match db w with
  | None => (Throw (TypeError "Cannot read property 'runAsync' of null"), w)
  | Some _ =>
      if run_ok (disk w) then
        match users (disk w) with
        | Some rows =>
            (Ok tt, with_disk (with_users (Some (insert_or_replace r rows)) (disk w)) w)
        | None => (Throw SQLiteError, w)
        end
      else (Throw SQLiteError, w)
  end.

Definition initDatabase : M unit :=
  try_catch
    (h ← openDatabaseAsync;
     modify (with_db (Some h));;
     execAsync_create_users)
    (λ _, mret tt).

Section WithEnv.
Context (env : Env).

Definition checkLocalUser (email password : string) : M (option User) :=
  try_catch
    (db ← gets db;
     (if db is None then initDatabase else mret tt);;
     result ← getFirstAsync_user email password;
     match result with
     | Some result =>
         mret (Some {| user_id := row_id result;
                       user_email := row_email result;
                       user_name := row_name result;
                       user_role := row_role result;
                       user_is_active := negb (row_is_active result =? 0)%Z;
                       user_created_at := row_created_at result |})
     | None => mret None
     end)
    (λ _, mret None).

Definition saveLocalUser (user : User) (password : string) : M unit :=
  try_catch
    (db ← gets db;
     (if db is None then initDatabase else mret tt);;
     runAsync_insert_user
       {| row_id := user_id user;
          row_email := user_email user;
          row_name := user_name user;
          row_password := password;
          row_role := user_role user;
          row_is_active := if user_is_active user then 1%Z else 0%Z;
          row_created_at := user_created_at user;
          row_last_synced := Date_toISOString env |})
    (λ _, mret tt).

Definition offline_token : string :=
  "offline_" +:+ pretty (Date_now env) +:+ "_" +:+ Math_random36 env.

Definition OFFLINE_AUTH_ERROR : string :=
  "Cannot authenticate while offline. No matching local account found.".

Definition signIn (email password : string) : M unit :=
  modify (with_isLoading true);;
  try_finally
    (try_catch
       (netInfo ← NetInfo_fetch;
        if negb netInfo then
          localUser ← checkLocalUser email password;
          match localUser with
          | Some localUser =>
              modify (with_user (Some localUser));;
              let offlineToken := offline_token in
              modify (with_token (Some offlineToken));;
              AsyncStorage.setItem "authToken" (Some offlineToken);;
              AsyncStorage.setItem "user" (Some (JSON_stringify env localUser));;
              mret tt
          | None => throw (Error OFFLINE_AUTH_ERROR)
          end
        else
          apiUrl ← gets apiUrl;
          let loginUrl := apiUrl +:+ "/auth/login" in
          response ← ApiConfig.fetchWithTimeout env loginUrl (Some "POST")
                       {[ "Content-Type" := "application/json" ]}
                       (JsonBody [("email", email); ("password", password)]) 30000;
          if negb (ok response) then
            let errorText := text response in
            let errorDetail :=
              match json response with
              | Some errorJson => or_else (data_detail errorJson) "Login failed"
              | None => or_else (Some errorText) "Login failed"
              end in
            throw (Error errorDetail)
          else
            data ← response_json response;
            AsyncStorage.setItem "authToken" (data_access_token data);;
            AsyncStorage.setItem "user" (JSON_stringify env <$> data_user data);;
            (* saveLocalUser catches the TypeError of reading an undefined user *)
            (if data_user data is Some u then saveLocalUser u password else mret tt);;
            modify (with_token (data_access_token data));;
            modify (with_user (data_user data)))
       (λ error, throw error))
    (modify (with_isLoading false)).

Definition signOut : M unit :=
  try_catch
    (AsyncStorage.removeItem "authToken";;
     AsyncStorage.removeItem "user";;
     modify (with_user None);;
     modify (with_token None))
    (λ error, throw error).

Definition OFFLINE_UPDATE_ERROR : string :=
  "Cannot update profile while offline. Please connect to the internet and try again.".

Definition OFFLINE_UPLOAD_ERROR : string :=
  "Cannot upload certificate while offline. Please connect to the internet and try again.".

(** !user || user.role !== "mechanic" || !token *)
Definition updateMechanicInfo_guard (w : World) : bool :=
  match user w with
  | None => true
  | Some u => negb (String.eqb (user_role u) "mechanic") || negb (truthy (token w))
  end.

Definition updateMechanicInfo (info : MechanicInfo) : M unit :=
  guard ← gets updateMechanicInfo_guard;
  if (guard : bool) then mret tt
  else
    try_catch
      (netInfo ← NetInfo_fetch;
       (if negb netInfo then throw (Error OFFLINE_UPDATE_ERROR) else mret tt);;
       apiUrl ← gets apiUrl;
       token ← gets token;
       response ← ApiConfig.fetchWithTimeout env (apiUrl +:+ "/mechanics/me") (Some "PUT")
                    {[ "Content-Type" := "application/json";
                       "Authorization" := "Bearer " +:+ default "" token ]}
                    (JsonBody (info_members info)) ApiConfig.API_TIMEOUT;
       if negb (ok response) then throw (Error "Failed to update mechanic info")
       else mret tt)
      (λ error, throw error).

Definition uploadCertificate (certificateUri : string) : M unit :=
  token ← gets token;
  if negb (truthy token) then throw (Error "Not authenticated")
  else
    try_catch
      (netInfo ← NetInfo_fetch;
       (if negb netInfo then throw (Error OFFLINE_UPLOAD_ERROR) else mret tt);;
       apiUrl ← gets apiUrl;
       response ← ApiConfig.fetchWithTimeout env (apiUrl +:+ "/mechanics/upload-certificate")
                    (Some "POST")
                    {[ "Authorization" := "Bearer " +:+ default "" token ]}
                    (FormBody certificateUri "image/jpeg" "certificate.jpg")
                    ApiConfig.API_TIMEOUT;
       if negb (ok response) then throw (Error "Failed to upload certificate")
       else modify (with_isMechanicVerified true))
      (λ error, throw error).

Definition OFFLINE_REGISTER_ERROR : string :=
  "Cannot register while offline. Please connect to the internet and try again.".

Definition signUp (email password name role : string) : M unit :=
  modify (with_isLoading true);;
  try_finally
    (try_catch
       (netInfo ← NetInfo_fetch;
        (if negb netInfo then throw (Error OFFLINE_REGISTER_ERROR) else mret tt);;
        apiUrl ← gets apiUrl;
        let registerUrl := apiUrl +:+ "/auth/register" in
        response ← ApiConfig.fetchWithTimeout env registerUrl (Some "POST")
                     {[ "Content-Type" := "application/json" ]}
                     (JsonBody [("email", email); ("password", password);
                                ("name", name); ("role", role)]) 30000;
        if negb (ok response) then
          let errorText := text response in
          let errorDetail :=
            match json response with
            | Some errorJson => or_else (data_detail errorJson) "Registration failed"
            | None => or_else (Some errorText) "Registration failed"
            end in
          throw (Error errorDetail)
        else
          data ← response_json response;
          AsyncStorage.setItem "authToken" (data_access_token data);;
          AsyncStorage.setItem "user" (JSON_stringify env <$> data_user data);;
          (if data_user data is Some u then saveLocalUser u password else mret tt);;
          modify (with_token (data_access_token data));;
          modify (with_user (data_user data)))
       (λ error, throw error))
    (modify (with_isLoading false)).

(** The effect that looks for a working API URL when the provider
    mounts.  [API_BASE_URL] is the module variable, whose new value is
    returned. *)
Definition findApi (API_BASE_URL : string) : M string :=
  try_catch
    (workingUrl ← ApiConfig.findWorkingConnection env;
     match workingUrl with
     | Some u =>
         if truthy workingUrl then modify (with_apiUrl u);; mret u
         else modify (with_apiUrl API_BASE_URL);; mret API_BASE_URL
     | None => modify (with_apiUrl API_BASE_URL);; mret API_BASE_URL
     end)
    (λ _, modify (with_apiUrl API_BASE_URL);; mret API_BASE_URL).

(** The effect that restores the stored session when the provider
    mounts.  The state is the world together with isInitialized;
    [JSON_parse] is JSON.parse on the stored user, [None] when it
    throws. *)
Definition loadUser (JSON_parse : string → option User) (s : World * bool)
    : Result unit * (World * bool) :=
  let '(r, w') :=
    try_catch
      (initDatabase;;
       storedToken ← AsyncStorage.getItem "authToken";
       userJSON ← AsyncStorage.getItem "user";
       if truthy storedToken && truthy userJSON then
         modify (with_token storedToken);;
         match userJSON ≫= JSON_parse with
         | Some u => modify (with_user (Some u))
         | None => throw SyntaxError
         end
       else mret tt)
      (λ _, mret tt) s.1 in
  (r, (w', true)).

End WithEnv.
End AuthContext.

(** ** The registration screen *)

Module RegisterScreen.


Section WithEnv.
Context (env : Env).


End WithEnv.
End RegisterScreen.

(** ** Vocabulary of the properties *)

(** The response [fetch] hands back for [req] when it is issued after
    the requests [log]: the network answers, and in time when the request
    carries an abort timer. *)
Definition delivered (env : Env) (log : list Request) (req : Request) : option Response :=
  match net env log req with
  | Respond latency r =>
      match timeout req with
      | Some t => if (latency <? t)%N then Some r else None
      | None => Some r
      end
  | NetworkFailure => None
  | NoReply => None
  end.

(** The probe returns a success response. *)
Definition probe_success (env : Env) (log : list Request) (req : Request) : bool :=
  from_option ok false (delivered env log req).

(** The probe returns a success response whose body is JSON. *)
Definition probe_success_json (env : Env) (log : list Request) (req : Request) : bool :=
  from_option (λ r, ok r && bool_decide (is_Some (json r))) false (delivered env log req).

(** The health probes of the two discovery functions. *)
Definition probe30 (url : string) : Request :=
  ApiConfig.health_request url ApiConfig.HEALTH_CHECK_TIMEOUT.
Definition probe5 (url : string) : Request := ApiConfig.health_request url 5000.

(** Walking [urls] in order from the log [log0], each of the first [k]
    probes is unsuccessful at the moment it is issued. *)
Definition fails_before (success : list Request → Request → bool)
    (probe : string → Request) (log0 : list Request) (urls : list string) (k : nat) : Prop :=
  ∀ i u, i < k → urls !! i = Some u →
    success (log0 ++ (probe <$> take i urls)) (probe u) = false.

(** Candidate [k] is the first whose probe succeeds. *)
Definition first_success (success : list Request → Request → bool)
    (probe : string → Request) (log0 : list Request) (urls : list string)
    (k : nat) (u : string) : Prop :=
  urls !! k = Some u ∧
  fails_before success probe log0 urls k ∧
  success (log0 ++ (probe <$> take k urls)) (probe u) = true.

(** The requests a computation adds to the log. *)
Definition issued {A} (m : M A) (w : World) : list Request :=
  drop (length (net_log w)) (net_log (m w).2).

(** Classes of candidate addresses. *)
Definition ip_url (ip : string) : string := "http://" +:+ ip +:+ ":8000/api".

Definition is_local_address (u : string) : Prop :=
  u ∈ ["http://localhost:8000/api"; "http://127.0.0.1:8000/api"; "http://10.0.2.2:8000/api"].

Definition is_private_address (u : string) : Prop :=
  u ∈ (ip_url <$> ConnectionTest.machineIPs).

(** The cloud URL, first when configured. *)
Definition cloud_part (env : Env) : list string :=
  if ApiConfig.cloud_configured env then [CLOUD_BACKEND_URL env] else [].

(** [l] is the cloud part, then local addresses, then private ones. *)
Definition ordered_as (cloud loc priv l : list string) : Prop :=
  l = cloud ++ loc ++ priv ∧ Forall is_local_address loc ∧ Forall is_private_address priv.

(** The ordering as the specification words it, for a candidate list
    built under [env]. *)
Definition cloud_local_private (env : Env) (l : list string) : Prop :=
  ∃ loc priv, ordered_as (cloud_part env) loc priv l.

(** ** Concrete environments and worlds *)

Definition sample_user : User :=
  {| user_id := 7; user_email := "ann@example.com"; user_name := "Ann";
     user_role := "mechanic"; user_is_active := true;
     user_created_at := "2024-01-01T00:00:00Z" |}.

Definition sample_row : Row :=
  {| row_id := 7; row_email := "ann@example.com"; row_name := "Ann";
     row_password := "secret1"; row_role := "mechanic"; row_is_active := 1;
     row_created_at := "2024-01-01T00:00:00Z";
     row_last_synced := "2024-02-01T00:00:00Z" |}.

Definition stringify_sample (u : User) : string :=
  "{id:" +:+ pretty (user_id u) +:+ ",email:" +:+ user_email u +:+ "}".

Definition health_json : Response :=
  {| status := 200; statusText := "OK"; text := "{status:healthy}";
     json := Some {| data_detail := None; data_access_token := None; data_user := None |} |}.

Definition health_plain : Response :=
  {| status := 200; statusText := "OK"; text := "OK"; json := None |}.

Definition unauthorized : Response :=
  {| status := 401; statusText := "Unauthorized"; text := "{detail:Not authenticated}";
     json := Some {| data_detail := Some "Not authenticated";
                     data_access_token := None; data_user := None |} |}.

Definition login_ok : Response :=
  {| status := 200; statusText := "OK"; text := "{access_token:tok123}";
     json := Some {| data_detail := None; data_access_token := Some "tok123";
                     data_user := Some sample_user |} |}.

Definition mk_env (cloud os : string) (n : list Request → Request → NetOutcome) : Env :=
  {| CLOUD_BACKEND_URL := cloud; Platform_OS := os; net := n;
     Date_now := 1700000000000; Date_toISOString := "2024-02-01T00:00:00Z";
     Math_random36 := "k3j9x0q2a7"; JSON_stringify := stringify_sample |}.

(** Nothing answers. *)
Definition net_silent : list Request → Request → NetOutcome := λ _ _, NoReply.

(** Every connection is refused. *)
Definition net_down : list Request → Request → NetOutcome := λ _ _, NetworkFailure.

(** localhost times out on its health check; 127.0.0.1 is healthy. *)
Definition net_second : list Request → Request → NetOutcome := λ _ req,
  if String.eqb (url req) "http://localhost:8000/api/health" then NoReply
  else if String.eqb (url req) "http://127.0.0.1:8000/api/health" then Respond 50 health_json
  else NetworkFailure.

(** localhost answers its health check with 200 and a plain-text body;
    127.0.0.1 answers with 200 and JSON. *)
Definition net_plain_then_json : list Request → Request → NetOutcome := λ _ req,
  if String.eqb (url req) "http://localhost:8000/api/health" then Respond 20 health_plain
  else if String.eqb (url req) "http://127.0.0.1:8000/api/health" then Respond 20 health_json
  else NetworkFailure.

(** The backend on localhost is healthy, rejects every other request
    with 401 except the login, which it accepts. *)
Definition net_backend : list Request → Request → NetOutcome := λ _ req,
  if String.eqb (url req) "http://localhost:8000/api/health" then Respond 20 health_json
  else if String.eqb (url req) "http://localhost:8000/api/auth/login" then Respond 80 login_ok
  else Respond 30 unauthorized.

Definition healthy_disk (rows : option (list Row)) : Disk :=
  {| can_open := true; exec_ok := true; query_ok := true; run_ok := true; users := rows |}.

Definition broken_disk (rows : option (list Row)) : Disk :=
  {| can_open := false; exec_ok := false; query_ok := false; run_ok := false; users := rows |}.

Definition mk_world (online : bool) (st : gmap string string) (d : Disk)
    (u : option User) (t : option string) : World :=
  {| net_log := []; isConnected := online; storage := st; storage_log := [];
     disk := d; DYNAMIC_API_BASE_URL := None; db := None; user := u; token := t;
     isLoading := false; isMechanicVerified := false;
     apiUrl := "http://localhost:8000/api" |}.

(** A discovery loop returns the first candidate whose probe succeeds
    and probes no candidate after it. *)
Definition returns_first_success {R} (loop : list string → M R)
    (found : R → option string) (success : list Request → Request → bool)
    (probe : string → Request) (urls : list string) (w : World) : Prop :=
  ∀ k u, first_success success probe (net_log w) urls k u →
    ∃ res, loop urls w =
             (Ok res, with_net_log (net_log w ++ (probe <$> take (S k) urls)) w)
           ∧ found res = Some u.

(** The platform-specific addresses and the private addresses each
    discovery function lists, by platform. *)
Definition apiConfig_local (os : string) : list string :=
  if String.eqb os "android" then
    ["http://localhost:8000/api"; "http://10.0.2.2:8000/api"; "http://127.0.0.1:8000/api"]
  else if String.eqb os "ios" then
    ["http://localhost:8000/api"; "http://127.0.0.1:8000/api"]
  else [].

Definition apiConfig_private (os : string) : list string :=
  if String.eqb os "android" || String.eqb os "ios" then [ip_url "192.168.1.100"] else [].

Definition connectionTest_local (os : string) : list string :=
  if String.eqb os "web" then
    ["http://localhost:8000/api"; "http://127.0.0.1:8000/api"]
  else if String.eqb os "android" then
    ["http://10.0.2.2:8000/api"; "http://localhost:8000/api"; "http://127.0.0.1:8000/api"]
  else if String.eqb os "ios" then
    ["http://localhost:8000/api"; "http://127.0.0.1:8000/api"]
  else [].

Definition cloud_env : Env :=
  mk_env "https://diagnostics.example.com/api" "android" net_silent.

Definition web_plain_env : Env :=
  mk_env ApiConfig.PLACEHOLDER_URL "web" net_plain_then_json.

Definition ios_second_env : Env :=
  mk_env ApiConfig.PLACEHOLDER_URL "ios" net_second.

Definition fresh_world : World := mk_world true ∅ (healthy_disk None) None None.

Definition silent_env : Env := mk_env ApiConfig.PLACEHOLDER_URL "android" net_silent.

(** The ordering of candidates as the specification states it, for both
    discovery functions. *)
Definition candidates_cloud_local_private (env : Env) : Prop :=
  cloud_local_private env (ApiConfig.possibleUrls env)
  ∧ cloud_local_private env (ConnectionTest.getPossibleBackendUrls env).

(** The failure kind of the transport: the network failed or the abort
    timer fired. *)
Definition NetworkError (e : Exn) : Prop :=
  match e with
  | TypeError _ | AbortError => True
  | _ => False
  end.

(** The dispatcher's handling of network failures as the specification
    states it: every request the call issues carries a timeout, and when
    the endpoint request gets no response the call fails with a
    NetworkError. *)
Definition dispatcher_network_errors (env : Env) (endpoint : string)
    (options : Api.RequestInit) (w : World) : Prop :=
  Forall (λ req, is_Some (timeout req)) (issued (Api.apiCall env endpoint options) w)
  ∧ (∀ base w1,
       Api.getWorkingApiBaseUrl env w = (Ok base, w1) →
       delivered env (net_log w1)
         (Api.apiCall_request base endpoint options (storage w !! "authToken")) = None →
       ∃ e w', Api.apiCall env endpoint options w = (Throw e, w') ∧ NetworkError e).

Definition backend_env : Env := mk_env ApiConfig.PLACEHOLDER_URL "android" net_backend.

Definition down_env : Env := mk_env ApiConfig.PLACEHOLDER_URL "android" net_down.

Definition signed_in_world : World :=
  mk_world true {[ "authToken" := "stale-token" ]} (healthy_disk None) None None.

(** The options the call sites of apiCall pass: none, a POST with a JSON
    body, a PUT without body. *)
Definition call_site_options (data : list (string * string)) : list Api.RequestInit :=
  [Api.no_options;
   {| Api.init_method := Some "POST"; Api.init_headers := ∅;
      Api.init_body := JsonBody data; Api.init_signal := None |};
   {| Api.init_method := Some "PUT"; Api.init_headers := ∅;
      Api.init_body := NoBody; Api.init_signal := None |}].

(** The request apiCall issues for [endpoint] from world [w] once the
    base URL is resolved. *)
Definition endpoint_request (base endpoint : string) (options : Api.RequestInit)
    (w : World) : Request :=
  Api.apiCall_request base endpoint options (storage w !! "authToken").

(** ** The local credential cache *)

(** The [User] that checkLocalUser builds from a row. *)
Definition user_of_row (r : Row) : User :=
  {| user_id := row_id r; user_email := row_email r; user_name := row_name r;
     user_role := row_role r; user_is_active := negb (row_is_active r =? 0)%Z;
     user_created_at := row_created_at r |}.

(** The cache holds a record matching both email and password exactly. *)
Definition holds_record (w : World) (email password : string) : Prop :=
  ∃ rows r, users (disk w) = Some rows ∧ r ∈ rows
            ∧ row_email r = email ∧ row_password r = password.

(** The first matching row of the table, when the table exists. *)
Definition cache_lookup (w : World) (email password : string) : option Row :=
  users (disk w) ≫= List.find (AuthContext.row_matches email password).

(** The database can be queried: a handle is open or can be opened, and
    SELECT statements succeed. *)
Definition db_usable (w : World) : bool :=
  query_ok (disk w) && (bool_decide (is_Some (db w)) || can_open (disk w)).

Definition offline_env : Env := mk_env ApiConfig.PLACEHOLDER_URL "android" net_down.

Definition offline_world (d : Disk) : World := mk_world false ∅ d None None.

Definition plain_user : User :=
  {| user_id := 9; user_email := "bob@example.com"; user_name := "Bob";
     user_role := "user"; user_is_active := true;
     user_created_at := "2024-03-01T00:00:00Z" |}.

(** ** Vocabulary of the further properties *)

(** The first occurrence of [p] in [s] is between [a] and [b]. *)
Definition first_occurrence (p s a b : string) : Prop :=
  s = a +:+ p +:+ b
  ∧ ∀ i, i < String.length a → startsWith p (string_drop i s) = false.

(** The recommendations of runDiagnostics when no test succeeded. *)
Definition no_connection_recommendations : list string :=
  ["No backend connections successful";
   "Check if backend server is running on port 8000";
   "Verify backend is accessible at http://localhost:8000";
   "Check firewall and network settings"].


(** The backend on localhost answers its health check after 12 s. *)
Definition net_slow : list Request → Request → NetOutcome := λ _ req,
  if String.eqb (url req) "http://localhost:8000/api/health" then Respond 12000 health_json
  else NetworkFailure.

Definition slow_env : Env := mk_env ApiConfig.PLACEHOLDER_URL "ios" net_slow.

(** The row saveLocalUser writes for a user and the submitted password. *)
Definition row_of_user (env : Env) (u : User) (password : string) : Row :=
  {| row_id := user_id u; row_email := user_email u; row_name := user_name u;
     row_password := password; row_role := user_role u;
     row_is_active := if user_is_active u then 1%Z else 0%Z;
     row_created_at := user_created_at u;
     row_last_synced := Date_toISOString env |}.

(** The constraints of the users table: id is the primary key and email
    is unique. *)
Definition users_unique (rows : list Row) : Prop :=
  NoDup (row_id <$> rows) ∧ NoDup (row_email <$> rows).

(** Every operation of the database succeeds. *)
Definition db_works (w : World) : Prop :=
  can_open (disk w) = true ∧ exec_ok (disk w) = true
  ∧ query_ok (disk w) = true ∧ run_ok (disk w) = true.

(** The users table exists, or the handle is not open yet, so that the
    next use creates it. *)
Definition table_ready (w : World) : Prop :=
  db w = None ∨ is_Some (users (disk w)).

(** The world after saveLocalUser has written its row. *)
Definition saved_world (env : Env) (u : User) (password : string) (w : World) : World :=
  with_db (Some carfirstaid_db)
    (with_disk
       (AuthContext.with_users
          (Some (AuthContext.insert_or_replace (row_of_user env u password)
                   (default [] (users (disk w)))))
          (disk w)) w).

Definition bob_row : Row :=
  {| row_id := 9; row_email := "bob@example.com"; row_name := "Bob";
     row_password := "hunter22"; row_role := "user"; row_is_active := 1;
     row_created_at := "2024-03-01T00:00:00Z";
     row_last_synced := "2024-03-02T00:00:00Z" |}.

(** ** Online sign-in and registration *)

(** The request of signIn, through fetchWithTimeout with a 30 s timer. *)
Definition login_request (apiUrl email password : string) : Request :=
  {| url := apiUrl +:+ "/auth/login"; method := Some "POST";
     headers := {[ "Content-Type" := "application/json" ]} ∪ ApiConfig.json_headers;
     body := JsonBody [("email", email); ("password", password)];
     timeout := Some 30000%N |}.

(** The request of signUp. *)
Definition register_request (apiUrl email password name role : string) : Request :=
  {| url := apiUrl +:+ "/auth/register"; method := Some "POST";
     headers := {[ "Content-Type" := "application/json" ]} ∪ ApiConfig.json_headers;
     body := JsonBody [("email", email); ("password", password);
                       ("name", name); ("role", role)];
     timeout := Some 30000%N |}.


(** The world after signIn or signUp got the request [req] accepted with
    token [t] and user [u], over a working database. *)
Definition session_world (env : Env) (req : Request) (t : string) (u : User)
    (password : string) (w : World) : World :=
  with_isLoading false
    (with_user (Some u)
       (with_token (Some t)
          (saved_world env u password
             (with_storage
                (<["user" := JSON_stringify env u]> (<["authToken" := t]> (storage w)))
                (storage_log w ++ [SetItem "authToken" t; SetItem "user" (JSON_stringify env u)])
                (with_net_log (net_log w ++ [req]) w))))).

(** The world after a request that did not lead to a session. *)
Definition request_only_world (req : Request) (w : World) : World :=
  with_isLoading false (with_net_log (net_log w ++ [req]) w).

Definition online_cached_world : World :=
  mk_world true ∅ (healthy_disk (Some [sample_row])) None None.




(** The registration succeeds with the sample user. *)
Definition net_registering : list Request → Request → NetOutcome := λ _ req,
  if String.eqb (url req) "http://localhost:8000/api/auth/register" then Respond 90 login_ok
  else NetworkFailure.

Definition registering_env : Env := mk_env ApiConfig.PLACEHOLDER_URL "android" net_registering.






(** ** The API service *)

(** The request of loginUser once the base URL is resolved. *)
Definition loginUser_request (base email password : string) : Request :=
  Api.auth_request base "/auth/login" [("email", email); ("password", password)].

Definition registerUser_request (base email password name : string) : Request :=
  Api.auth_request base "/auth/register"
    [("email", email); ("password", password); ("name", name)].

(** The world after getAuthToken has read the token. *)
Definition token_read_world (w : World) : World :=
  with_storage (storage w) (storage_log w ++ [GetItem "authToken"]) w.




(** The backend accepts the login of the API service. *)
Definition net_login_backend : list Request → Request → NetOutcome := λ _ req,
  if String.eqb (url req) "http://localhost:8000/api/health" then Respond 20 health_json
  else if String.eqb (url req) "http://localhost:8000/api/auth/login" then Respond 80 login_ok
  else Respond 30 health_json.

Definition login_backend_env : Env :=
  mk_env ApiConfig.PLACEHOLDER_URL "android" net_login_backend.

(** The outcomes of an analysis call [call] whose endpoint request, for
    a base URL and a token, is [req]. *)
Definition analysis_outcomes (env : Env) (call : M JsonData)
    (req : string → string → Request) (w : World) : Prop :=
  ∀ base w1, Api.getWorkingApiBaseUrl env w = (Ok base, w1) →
    (truthy (storage w !! "authToken") = false →
     call w = (Throw (Error "Not authenticated"), token_read_world w1))
    ∧ (∀ t, storage w !! "authToken" = Some t → t ≠ "" →
         net_log (call w).2 = net_log w1 ++ [req base t]
         ∧ timeout (req base t) = None
         ∧ (∀ r d, delivered env (net_log w1) (req base t) = Some r →
              ok r = true → json r = Some d →
              (call w).1 = Ok d ∧ storage (call w).2 = storage w)
         ∧ (∀ r, delivered env (net_log w1) (req base t) = Some r →
              ok r = true → json r = None →
              (call w).1 = Throw (Error Api.NETWORK_REQUEST_FAILED))
         ∧ (∀ r, delivered env (net_log w1) (req base t) = Some r →
              status r = 401 →
              (call w).1 = Throw (Error Api.NETWORK_REQUEST_FAILED)
              ∧ storage (call w).2 = delete "authToken" (storage w))
         ∧ (∀ r, delivered env (net_log w1) (req base t) = Some r →
              ok r = false → status r ≠ 401 →
              (call w).1 = Throw (Error Api.NETWORK_REQUEST_FAILED)
              ∧ storage (call w).2 = storage w)
         ∧ (net env (net_log w1) (req base t) = NetworkFailure →
              (call w).1 = Throw (Error Api.NETWORK_REQUEST_FAILED))
         ∧ (net env (net_log w1) (req base t) = NoReply → (call w).1 = Pending)).

(** The file descriptor the analysis functions append to their FormData. *)
Definition file_descriptor (object_locator : Api.FileArg → string) (file : Api.FileArg)
    (defaultType defaultName : string) : ReqBody :=
  FormBody (Api.file_uri object_locator file) (Api.file_type file defaultType)
    (Api.file_name file defaultName).

Definition no_locator : Api.FileArg → string := λ _, "[object Object]".

Definition dashboard_photo : Api.FileArg :=
  Api.FileObject (Some "file:///photos/dash.jpg") (Some "image/jpeg") (Some "dashboard.jpg").

(** ** Certificate upload and profile update *)

(** The request of uploadCertificate, through fetchWithTimeout with its
    default timer. *)
Definition upload_request (apiUrl token certificateUri : string) : Request :=
  {| url := apiUrl +:+ "/mechanics/upload-certificate"; method := Some "POST";
     headers := {[ "Authorization" := "Bearer " +:+ token ]} ∪ ApiConfig.json_headers;
     body := FormBody certificateUri "image/jpeg" "certificate.jpg";
     timeout := Some ApiConfig.API_TIMEOUT |}.


Definition mechanic_world : World :=
  mk_world true {[ "authToken" := "tok123" ]} (healthy_disk None)
    (Some sample_user) (Some "tok123").


(** ** Start of the provider *)

(** A new process over the same device: the storage, the database file
    and the connectivity persist; the module variables and the state of
    the provider start afresh. *)
Definition restarted (env : Env) (w : World) : World :=
  {| net_log := net_log w; isConnected := isConnected w; storage := storage w;
     storage_log := storage_log w; disk := disk w;
     DYNAMIC_API_BASE_URL := None; db := None; user := None; token := None;
     isLoading := false; isMechanicVerified := false;
     apiUrl := ApiConfig.getApiBaseUrl env |}.

(** A parser that inverts the sample serialisation on the sample user. *)
Definition parse_sample (s : string) : option User :=
  if String.eqb s (stringify_sample sample_user) then Some sample_user else None.

(** A storage whose user entry is not the serialisation of a user. *)
Definition corrupt_user_world : World :=
  mk_world true {[ "authToken" := "tok123"; "user" := "{id:" ]} (healthy_disk None)
    None None.

(** * Properties *)

(** ** The monad and the platform *)

(** Unfolds the monadic operations of a computation. *)
Ltac run :=
  unfold mbind, M_bind, bind, mret, M_ret, ret, gets, modify, throw, try_catch; simpl.

Lemma with_net_log_id w : with_net_log (net_log w) w = w.
Proof. by destruct w. Qed.

Lemma fetch_run env req w :
  ApiConfig.fetch env req w =
    (match delivered env (net_log w) req with
     | Some r => Ok r
     | None =>
         match net env (net_log w) req, timeout req with
         | NetworkFailure, _ => Throw (TypeError "Network request failed")
         | _, Some _ => Throw AbortError
         | _, None => Pending
         end
     end,
     with_net_log (net_log w ++ [req]) w).
Proof.
  unfold ApiConfig.fetch, delivered.
  destruct (net env (net_log w) req) as [lat r| |]; [|done|];
    destruct (timeout req) as [t|]; try done.
  by destruct (lat <? t)%N.
Qed.

(** A request with an abort timer always settles. *)
Lemma fetch_timed_settles env req w t :
  timeout req = Some t →
  ∃ res, ApiConfig.fetch env req w = (res, with_net_log (net_log w ++ [req]) w)
         ∧ res ≠ Pending
         ∧ (∀ r, res = Ok r ↔ delivered env (net_log w) req = Some r).
Proof.
  intros Ht. rewrite fetch_run, Ht.
  destruct (delivered env (net_log w) req) as [r|] eqn:Hd.
  - eexists; split; [done|]. split; [done|]. intros r'; split; congruence.
  - destruct (net env (net_log w) req); eexists; (split; [done|]); split; try done;
      intros r'; split; congruence.
Qed.

(** ** Discovery: utils/apiConfig *)

Lemma testConnection_run env url w :
  ApiConfig.testConnection env url w =
    (Ok (probe_success env (net_log w) (probe30 url)),
     with_net_log (net_log w ++ [probe30 url]) w).
Proof.
  unfold ApiConfig.testConnection, try_catch, probe_success, probe30.
  unfold mbind, M_bind, bind.
  destruct (fetch_timed_settles env
              (ApiConfig.health_request url ApiConfig.HEALTH_CHECK_TIMEOUT) w
              ApiConfig.HEALTH_CHECK_TIMEOUT eq_refl) as (res & -> & Hp & Hok).
  destruct res as [r|e|]; [| |done].
  - by rewrite (proj1 (Hok r) eq_refl).
  - destruct (delivered env (net_log w) _) as [r|] eqn:Hd; [|done].
    by specialize (proj2 (Hok r) eq_refl).
Qed.

Lemma fails_before_cons success probe log0 u rest k :
  fails_before success probe log0 (u :: rest) (S k) →
  success log0 (probe u) = false
  ∧ fails_before success probe (log0 ++ [probe u]) rest k.
Proof.
  intros H. split.
  - specialize (H 0 u). simpl in H. rewrite app_nil_r in H. apply H; [lia|done].
  - intros i v Hi Hv. specialize (H (S i) v). simpl in H.
    rewrite <- app_assoc. simpl. apply H; [lia|done].
Qed.

Lemma findWorkingConnection_loop_all_fail env urls w :
  fails_before (probe_success env) probe30 (net_log w) urls (length urls) →
  ApiConfig.findWorkingConnection_loop env urls w =
    (Ok None, with_net_log (net_log w ++ (probe30 <$> urls)) w).
Proof.
  revert w. induction urls as [|u rest IH]; intros w H; simpl.
  - by rewrite app_nil_r, with_net_log_id.
  - apply fails_before_cons in H as [H0 H].
    unfold mbind, M_bind, bind, try_catch. rewrite testConnection_run, H0.
    rewrite IH by done. simpl. by rewrite <- app_assoc.
Qed.

Lemma findWorkingConnection_loop_first env urls k u w :
  first_success (probe_success env) probe30 (net_log w) urls k u →
  ApiConfig.findWorkingConnection_loop env urls w =
    (Ok (Some u), with_net_log (net_log w ++ (probe30 <$> take (S k) urls)) w).
Proof.
  revert urls w. induction k as [|k IH]; intros urls w (Hu & Hfail & Hok).
  - destruct urls as [|u' rest]; [done|]. simpl in Hu. injection Hu as ->.
    simpl in *. rewrite app_nil_r in Hok.
    unfold mbind, M_bind, bind, try_catch. by rewrite testConnection_run, Hok.
  - destruct urls as [|u' rest]; [done|]. simpl in Hu.
    apply fails_before_cons in Hfail as [H0 Hfail].
    simpl. unfold mbind, M_bind, bind, try_catch. rewrite testConnection_run, H0.
    rewrite (IH rest); simpl.
    + by rewrite <- app_assoc.
    + split; [done|]. split; [done|].
      simpl in Hok. rewrite <- app_assoc. done.
Qed.

(** ** Discovery: utils/connectionTest *)

Lemma json_headers_twice :
  ApiConfig.json_headers ∪ ApiConfig.json_headers = ApiConfig.json_headers.
Proof. apply (idemp_L (∪)). Qed.

Lemma testSingleConnection_run env baseUrl w :
  ∃ res, ConnectionTest.testSingleConnection env baseUrl w =
           (Ok res, with_net_log (net_log w ++ [probe5 baseUrl]) w)
    ∧ ConnectionTest.success res = probe_success_json env (net_log w) (probe5 baseUrl)
    ∧ ConnectionTest.workingUrl res =
        (if ConnectionTest.success res then Some baseUrl else None).
Proof.
  unfold ConnectionTest.testSingleConnection, ApiConfig.fetchWithTimeout.
  rewrite json_headers_twice. fold (ApiConfig.health_request baseUrl 5000).
  fold (probe5 baseUrl). unfold try_catch, mbind, M_bind, bind, probe_success_json.
  destruct (fetch_timed_settles env (probe5 baseUrl) w 5000 eq_refl)
    as (res & -> & Hp & Hok).
  destruct res as [r|e|]; [| |done].
  - rewrite (proj1 (Hok r) eq_refl). simpl.
    destruct (ok r) eqn:Hr; simpl.
    + unfold response_json. destruct (json r) as [d|] eqn:Hj; simpl.
      * eexists; split; [done|]. simpl. by rewrite ?Hr, ?Hj.
      * eexists; split; [done|]. simpl. by rewrite ?Hr, ?Hj.
    + eexists; split; [done|]. simpl. by rewrite ?Hr.
  - simpl. destruct (delivered env (net_log w) _) as [r|] eqn:Hd.
    + by specialize (proj2 (Hok r) eq_refl).
    + eexists; split; [done|]. done.
Qed.

Lemma testBackendConnection_loop_all_fail env all urls w :
  fails_before (probe_success_json env) probe5 (net_log w) urls (length urls) →
  ∃ res, ConnectionTest.testBackendConnection_loop env all urls w =
           (Ok res, with_net_log (net_log w ++ (probe5 <$> urls)) w)
    ∧ ConnectionTest.success res = false
    ∧ ConnectionTest.workingUrl res = None.
Proof.
  revert w. induction urls as [|u rest IH]; intros w H; simpl.
  - eexists. rewrite app_nil_r, with_net_log_id. done.
  - apply fails_before_cons in H as [H0 H].
    unfold mbind, M_bind, bind.
    destruct (testSingleConnection_run env u w) as (r & -> & Hs & _).
    rewrite Hs, H0.
    destruct (IH (with_net_log (net_log w ++ [probe5 u]) w)) as (res & -> & ? & ?);
      [done|].
    exists res. simpl. by rewrite <- app_assoc.
Qed.

Lemma testBackendConnection_loop_first env all urls k u w :
  first_success (probe_success_json env) probe5 (net_log w) urls k u →
  ∃ res, ConnectionTest.testBackendConnection_loop env all urls w =
           (Ok res, with_net_log (net_log w ++ (probe5 <$> take (S k) urls)) w)
    ∧ ConnectionTest.success res = true
    ∧ ConnectionTest.workingUrl res = Some u.
Proof.
  revert urls w. induction k as [|k IH]; intros urls w (Hu & Hfail & Hok).
  - destruct urls as [|u' rest]; [done|]. simpl in Hu. injection Hu as ->.
    simpl in *. rewrite app_nil_r in Hok.
    unfold mbind, M_bind, bind.
    destruct (testSingleConnection_run env u w) as (r & -> & Hs & Hw).
    rewrite Hs, Hok in *. by exists r.
  - destruct urls as [|u' rest]; [done|]. simpl in Hu.
    apply fails_before_cons in Hfail as [H0 Hfail].
    simpl. unfold mbind, M_bind, bind.
    destruct (testSingleConnection_run env u' w) as (r & -> & Hs & _).
    rewrite Hs, H0.
    destruct (IH rest (with_net_log (net_log w ++ [probe5 u']) w)) as (res & -> & ? & ?).
    + split; [done|]. split; [done|].
      simpl in Hok. simpl. rewrite <- app_assoc. done.
    + exists res. simpl. by rewrite <- app_assoc.
Qed.

Lemma probe_success_json_le env log req :
  probe_success env log req = false → probe_success_json env log req = false.
Proof.
  unfold probe_success, probe_success_json.
  destruct (delivered env log req) as [r|]; simpl; [|done]. by intros ->.
Qed.

Lemma fails_before_json env probe log0 urls k :
  fails_before (probe_success env) probe log0 urls k →
  fails_before (probe_success_json env) probe log0 urls k.
Proof. intros H i u Hi Hu. apply probe_success_json_le. by apply H. Qed.

Lemma findWorkingConnection_loop_total env urls w :
  ∃ r w', ApiConfig.findWorkingConnection_loop env urls w = (Ok r, w').
Proof.
  revert w. induction urls as [|u rest IH]; intros w; simpl; [by eexists _, _|].
  unfold mbind, M_bind, bind, try_catch. rewrite testConnection_run.
  destruct (probe_success _ _ _); [by eexists _, _|]. apply IH.
Qed.

Lemma testBackendConnection_loop_total env all urls w :
  ∃ r w', ConnectionTest.testBackendConnection_loop env all urls w = (Ok r, w').
Proof.
  revert w. induction urls as [|u rest IH]; intros w; simpl; [by eexists _, _|].
  unfold mbind, M_bind, bind.
  destruct (testSingleConnection_run env u w) as (r & -> & _ & _).
  destruct (ConnectionTest.success r); [by eexists _, _|]. apply IH.
Qed.

(** C1 (as amended). In findWorkingConnection, when candidate k is the
    first whose health probe returns a success response, the loop returns
    candidate k and the probes it issued are exactly those of candidates
    0..k, in order.  In testBackendConnection the same holds when a probe
    counts as successful only if the success response also has a JSON
    body. *)
Theorem discovery_returns_first_success env all urls w :
  returns_first_success (ApiConfig.findWorkingConnection_loop env) id
    (probe_success env) probe30 urls w
  ∧ returns_first_success (ConnectionTest.testBackendConnection_loop env all)
      ConnectionTest.workingUrl (probe_success_json env) probe5 urls w.
Proof.
  split; intros k u H.
  - exists (Some u). split; [|done]. by apply findWorkingConnection_loop_first.
  - destruct (testBackendConnection_loop_first env all urls k u w H) as (res & ? & ? & ?).
    by exists res.
Qed.

Lemma discovery_returns_first_success_witness :
  first_success (probe_success ios_second_env) probe30 []
    (ApiConfig.possibleUrls ios_second_env) 1 "http://127.0.0.1:8000/api"
  ∧ ApiConfig.findWorkingConnection ios_second_env fresh_world =
      (Ok (Some "http://127.0.0.1:8000/api"),
       with_net_log [probe30 "http://localhost:8000/api"; probe30 "http://127.0.0.1:8000/api"]
         fresh_world)
  ∧ first_success (probe_success_json web_plain_env) probe5 []
      (ConnectionTest.getPossibleBackendUrls web_plain_env) 1 "http://127.0.0.1:8000/api"
  ∧ ∃ res, ConnectionTest.testBackendConnection web_plain_env fresh_world =
             (Ok res,
              with_net_log [probe5 "http://localhost:8000/api"; probe5 "http://127.0.0.1:8000/api"]
                fresh_world)
      ∧ ConnectionTest.workingUrl res = Some "http://127.0.0.1:8000/api".
Proof.
  assert (Hf : first_success (probe_success ios_second_env) probe30 []
                 (ApiConfig.possibleUrls ios_second_env) 1 "http://127.0.0.1:8000/api").
  { split; [reflexivity|]. split; [|reflexivity].
    intros i v Hi Hv. destruct i as [|i]; [|lia].
    injection Hv as <-. reflexivity. }
  assert (Hj : first_success (probe_success_json web_plain_env) probe5 []
                 (ConnectionTest.getPossibleBackendUrls web_plain_env) 1
                 "http://127.0.0.1:8000/api").
  { split; [reflexivity|]. split; [|reflexivity].
    intros i v Hi Hv. destruct i as [|i]; [|lia].
    injection Hv as <-. reflexivity. }
  split; [exact Hf|]. split.
  - destruct (proj1 (discovery_returns_first_success ios_second_env []
                       (ApiConfig.possibleUrls ios_second_env) fresh_world) 1
                    "http://127.0.0.1:8000/api" Hf) as (res & Hrun & Hres).
    simpl in Hres. subst res. exact Hrun.
  - split; [exact Hj|].
    exact (proj2 (discovery_returns_first_success web_plain_env
                    (ConnectionTest.getPossibleBackendUrls web_plain_env)
                    (ConnectionTest.getPossibleBackendUrls web_plain_env) fresh_world) 1
                 "http://127.0.0.1:8000/api" Hj).
Defined.

(** C1 as stated fails for testBackendConnection: on the web platform,
    localhost answers its health probe with status 200 and a plain-text
    body, so it is the first candidate with a success response, yet the
    loop goes on to probe 127.0.0.1 and returns that one. *)
Lemma testBackendConnection_skips_plain_200 :
  ¬ returns_first_success
      (ConnectionTest.testBackendConnection_loop web_plain_env
         (ConnectionTest.getPossibleBackendUrls web_plain_env))
      ConnectionTest.workingUrl (probe_success web_plain_env) probe5
      (ConnectionTest.getPossibleBackendUrls web_plain_env) fresh_world.
Proof.
  intros H.
  destruct (H 0 "http://localhost:8000/api") as (res & Hrun & Hres).
  { split; [reflexivity|]. split; [|reflexivity]. intros i v Hi. lia. }
  vm_compute in Hrun. injection Hrun as <-. discriminate Hres.
Qed.

(** What the code does on that input. *)
Example testBackendConnection_plain_200_run :
  ∃ res w', ConnectionTest.testBackendConnection web_plain_env fresh_world = (Ok res, w')
    ∧ ConnectionTest.workingUrl res = Some "http://127.0.0.1:8000/api"
    ∧ net_log w' = [probe5 "http://localhost:8000/api"; probe5 "http://127.0.0.1:8000/api"].
Proof. eexists _, _. split; [vm_compute; reflexivity|]. split; reflexivity. Qed.

(** C2. Each probe catches every error and settles with a value, so
    both loops always return; when every candidate's probe fails (no
    answer in time, network failure or a status that is not a success),
    findWorkingConnection returns null and testBackendConnection returns
    a result with success false and no working URL, each after probing
    every candidate once. *)
Theorem discovery_all_fail env all urls w :
  (∀ url w0, ∃ b w', ApiConfig.testConnection env url w0 = (Ok b, w'))
  ∧ (∀ url w0, ∃ r w', ConnectionTest.testSingleConnection env url w0 = (Ok r, w'))
  ∧ (∃ r w', ApiConfig.findWorkingConnection_loop env urls w = (Ok r, w'))
  ∧ (∃ r w', ConnectionTest.testBackendConnection_loop env all urls w = (Ok r, w'))
  ∧ (fails_before (probe_success env) probe30 (net_log w) urls (length urls) →
     ApiConfig.findWorkingConnection_loop env urls w =
       (Ok None, with_net_log (net_log w ++ (probe30 <$> urls)) w))
  ∧ (fails_before (probe_success env) probe5 (net_log w) urls (length urls) →
     ∃ res, ConnectionTest.testBackendConnection_loop env all urls w =
              (Ok res, with_net_log (net_log w ++ (probe5 <$> urls)) w)
       ∧ ConnectionTest.success res = false
       ∧ ConnectionTest.workingUrl res = None).
Proof.
  split; [|split; [|split; [|split; [|split]]]].
  - intros url w0. rewrite testConnection_run. by eexists _, _.
  - intros url w0. destruct (testSingleConnection_run env url w0) as (r & -> & _).
    by eexists _, _.
  - apply findWorkingConnection_loop_total.
  - apply testBackendConnection_loop_total.
  - apply findWorkingConnection_loop_all_fail.
  - intros H. apply testBackendConnection_loop_all_fail. by apply fails_before_json.
Qed.

Lemma discovery_all_fail_witness :
  fails_before (probe_success silent_env) probe30 []
    (ApiConfig.possibleUrls silent_env) 4
  ∧ fails_before (probe_success silent_env) probe5 []
      (ConnectionTest.getPossibleBackendUrls silent_env) 7
  ∧ ApiConfig.findWorkingConnection silent_env fresh_world =
      (Ok None, with_net_log (probe30 <$> ApiConfig.possibleUrls silent_env) fresh_world)
  ∧ ∃ res, ConnectionTest.testBackendConnection silent_env fresh_world =
             (Ok res,
              with_net_log (probe5 <$> ConnectionTest.getPossibleBackendUrls silent_env)
                fresh_world)
      ∧ ConnectionTest.success res = false
      ∧ ConnectionTest.workingUrl res = None.
Proof.
  assert (H30 : fails_before (probe_success silent_env) probe30 []
                  (ApiConfig.possibleUrls silent_env) 4) by (intros i u _ _; reflexivity).
  assert (H5 : fails_before (probe_success silent_env) probe5 []
                 (ConnectionTest.getPossibleBackendUrls silent_env) 7)
    by (intros i u _ _; reflexivity).
  split; [exact H30|]. split; [exact H5|].
  pose proof (discovery_all_fail silent_env
                (ApiConfig.possibleUrls silent_env)
                (ApiConfig.possibleUrls silent_env) fresh_world) as (_ & _ & _ & _ & Hf & _).
  pose proof (discovery_all_fail silent_env
                (ConnectionTest.getPossibleBackendUrls silent_env)
                (ConnectionTest.getPossibleBackendUrls silent_env) fresh_world)
    as (_ & _ & _ & _ & _ & Ht).
  split; [exact (Hf H30)|exact (Ht H5)].
Defined.

(** ** The candidate lists *)

Lemma apiConfig_local_addresses os : Forall is_local_address (apiConfig_local os).
Proof.
  unfold apiConfig_local.
  destruct (String.eqb os "android"); [repeat constructor|].
  destruct (String.eqb os "ios"); repeat constructor.
Qed.

Lemma connectionTest_local_addresses os : Forall is_local_address (connectionTest_local os).
Proof.
  unfold connectionTest_local.
  destruct (String.eqb os "web"); [repeat constructor|].
  destruct (String.eqb os "android"); [repeat constructor|].
  destruct (String.eqb os "ios"); repeat constructor.
Qed.

Lemma apiConfig_private_addresses os : Forall is_private_address (apiConfig_private os).
Proof.
  unfold apiConfig_private.
  destruct (String.eqb os "android" || String.eqb os "ios"); repeat constructor.
Qed.

(** C8 (as amended). findWorkingConnection lists the cloud URL first
    when it is configured, then the platform's localhost and emulator
    addresses, then one private address, the last two for android and ios
    only.  getPossibleBackendUrls lists the platform's localhost and
    emulator addresses, then the four private addresses, and never the
    cloud URL.  Both lists are a function of the configuration alone. *)
Theorem candidate_lists_order env :
  ordered_as (cloud_part env) (apiConfig_local (Platform_OS env))
    (apiConfig_private (Platform_OS env)) (ApiConfig.possibleUrls env)
  ∧ ordered_as [] (connectionTest_local (Platform_OS env))
      (ip_url <$> ConnectionTest.machineIPs) (ConnectionTest.getPossibleBackendUrls env).
Proof.
  split; (split; [|split]).
  - unfold ApiConfig.possibleUrls, cloud_part, apiConfig_local, apiConfig_private,
      ApiConfig.push.
    destruct (ApiConfig.cloud_configured env);
      destruct (String.eqb (Platform_OS env) "android");
      destruct (String.eqb (Platform_OS env) "ios"); reflexivity.
  - apply apiConfig_local_addresses.
  - apply apiConfig_private_addresses.
  - unfold ConnectionTest.getPossibleBackendUrls, connectionTest_local, ApiConfig.push.
    destruct (String.eqb (Platform_OS env) "web");
      destruct (String.eqb (Platform_OS env) "android");
      destruct (String.eqb (Platform_OS env) "ios"); reflexivity.
  - apply connectionTest_local_addresses.
  - apply Forall_forall. intros x Hx. exact Hx.
Qed.

(** C8 as stated fails: with the cloud URL configured, the candidate
    list of getPossibleBackendUrls on android starts with the emulator
    address and does not contain the cloud URL at all. *)
Lemma getPossibleBackendUrls_omits_cloud :
  ApiConfig.cloud_configured cloud_env = true
  ∧ ¬ candidates_cloud_local_private cloud_env.
Proof.
  split; [reflexivity|].
  intros [_ (loc & priv & Heq & _ & _)].
  vm_compute in Heq. discriminate Heq.
Qed.

(** On a platform other than android and ios, findWorkingConnection has
    no candidate besides the cloud URL. *)
Example possibleUrls_web :
  ApiConfig.possibleUrls web_plain_env = [].
Proof. reflexivity. Qed.

(** ** The cached base URL *)

Lemma truthy_Some u : truthy (Some u) = true ↔ u ≠ "".
Proof.
  simpl. destruct (String.eqb_spec u ""); simpl; split; congruence.
Qed.

Lemma findWorkingConnection_loop_frame env urls w :
  ∃ r used, ApiConfig.findWorkingConnection_loop env urls w =
              (Ok r, with_net_log (net_log w ++ (probe30 <$> used)) w)
    ∧ (∀ u, r = Some u → u ∈ urls).
Proof.
  revert w. induction urls as [|u rest IH]; intros w; simpl.
  - exists None, []. simpl. rewrite app_nil_r, with_net_log_id. done.
  - run. rewrite testConnection_run.
    destruct (probe_success _ _ _).
    + exists (Some u), [u]. split; [done|]. intros ? [= <-]. left.
    + destruct (IH (with_net_log (net_log w ++ [probe30 u]) w)) as (r & used & -> & Hr).
      exists r, (u :: used). simpl. rewrite <- app_assoc. split; [done|].
      intros v Hv. right. by apply Hr.
Qed.

Lemma possibleUrls_nonempty env u :
  CLOUD_BACKEND_URL env ≠ "" → u ∈ ApiConfig.possibleUrls env → u ≠ "".
Proof.
  intros Hc. unfold ApiConfig.possibleUrls, ApiConfig.push.
  destruct (ApiConfig.cloud_configured env);
    destruct (String.eqb (Platform_OS env) "android");
    destruct (String.eqb (Platform_OS env) "ios"); simpl;
    rewrite ?elem_of_cons, elem_of_nil; intros H; intros ->;
    repeat (destruct H as [H|H]; [done || discriminate H|]); done.
Qed.

Lemma getApiBaseUrl_nonempty env :
  CLOUD_BACKEND_URL env ≠ "" → ApiConfig.getApiBaseUrl env ≠ "".
Proof.
  intros Hc. unfold ApiConfig.getApiBaseUrl.
  destruct (ApiConfig.cloud_configured env); [done|].
  destruct (String.eqb (Platform_OS env) "android"); [done|].
  destruct (String.eqb (Platform_OS env) "ios"); done.
Qed.

(** Discovery for the API service settles with a URL, adds only health
    probes to the log and writes only the module variable. *)
Lemma findWorkingApiUrl_discover_frame env w :
  ∃ u used, Api.findWorkingApiUrl_discover env w =
              (Ok u, with_DYNAMIC_API_BASE_URL (Some u)
                       (with_net_log (net_log w ++ (probe30 <$> used)) w))
    ∧ (u ∈ ApiConfig.possibleUrls env ∨ u = ApiConfig.getApiBaseUrl env)
    ∧ match (ApiConfig.findWorkingConnection env w).1 with
      | Ok (Some found) => truthy (Some found) = true → u = found
      | _ => u = ApiConfig.getApiBaseUrl env
      end.
Proof.
  unfold Api.findWorkingApiUrl_discover, ApiConfig.findWorkingConnection. run.
  destruct (findWorkingConnection_loop_frame env (ApiConfig.possibleUrls env) w)
    as (r & used & -> & Hr). simpl.
  destruct r as [found|]; simpl.
  - destruct (String.eqb found ""); simpl.
    + exists (ApiConfig.getApiBaseUrl env), used. split; [done|]. split; [by right|done].
    + exists found, used. split; [done|]. split; [left; by apply Hr|done].
  - exists (ApiConfig.getApiBaseUrl env), used. split; [done|]. split; [by right|done].
Qed.

Lemma findWorkingApiUrl_cached env w u :
  DYNAMIC_API_BASE_URL w = Some u → u ≠ "" →
  Api.findWorkingApiUrl env w = (Ok u, w).
Proof.
  intros Hd Hu. unfold Api.findWorkingApiUrl. run. rewrite Hd. simpl.
  by destruct (String.eqb_spec u "").
Qed.

Lemma with_frame_id w :
  with_DYNAMIC_API_BASE_URL (DYNAMIC_API_BASE_URL w)
    (with_net_log (net_log w ++ (probe30 <$> [])) w) = w.
Proof. destruct w. simpl. by rewrite app_nil_r. Qed.

Lemma findWorkingApiUrl_frame env w :
  ∃ u dyn used, Api.findWorkingApiUrl env w =
                  (Ok u, with_DYNAMIC_API_BASE_URL dyn
                           (with_net_log (net_log w ++ (probe30 <$> used)) w))
    ∧ (DYNAMIC_API_BASE_URL w = Some u ∧ dyn = Some u ∧ used = []
       ∨ dyn = Some u
         ∧ (u ∈ ApiConfig.possibleUrls env ∨ u = ApiConfig.getApiBaseUrl env)).
Proof.
  unfold Api.findWorkingApiUrl. run.
  destruct (DYNAMIC_API_BASE_URL w) as [u|] eqn:Hd; simpl.
  - destruct (String.eqb u "") eqn:He; simpl.
    + destruct (findWorkingApiUrl_discover_frame env w) as (v & used & -> & Hv & _).
      exists v, (Some v), used. split; [done|]. by right.
    + exists u, (Some u), []. rewrite <- Hd, with_frame_id. split; [done|].
      left. by rewrite Hd.
  - destruct (findWorkingApiUrl_discover_frame env w) as (v & used & -> & Hv & _).
    exists v, (Some v), used. split; [done|]. by right.
Qed.

(** C9. Once a call to findWorkingApiUrl has completed, the module
    variable holds the URL it returned (the first working candidate, or
    the default of getApiBaseUrl when discovery found none), and every
    later call made while the variable holds it returns the same URL and
    leaves the world, its request log included, unchanged. *)
Theorem findWorkingApiUrl_cached_for_process env w u w1 :
  CLOUD_BACKEND_URL env ≠ "" →
  Api.findWorkingApiUrl env w = (Ok u, w1) →
  DYNAMIC_API_BASE_URL w1 = Some u
  ∧ (truthy (DYNAMIC_API_BASE_URL w) = false →
     match (ApiConfig.findWorkingConnection env w).1 with
     | Ok (Some found) => u = found
     | _ => u = ApiConfig.getApiBaseUrl env
     end)
  ∧ (∀ w2, DYNAMIC_API_BASE_URL w2 = DYNAMIC_API_BASE_URL w1 →
       Api.findWorkingApiUrl env w2 = (Ok u, w2))
  ∧ (∀ n w2, DYNAMIC_API_BASE_URL w2 = DYNAMIC_API_BASE_URL w1 →
       Nat.iter n (λ rw, Api.findWorkingApiUrl env rw.2) (Ok u, w2) = (Ok u, w2)).
Proof.
  intros Hc Hrun.
  assert (Hu : DYNAMIC_API_BASE_URL w1 = Some u ∧ u ≠ ""
               ∧ (truthy (DYNAMIC_API_BASE_URL w) = false →
                  match (ApiConfig.findWorkingConnection env w).1 with
                  | Ok (Some found) => u = found
                  | _ => u = ApiConfig.getApiBaseUrl env
                  end)).
  { revert Hrun. unfold Api.findWorkingApiUrl. run.
    assert (Hdisc : Api.findWorkingApiUrl_discover env w = (Ok u, w1) →
              DYNAMIC_API_BASE_URL w1 = Some u ∧ u ≠ ""
              ∧ match (ApiConfig.findWorkingConnection env w).1 with
                | Ok (Some found) => u = found
                | _ => u = ApiConfig.getApiBaseUrl env
                end).
    { destruct (findWorkingApiUrl_discover_frame env w) as (v & used & -> & Hv & Hm).
      intros [= -> <-]. split; [done|].
      assert (u ≠ "") as Hne.
      { destruct Hv as [Hv| ->];
          [by eapply possibleUrls_nonempty|by apply getApiBaseUrl_nonempty]. }
      split; [done|].
      destruct (ApiConfig.findWorkingConnection env w).1 as [[found|]|e|] eqn:Hf; try done.
      unfold ApiConfig.findWorkingConnection in Hf.
      destruct (findWorkingConnection_loop_frame env (ApiConfig.possibleUrls env) w)
        as (r & used' & Hl & Hr). rewrite Hl in Hf. simpl in Hf. injection Hf as ->.
      apply Hm, truthy_Some. eapply possibleUrls_nonempty; [done|]. by apply Hr. }
    destruct (DYNAMIC_API_BASE_URL w) as [u0|] eqn:Hd; simpl.
    - destruct (String.eqb_spec u0 ""); simpl.
      + intros H. destruct (Hdisc H) as (? & ? & ?). done.
      + intros [= -> <-]. done.
    - intros H. destruct (Hdisc H) as (? & ? & ?). done. }
  destruct Hu as (Hd & Hne & Hfirst).
  assert (Hagain : ∀ w2, DYNAMIC_API_BASE_URL w2 = DYNAMIC_API_BASE_URL w1 →
                     Api.findWorkingApiUrl env w2 = (Ok u, w2)).
  { intros w2 H2. apply findWorkingApiUrl_cached; [congruence|done]. }
  split; [done|]. split; [done|]. split; [done|].
  intros n w2 H2. induction n as [|n IH]; [done|]. simpl. rewrite IH. simpl. by apply Hagain.
Qed.

Lemma findWorkingApiUrl_cached_for_process_witness :
  CLOUD_BACKEND_URL ios_second_env ≠ ""
  ∧ ∃ w1, Api.findWorkingApiUrl ios_second_env fresh_world =
            (Ok "http://127.0.0.1:8000/api", w1)
      ∧ net_log w1 =
          [probe30 "http://localhost:8000/api"; probe30 "http://127.0.0.1:8000/api"]
      ∧ Api.findWorkingApiUrl ios_second_env w1 = (Ok "http://127.0.0.1:8000/api", w1).
Proof.
  split; [discriminate|].
  eexists. split; [vm_compute; reflexivity|]. split; [reflexivity|].
  eapply (findWorkingApiUrl_cached_for_process ios_second_env fresh_world);
    [discriminate|vm_compute; reflexivity|reflexivity].
Defined.

(** ** The dispatcher *)

Lemma getWorkingApiBaseUrl_frame env w base w1 :
  Api.getWorkingApiBaseUrl env w = (Ok base, w1) →
  ∃ dyn used,
    w1 = with_DYNAMIC_API_BASE_URL dyn (with_net_log (net_log w ++ (probe30 <$> used)) w).
Proof.
  unfold Api.getWorkingApiBaseUrl.
  destruct (findWorkingApiUrl_frame env w) as (u & dyn & used & -> & _).
  intros [= -> <-]. by exists dyn, used.
Qed.

Lemma getWorkingApiBaseUrl_total env w :
  ∃ base w1, Api.getWorkingApiBaseUrl env w = (Ok base, w1).
Proof.
  unfold Api.getWorkingApiBaseUrl.
  destruct (findWorkingApiUrl_frame env w) as (u & dyn & used & -> & _). by eexists _, _.
Qed.

(** The log after apiCall: the health probes of discovery, then the one
    request for the endpoint. *)
Lemma apiCall_net_log env endpoint options w base w1 :
  Api.getWorkingApiBaseUrl env w = (Ok base, w1) →
  net_log (Api.apiCall env endpoint options w).2 =
    net_log w1 ++ [Api.apiCall_request base endpoint options (storage w !! "authToken")].
Proof.
  intros H1. destruct (getWorkingApiBaseUrl_frame _ _ _ _ H1) as (dyn & used & Hw1).
  unfold Api.apiCall, Api.getAuthToken, AsyncStorage.getItem, AsyncStorage.removeItem.
  run. rewrite H1. simpl. rewrite fetch_run. simpl.
  replace (storage w1) with (storage w) by (by rewrite Hw1).
  destruct (delivered env _ _) as [r|]; [|by destruct (net env _ _), (Api.init_signal options)].
  destruct (ok r); simpl.
  - unfold response_json. by destruct (json r).
  - destruct (status r =? 401)%nat; simpl; [done|].
    unfold response_json. by destruct (json r).
Qed.

Lemma issued_apiCall env endpoint options w :
  ∃ base used,
    issued (Api.apiCall env endpoint options) w =
      (probe30 <$> used)
      ++ [Api.apiCall_request base endpoint options (storage w !! "authToken")].
Proof.
  destruct (getWorkingApiBaseUrl_total env w) as (base & w1 & H1).
  destruct (getWorkingApiBaseUrl_frame _ _ _ _ H1) as (dyn & used & Hw1).
  exists base, used. unfold issued. rewrite (apiCall_net_log _ _ _ _ _ _ H1), Hw1. simpl.
  by rewrite <- app_assoc, drop_app_length.
Qed.

Lemma apiCall_request_no_authorization base endpoint options :
  Api.init_headers options !! "Authorization" = None →
  headers (Api.apiCall_request base endpoint options None) !! "Authorization" = None.
Proof.
  intros H. simpl. rewrite !lookup_union, H. reflexivity.
Qed.

(** C3. When the endpoint request of apiCall is answered with status
    401, the call removes the stored authToken exactly once and fails
    with the error Not authenticated; and a call made while no token is
    stored (by a caller that passes no Authorization header of its own,
    as every call site does) issues only requests without an
    Authorization header. *)
Theorem apiCall_401_clears_token env endpoint options w base w1 r :
  Api.getWorkingApiBaseUrl env w = (Ok base, w1) →
  delivered env (net_log w1)
    (Api.apiCall_request base endpoint options (storage w !! "authToken")) = Some r →
  status r = 401 →
  (∃ w', Api.apiCall env endpoint options w = (Throw (Error "Not authenticated"), w')
     ∧ storage w' = delete "authToken" (storage w)
     ∧ storage w' !! "authToken" = None
     ∧ storage_log w' = storage_log w ++ [GetItem "authToken"; RemoveItem "authToken"])
  ∧ (∀ endpoint2 options2 w2,
       storage w2 !! "authToken" = None →
       Api.init_headers options2 !! "Authorization" = None →
       Forall (λ req, headers req !! "Authorization" = None)
         (issued (Api.apiCall env endpoint2 options2) w2)).
Proof.
  intros H1 Hd H401. split.
  - destruct (getWorkingApiBaseUrl_frame _ _ _ _ H1) as (dyn & used & Hw1).
    unfold Api.apiCall, Api.getAuthToken, AsyncStorage.getItem, AsyncStorage.removeItem.
    run. rewrite H1. simpl. rewrite fetch_run. simpl.
    replace (storage w1) with (storage w) by (by rewrite Hw1).
    rewrite Hd. unfold ok. rewrite H401. simpl.
    eexists. split; [done|]. simpl. rewrite Hw1. simpl.
    split; [done|]. split; [apply lookup_delete_eq|]. by rewrite <- app_assoc.
  - intros endpoint2 options2 w2 Hnone Hopt.
    destruct (issued_apiCall env endpoint2 options2 w2) as (base2 & used & ->).
    rewrite Hnone. apply Forall_app. split.
    + apply Forall_fmap, Forall_forall. intros u _. reflexivity.
    + repeat constructor. by apply apiCall_request_no_authorization.
Qed.

Lemma apiCall_401_clears_token_witness :
  ∃ w1 w',
    Api.getWorkingApiBaseUrl backend_env signed_in_world = (Ok "http://localhost:8000/api", w1)
    ∧ delivered backend_env (net_log w1)
        (Api.apiCall_request "http://localhost:8000/api" "/diagnostics/" Api.no_options
           (Some "stale-token")) = Some unauthorized
    ∧ Api.fetchDiagnosticHistory backend_env signed_in_world =
        (Throw (Error "Not authenticated"), w')
    ∧ storage w' = ∅
    ∧ storage_log w' = [GetItem "authToken"; RemoveItem "authToken"]
    ∧ Forall (λ req, headers req !! "Authorization" = None)
        (issued (Api.fetchDiagnosticHistory backend_env) w').
Proof.
  set (w1 := (Api.getWorkingApiBaseUrl backend_env signed_in_world).2).
  assert (H1 : Api.getWorkingApiBaseUrl backend_env signed_in_world =
               (Ok "http://localhost:8000/api", w1)) by (vm_compute; reflexivity).
  assert (Hd : delivered backend_env (net_log w1)
                 (Api.apiCall_request "http://localhost:8000/api" "/diagnostics/"
                    Api.no_options (storage signed_in_world !! "authToken"))
               = Some unauthorized) by (vm_compute; reflexivity).
  destruct (apiCall_401_clears_token backend_env "/diagnostics/" Api.no_options
              signed_in_world "http://localhost:8000/api" w1 unauthorized H1 Hd eq_refl)
    as [(w' & Hrun & Hst & Hnone & Hlog) Hnext].
  exists w1, w'. split; [exact H1|]. split; [exact Hd|]. split; [exact Hrun|].
  split; [rewrite Hst; reflexivity|]. split; [exact Hlog|].
  apply Hnext; [exact Hnone|reflexivity].
Defined.

(** The options of every call site of apiCall in the module carry no
    headers and no abort signal. *)
Lemma call_site_options_plain data options :
  options ∈ call_site_options data →
  Api.init_headers options = ∅ ∧ Api.init_signal options = None.
Proof.
  unfold call_site_options. rewrite !elem_of_cons, elem_of_nil.
  intros [->|[->|[->|[]]]]; done.
Qed.

(** Without a stored token, no request of a call site carries an
    Authorization header. *)
Lemma call_sites_without_token env data endpoint options w :
  options ∈ call_site_options data →
  storage w !! "authToken" = None →
  Forall (λ req, headers req !! "Authorization" = None)
    (issued (Api.apiCall env endpoint options) w).
Proof.
  intros Ho Hnone. destruct (call_site_options_plain _ _ Ho) as [Hh _].
  destruct (issued_apiCall env endpoint options w) as (base & used & ->).
  rewrite Hnone. apply Forall_app. split.
  - apply Forall_fmap, Forall_forall. intros u _. reflexivity.
  - repeat constructor. apply apiCall_request_no_authorization. by rewrite Hh.
Qed.

(** C5 (as amended). The request apiCall issues for the endpoint carries
    the caller's abort signal and none of its own, so none at the call
    sites of the module; only the health probes of discovery carry a
    timeout.  The endpoint request is issued once.  When the network
    fails it, the call fails with the transport's TypeError, which is
    none of the Error values apiCall builds for a 401 or another failed
    response; when the network never answers a request without signal,
    the call never settles. *)
Theorem apiCall_network_failure env endpoint options w base w1 :
  Api.getWorkingApiBaseUrl env w = (Ok base, w1) →
  timeout (endpoint_request base endpoint options w) = Api.init_signal options
  ∧ (∃ used, issued (Api.apiCall env endpoint options) w =
               (probe30 <$> used) ++ [endpoint_request base endpoint options w]
       ∧ Forall (λ p, timeout p = Some ApiConfig.HEALTH_CHECK_TIMEOUT) (probe30 <$> used))
  ∧ (net env (net_log w1) (endpoint_request base endpoint options w) = NetworkFailure →
     ∃ e w', Api.apiCall env endpoint options w = (Throw e, w')
       ∧ e = TypeError "Network request failed"
       ∧ NetworkError e ∧ ∀ m, e ≠ Error m)
  ∧ (net env (net_log w1) (endpoint_request base endpoint options w) = NoReply →
     Api.init_signal options = None →
     ∃ w', Api.apiCall env endpoint options w = (Pending, w'))
  ∧ (net env (net_log w1) (endpoint_request base endpoint options w) = NoReply →
     is_Some (Api.init_signal options) →
     ∃ w', Api.apiCall env endpoint options w = (Throw AbortError, w')).
Proof.
  intros H1. set (req := endpoint_request base endpoint options w).
  destruct (getWorkingApiBaseUrl_frame _ _ _ _ H1) as (dyn & used & Hw1).
  split; [done|]. split.
  { exists used. split.
    - unfold issued. rewrite (apiCall_net_log _ _ _ _ _ _ H1), Hw1. simpl.
      by rewrite <- app_assoc, drop_app_length.
    - apply Forall_fmap, Forall_forall. intros u _. reflexivity. }
  assert (Hrun : Api.apiCall env endpoint options w =
            match ApiConfig.fetch env req
                    (with_storage (storage w1) (storage_log w1 ++ [GetItem "authToken"]) w1)
            with
            | (Ok r, w3) => (Api.apiCall env endpoint options w)
            | (Throw e, w3) => (Throw e, w3)
            | (Pending, w3) => (Pending, w3)
            end).
  { unfold Api.apiCall at 1, Api.getAuthToken, AsyncStorage.getItem. run.
    rewrite H1. simpl. replace (storage w1) with (storage w) by (by rewrite Hw1).
    fold (endpoint_request base endpoint options w). fold req.
    destruct (ApiConfig.fetch env req _) as [[r|e|] w3] eqn:Hf; try done.
    unfold Api.apiCall, Api.getAuthToken, AsyncStorage.getItem. run.
    rewrite H1. simpl. replace (storage w1) with (storage w) by (by rewrite Hw1).
    fold (endpoint_request base endpoint options w). fold req. by rewrite Hf. }
  rewrite fetch_run in Hrun. unfold delivered in Hrun. simpl in Hrun.
  split; [|split].
  - intros Hn. rewrite Hn in Hrun. eexists _, _. split; [exact Hrun|]. done.
  - intros Hn Hs. rewrite Hn in Hrun. simpl in Hrun. rewrite Hs in Hrun.
    eexists. exact Hrun.
  - intros Hn [t Hs]. rewrite Hn in Hrun. simpl in Hrun. rewrite Hs in Hrun.
    eexists. exact Hrun.
Qed.

Lemma apiCall_network_failure_witness :
  ∃ w1 w',
    Api.getWorkingApiBaseUrl down_env fresh_world = (Ok "http://localhost:8000/api", w1)
    ∧ Api.fetchDiagnosticHistory down_env fresh_world =
        (Throw (TypeError "Network request failed"), w')
    ∧ issued (Api.fetchDiagnosticHistory down_env) fresh_world =
        (probe30 <$> ApiConfig.possibleUrls down_env)
        ++ [Api.apiCall_request "http://localhost:8000/api" "/diagnostics/"
              Api.no_options None].
Proof.
  set (w1 := (Api.getWorkingApiBaseUrl down_env fresh_world).2).
  assert (H1 : Api.getWorkingApiBaseUrl down_env fresh_world =
               (Ok "http://localhost:8000/api", w1)) by (vm_compute; reflexivity).
  destruct (apiCall_network_failure down_env "/diagnostics/" Api.no_options
              fresh_world "http://localhost:8000/api" w1 H1)
    as (_ & _ & Hfail & _).
  destruct (Hfail eq_refl) as (e & w' & Hrun & -> & _).
  exists w1, w'. split; [exact H1|]. split; [exact Hrun|]. vm_compute. reflexivity.
Defined.

(** C5 as stated fails: with a network that never answers, the request
    fetchDiagnosticHistory issues for its endpoint carries no timeout. *)
Lemma apiCall_request_without_timeout :
  ¬ dispatcher_network_errors silent_env "/diagnostics/" Api.no_options fresh_world.
Proof.
  intros [Hall _].
  assert (Hiss : issued (Api.apiCall silent_env "/diagnostics/" Api.no_options) fresh_world =
            (probe30 <$> ApiConfig.possibleUrls silent_env)
            ++ [Api.apiCall_request "http://localhost:8000/api" "/diagnostics/"
                  Api.no_options None]) by (vm_compute; reflexivity).
  rewrite Hiss in Hall. apply Forall_app in Hall as [_ Hall].
  apply Forall_inv in Hall. destruct Hall as [t Ht]. discriminate Ht.
Qed.

(** What the code does on that input: the call never settles. *)
Example apiCall_silent_network_run :
  (Api.fetchDiagnosticHistory silent_env fresh_world).1 = Pending.
Proof. vm_compute. reflexivity. Qed.

(** A failed response whose body is not JSON is reported with the detail
    Network error. *)
Lemma apiCall_unparsable_error_body env endpoint options w base w1 r :
  Api.getWorkingApiBaseUrl env w = (Ok base, w1) →
  delivered env (net_log w1)
    (Api.apiCall_request base endpoint options (storage w !! "authToken")) = Some r →
  ok r = false → status r ≠ 401 → json r = None →
  (Api.apiCall env endpoint options w).1 = Throw (Error "Network error").
Proof.
  intros H1 Hd Hok H401 Hj.
  destruct (getWorkingApiBaseUrl_frame _ _ _ _ H1) as (dyn & used & Hw1).
  unfold Api.apiCall, Api.getAuthToken, AsyncStorage.getItem. run.
  rewrite H1. simpl. rewrite fetch_run. simpl.
  replace (storage w1) with (storage w) by (by rewrite Hw1).
  rewrite Hd, Hok. simpl.
  destruct (Nat.eqb_spec (status r) 401); [done|]. simpl.
  unfold response_json. by rewrite Hj.
Qed.

(** ** The local credential cache *)

Lemma row_matches_spec email password r :
  AuthContext.row_matches email password r = true
  ↔ row_email r = email ∧ row_password r = password.
Proof.
  unfold AuthContext.row_matches. rewrite andb_true_iff, !String.eqb_eq. done.
Qed.

Lemma cache_lookup_Some w email password r :
  cache_lookup w email password = Some r →
  holds_record w email password ∧ row_email r = email ∧ row_password r = password.
Proof.
  unfold cache_lookup, holds_record.
  destruct (users (disk w)) as [rows|]; simpl; [|done].
  intros H. apply find_some in H as [Hin Hm]. apply row_matches_spec in Hm.
  split; [|done]. exists rows, r. split; [done|]. split; [|done].
  by apply list_elem_of_In.
Qed.

Lemma cache_lookup_None w email password :
  cache_lookup w email password = None ↔ ¬ holds_record w email password.
Proof.
  unfold cache_lookup, holds_record. split.
  - intros H (rows & r & Hu & Hin & He & Hp). rewrite Hu in H. simpl in H.
    eapply find_none in H; [|by apply list_elem_of_In].
    assert (AuthContext.row_matches email password r = true) by by apply row_matches_spec.
    congruence.
  - intros H. destruct (users (disk w)) as [rows|]; simpl; [|done].
    destruct (List.find _ rows) as [r|] eqn:Hf; [|done].
    apply find_some in Hf as [Hin Hm]. apply row_matches_spec in Hm.
    destruct H. exists rows, r. split; [done|]. split; [|done]. by apply list_elem_of_In.
Qed.

Lemma holds_record_lookup w email password :
  holds_record w email password → ∃ r, cache_lookup w email password = Some r.
Proof.
  intros H. destruct (cache_lookup w email password) as [r|] eqn:Hc; [by exists r|].
  by apply cache_lookup_None in Hc.
Qed.

(** checkLocalUser always settles with a value: the user of the first
    matching row when the database can be queried, null otherwise.  It
    writes nothing but the handle and the table. *)
Lemma checkLocalUser_spec email password w :
  ∃ h d, AuthContext.checkLocalUser email password w =
           (Ok (if db_usable w then user_of_row <$> cache_lookup w email password
                else None),
            with_db h (with_disk d w)).
Proof.
  unfold AuthContext.checkLocalUser, AuthContext.initDatabase,
    AuthContext.getFirstAsync_user, AuthContext.openDatabaseAsync,
    AuthContext.execAsync_create_users, db_usable, cache_lookup.
  run.
  destruct w as [nl ic st sl [co eo qo ro us] dyn [h|] u t il mv au]; simpl.
  - exists (Some h). destruct qo; simpl.
    + destruct us as [rows|]; simpl.
      * destruct (List.find _ rows); by eexists.
      * by eexists.
    + by eexists.
  - destruct co; simpl.
    + exists (Some carfirstaid_db). destruct eo; simpl; destruct qo; simpl;
        destruct us as [rows|]; simpl; try destruct (List.find _ rows); by eexists.
    + exists None. rewrite andb_false_r. by eexists.
Qed.

(** ** Offline sign-in *)

Lemma offline_token_nonempty env : AuthContext.offline_token env ≠ "".
Proof. unfold AuthContext.offline_token. discriminate. Qed.

Lemma signIn_offline env email password w :
  isConnected w = false →
  ∃ h d,
    AuthContext.signIn env email password w =
      match (if db_usable w then user_of_row <$> cache_lookup w email password else None) with
      | Some localUser =>
          (Ok tt,
           with_isLoading false
             (with_storage
                (<["user" := JSON_stringify env localUser]>
                   (<["authToken" := AuthContext.offline_token env]> (storage w)))
                (storage_log w ++ [SetItem "authToken" (AuthContext.offline_token env);
                                   SetItem "user" (JSON_stringify env localUser)])
                (with_token (Some (AuthContext.offline_token env))
                   (with_user (Some localUser) (with_db h (with_disk d w))))))
      | None =>
          (Throw (Error AuthContext.OFFLINE_AUTH_ERROR),
           with_isLoading false (with_db h (with_disk d w)))
      end.
Proof.
  intros Hoff.
  destruct (checkLocalUser_spec email password (with_isLoading true w)) as (h & d & Hc).
  exists h, d.
  unfold AuthContext.signIn, AuthContext.NetInfo_fetch, try_finally,
    AsyncStorage.setItem. run.
  rewrite Hoff. simpl. unfold mbind, M_bind, bind in Hc. rewrite Hc.
  change (db_usable (with_isLoading true w)) with (db_usable w).
  change (cache_lookup (with_isLoading true w) email password)
    with (cache_lookup w email password).
  destruct (if db_usable w then _ else _) as [localUser|]; simpl; [|done].
  by rewrite <- app_assoc.
Qed.

(** Offline and without a matching row, signIn throws the offline
    authentication error and writes nothing but the database handle, the
    table and the loading flag. *)
Lemma signIn_offline_miss env email password w :
  isConnected w = false →
  cache_lookup w email password = None →
  ∃ h d, AuthContext.signIn env email password w =
           (Throw (Error AuthContext.OFFLINE_AUTH_ERROR),
            with_isLoading false (with_db h (with_disk d w))).
Proof.
  intros Hoff Hnone. destruct (signIn_offline env email password w Hoff) as (h & d & Hrun).
  rewrite Hnone in Hrun. exists h, d. rewrite Hrun. by destruct (db_usable w).
Qed.

(** C4. While the device is offline: when the cache holds a record that
    matches email and password exactly (and the database can be queried),
    signIn succeeds, the session carries the user of a matching record
    and the generated token, which is not the empty string, and both are
    persisted; when the cache holds no such record, signIn fails with the
    offline authentication error and the persisted storage is untouched. *)
Theorem signIn_offline_cache env email password w :
  isConnected w = false →
  (holds_record w email password → db_usable w = true →
   ∃ row w', AuthContext.signIn env email password w = (Ok tt, w')
     ∧ row_email row = email ∧ row_password row = password
     ∧ user w' = Some (user_of_row row)
     ∧ token w' = Some (AuthContext.offline_token env)
     ∧ AuthContext.offline_token env ≠ ""
     ∧ storage w' = <["user" := JSON_stringify env (user_of_row row)]>
                      (<["authToken" := AuthContext.offline_token env]> (storage w)))
  ∧ (¬ holds_record w email password →
     ∃ w', AuthContext.signIn env email password w =
             (Throw (Error AuthContext.OFFLINE_AUTH_ERROR), w')
       ∧ storage w' = storage w ∧ storage_log w' = storage_log w
       ∧ user w' = user w ∧ token w' = token w).
Proof.
  intros Hoff. destruct (signIn_offline env email password w Hoff) as (h & d & Hrun).
  split.
  - intros Hrec Hdb. destruct (holds_record_lookup _ _ _ Hrec) as [row Hrow].
    rewrite Hdb, Hrow in Hrun. simpl in Hrun.
    apply cache_lookup_Some in Hrow as (_ & He & Hp).
    exists row. eexists. split; [exact Hrun|]. simpl.
    repeat split; try done.
  - intros Hrec. apply cache_lookup_None in Hrec.
    destruct (signIn_offline_miss env email password w Hoff Hrec) as (h' & d' & Hmiss).
    eexists. split; [exact Hmiss|]. done.
Qed.

Lemma signIn_offline_cache_witness :
  isConnected (offline_world (healthy_disk (Some [sample_row]))) = false
  ∧ holds_record (offline_world (healthy_disk (Some [sample_row])))
      "ann@example.com" "secret1"
  ∧ ¬ holds_record (offline_world (healthy_disk (Some [sample_row])))
        "ann@example.com" "Secret1"
  ∧ (∃ w', AuthContext.signIn offline_env "ann@example.com" "secret1"
             (offline_world (healthy_disk (Some [sample_row]))) = (Ok tt, w')
       ∧ token w' = Some "offline_1700000000000_k3j9x0q2a7"
       ∧ storage w' !! "authToken" = Some "offline_1700000000000_k3j9x0q2a7")
  ∧ (∃ w', AuthContext.signIn offline_env "ann@example.com" "Secret1"
             (offline_world (healthy_disk (Some [sample_row]))) =
             (Throw (Error AuthContext.OFFLINE_AUTH_ERROR), w')
       ∧ storage w' = ∅).
Proof.
  set (w := offline_world (healthy_disk (Some [sample_row]))).
  assert (Hhit : holds_record w "ann@example.com" "secret1").
  { exists [sample_row], sample_row. repeat split. left. }
  assert (Hmiss : ¬ holds_record w "ann@example.com" "Secret1").
  { apply cache_lookup_None. reflexivity. }
  split; [reflexivity|]. split; [exact Hhit|]. split; [exact Hmiss|].
  split.
  - destruct (proj1 (signIn_offline_cache offline_env "ann@example.com" "secret1" w eq_refl)
                Hhit eq_refl) as (row & w' & Hrun & _ & _ & _ & Htok & _ & Hst).
    exists w'. split; [exact Hrun|]. split; [exact Htok|]. rewrite Hst. reflexivity.
  - destruct (proj2 (signIn_offline_cache offline_env "ann@example.com" "Secret1" w eq_refl)
                Hmiss) as (w' & Hrun & Hst & _).
    exists w'. split; [exact Hrun|]. exact Hst.
Defined.

(** C10. checkLocalUser settles with a value in every state of the local
    database and returns null whenever the database cannot be queried, so
    an offline signIn over a broken cache fails with the same offline
    authentication error as a cache miss and leaves the persisted storage
    untouched. *)
Theorem checkLocalUser_total env email password w :
  (∃ r w', AuthContext.checkLocalUser email password w = (Ok r, w')
     ∧ storage w' = storage w ∧ storage_log w' = storage_log w)
  ∧ (db_usable w = false →
     ∃ w', AuthContext.checkLocalUser email password w = (Ok None, w'))
  ∧ (isConnected w = false → db_usable w = false →
     ∃ w', AuthContext.signIn env email password w =
             (Throw (Error AuthContext.OFFLINE_AUTH_ERROR), w')
       ∧ storage w' = storage w ∧ storage_log w' = storage_log w
       ∧ ∀ w2, isConnected w2 = false → ¬ holds_record w2 email password →
           (AuthContext.signIn env email password w2).1 =
           (AuthContext.signIn env email password w).1).
Proof.
  destruct (checkLocalUser_spec email password w) as (h & d & Hc).
  split; [|split].
  - eexists _, _. split; [exact Hc|]. done.
  - intros Hdb. rewrite Hdb in Hc. eexists. exact Hc.
  - intros Hoff Hdb. destruct (signIn_offline env email password w Hoff) as (h' & d' & Hrun).
    rewrite Hdb in Hrun. eexists. split; [exact Hrun|]. split; [done|]. split; [done|].
    intros w2 Hoff2 Hmiss. rewrite Hrun. apply cache_lookup_None in Hmiss.
    by destruct (signIn_offline_miss env email password w2 Hoff2 Hmiss) as (h2 & d2 & ->).
Qed.

Lemma checkLocalUser_total_witness :
  isConnected (offline_world (broken_disk (Some [sample_row]))) = false
  ∧ db_usable (offline_world (broken_disk (Some [sample_row]))) = false
  ∧ holds_record (offline_world (broken_disk (Some [sample_row])))
      "ann@example.com" "secret1"
  ∧ ∃ w', AuthContext.signIn offline_env "ann@example.com" "secret1"
            (offline_world (broken_disk (Some [sample_row]))) =
            (Throw (Error AuthContext.OFFLINE_AUTH_ERROR), w')
      ∧ storage w' = ∅.
Proof.
  split; [reflexivity|]. split; [reflexivity|]. split.
  { exists [sample_row], sample_row. repeat split. left. }
  destruct (proj2 (proj2 (checkLocalUser_total offline_env "ann@example.com" "secret1"
                            (offline_world (broken_disk (Some [sample_row])))))
              eq_refl eq_refl) as (w' & Hrun & Hst & _).
  exists w'. split; [exact Hrun|exact Hst].
Defined.

(** ** Sign-in followed by sign-out *)

Lemma saveLocalUser_spec env u password w :
  ∃ h d, AuthContext.saveLocalUser env u password w = (Ok tt, with_db h (with_disk d w)).
Proof.
  unfold AuthContext.saveLocalUser, AuthContext.initDatabase,
    AuthContext.runAsync_insert_user, AuthContext.openDatabaseAsync,
    AuthContext.execAsync_create_users.
  run.
  destruct w as [nl ic st sl [co eo qo ro us] dyn [h|] u0 t il mv au]; simpl.
  - exists (Some h). destruct ro; simpl; [destruct us as [rows|]; simpl|];
      eexists; unfold with_db, with_disk; simpl; reflexivity.
  - destruct co; simpl.
    + exists (Some carfirstaid_db). destruct eo; simpl; destruct ro; simpl;
        destruct us as [rows|]; simpl;
        eexists; unfold with_db, with_disk; simpl; reflexivity.
    + exists None. by eexists.
Qed.

(** A signIn that succeeds has written the two storage keys and nothing
    else of the storage. *)
Lemma signIn_ok_storage env email password w w1 :
  AuthContext.signIn env email password w = (Ok tt, w1) →
  ∃ t u, storage w1 = <["user" := u]> (<["authToken" := t]> (storage w))
         ∧ token w1 = Some t ∧ is_Some (user w1).
Proof.
  destruct (isConnected w) eqn:Hcon.
  - unfold AuthContext.signIn, AuthContext.NetInfo_fetch, ApiConfig.fetchWithTimeout,
      try_finally, AsyncStorage.setItem. run. rewrite Hcon. simpl.
    rewrite fetch_run. simpl.
    destruct (delivered env _ _) as [r|];
      [|by destruct (net env _ _)].
    destruct (ok r); simpl; [|done].
    unfold response_json. destruct (json r) as [data|]; simpl; [|done].
    destruct (data_access_token data) as [t|]; simpl; [|done].
    destruct (data_user data) as [u|]; simpl; [|done].
    match goal with
    | |- context [AuthContext.saveLocalUser env u password ?w0] =>
        destruct (saveLocalUser_spec env u password w0) as (h & d & ->)
    end.
    simpl. intros [= <-]. simpl. by eexists _, _.
  - destruct (signIn_offline env email password w Hcon) as (h & d & ->).
    destruct (if db_usable w then _ else _) as [localUser|]; [|done].
    intros [= <-]. simpl. by eexists _, _.
Qed.

Lemma signOut_run w :
  AuthContext.signOut w =
    (Ok tt,
     with_token None
       (with_user None
          (with_storage (delete "user" (delete "authToken" (storage w)))
             (storage_log w ++ [RemoveItem "authToken"; RemoveItem "user"]) w))).
Proof.
  unfold AuthContext.signOut, AsyncStorage.removeItem. run. by rewrite <- app_assoc.
Qed.

Lemma delete_both_inserted (m : gmap string string) t u :
  m !! "authToken" = None → m !! "user" = None →
  delete "user" (delete "authToken" (<["user" := u]> (<["authToken" := t]> m))) = m.
Proof.
  intros Ht Hu. apply map_eq. intros k.
  destruct (decide (k = "user")) as [->|Hk1].
  { by rewrite lookup_delete_eq. }
  rewrite lookup_delete_ne by done.
  destruct (decide (k = "authToken")) as [->|Hk2].
  { by rewrite lookup_delete_eq. }
  rewrite lookup_delete_ne by done.
  by rewrite !lookup_insert_ne.
Qed.

(** C6. From a storage without token and user, a signIn that succeeds
    followed at once by signOut leaves both keys absent and the storage
    equal to what it was before the signIn. *)
Theorem signIn_signOut_roundtrip env email password w w1 :
  storage w !! "authToken" = None →
  storage w !! "user" = None →
  AuthContext.signIn env email password w = (Ok tt, w1) →
  is_Some (storage w1 !! "authToken") ∧ is_Some (storage w1 !! "user")
  ∧ ∃ w2, AuthContext.signOut w1 = (Ok tt, w2)
      ∧ storage w2 !! "authToken" = None
      ∧ storage w2 !! "user" = None
      ∧ storage w2 = storage w
      ∧ token w2 = None ∧ user w2 = None.
Proof.
  intros Ht Hu Hin.
  destruct (signIn_ok_storage _ _ _ _ _ Hin) as (t & u & Hst & _).
  split; [|split].
  - rewrite Hst, lookup_insert_ne, lookup_insert_eq by done. by eexists.
  - rewrite Hst, lookup_insert_eq. by eexists.
  - rewrite signOut_run. eexists. split; [done|]. simpl.
    rewrite Hst, delete_both_inserted by done. done.
Qed.

Lemma signIn_signOut_roundtrip_witness :
  ∃ w1 w2,
    AuthContext.signIn backend_env "ann@example.com" "secret1" fresh_world = (Ok tt, w1)
    ∧ storage w1 !! "authToken" = Some "tok123"
    ∧ AuthContext.signOut w1 = (Ok tt, w2)
    ∧ storage w2 = ∅.
Proof.
  set (w1 := (AuthContext.signIn backend_env "ann@example.com" "secret1" fresh_world).2).
  assert (Hin : AuthContext.signIn backend_env "ann@example.com" "secret1" fresh_world =
                (Ok tt, w1)) by (vm_compute; reflexivity).
  destruct (signIn_signOut_roundtrip backend_env "ann@example.com" "secret1"
              fresh_world w1 eq_refl eq_refl Hin) as (_ & _ & w2 & Hout & _ & _ & Hst & _).
  exists w1, w2. split; [exact Hin|]. split; [vm_compute; reflexivity|].
  split; [exact Hout|exact Hst].
Defined.

(** ** Actions that need a session and connectivity *)

Lemma uploadCertificate_requires_token env certificateUri w :
  truthy (token w) = false →
  AuthContext.uploadCertificate env certificateUri w =
    (Throw (Error "Not authenticated"), w).
Proof.
  intros Ht. unfold AuthContext.uploadCertificate. run. by rewrite Ht.
Qed.

Lemma uploadCertificate_offline env certificateUri w :
  truthy (token w) = true → isConnected w = false →
  AuthContext.uploadCertificate env certificateUri w =
    (Throw (Error AuthContext.OFFLINE_UPLOAD_ERROR), w).
Proof.
  intros Ht Hoff. unfold AuthContext.uploadCertificate, AuthContext.NetInfo_fetch. run.
  rewrite Ht. simpl. by rewrite Hoff.
Qed.

Lemma updateMechanicInfo_guarded env info w :
  AuthContext.updateMechanicInfo_guard w = true →
  AuthContext.updateMechanicInfo env info w = (Ok tt, w).
Proof.
  intros Hg. unfold AuthContext.updateMechanicInfo. run. by rewrite Hg.
Qed.

Lemma updateMechanicInfo_offline env info w :
  AuthContext.updateMechanicInfo_guard w = false → isConnected w = false →
  AuthContext.updateMechanicInfo env info w =
    (Throw (Error AuthContext.OFFLINE_UPDATE_ERROR), w).
Proof.
  intros Hg Hoff. unfold AuthContext.updateMechanicInfo, AuthContext.NetInfo_fetch. run.
  rewrite Hg. simpl. by rewrite Hoff.
Qed.

(** C7. The code at the inputs where it departs from the claim: without
    a token, updateMechanicInfo returns normally, issues no request and
    leaves the world as it was, where uploadCertificate fails with Not
    authenticated; and for a signed-in user who is not a mechanic, while
    offline, updateMechanicInfo returns normally as well, where
    uploadCertificate fails with the offline error. *)
Theorem updateMechanicInfo_returns_silently env info certificateUri online st d u :
  AuthContext.updateMechanicInfo env info (mk_world online st d u None)
    = (Ok tt, mk_world online st d u None)
  ∧ AuthContext.uploadCertificate env certificateUri (mk_world online st d u None)
    = (Throw (Error "Not authenticated"), mk_world online st d u None)
  ∧ AuthContext.updateMechanicInfo env info
      (mk_world false st d (Some plain_user) (Some "tok123"))
    = (Ok tt, mk_world false st d (Some plain_user) (Some "tok123"))
  ∧ AuthContext.uploadCertificate env certificateUri
      (mk_world false st d (Some plain_user) (Some "tok123"))
    = (Throw (Error AuthContext.OFFLINE_UPLOAD_ERROR),
       mk_world false st d (Some plain_user) (Some "tok123")).
Proof.
  split; [|split; [|split]].
  - apply updateMechanicInfo_guarded. unfold AuthContext.updateMechanicInfo_guard.
    simpl. destruct u as [u|]; [|done]. apply orb_true_r.
  - by apply uploadCertificate_requires_token.
  - by apply updateMechanicInfo_guarded.
  - by apply uploadCertificate_offline.
Qed.

(** * Further properties of the code *)

(** ** String methods *)

Lemma startsWith_app p t : startsWith p (p +:+ t) = true.
Proof.
  induction p as [|a p IH]; simpl; [by destruct t|].
  by rewrite Ascii.eqb_refl, IH.
Qed.

Lemma startsWith_spec p s : startsWith p s = true ↔ ∃ t, s = p +:+ t.
Proof.
  split.
  - revert s. induction p as [|a p IH]; intros s H; [by exists s|].
    destruct s as [|b s]; [done|]. simpl in H.
    apply andb_true_iff in H as [Hab Hps]. apply Ascii.eqb_eq in Hab as ->.
    destruct (IH s Hps) as [t ->]. by exists t.
  - intros [t ->]. apply startsWith_app.
Qed.

Lemma string_drop_app p t : string_drop (String.length p) (p +:+ t) = t.
Proof. induction p as [|a p IH]; simpl; [by destruct t|done]. Qed.



Lemma String_replace_eq p r s :
  String_replace p r s =
    if startsWith p s then r +:+ string_drop (String.length p) s
    else match s with
         | "" => ""
         | String c s' => String c (String_replace p r s')
         end.
Proof. by destruct s. Qed.

Lemma String_includes_eq p s :
  String_includes p s =
    if startsWith p s then true
    else match s with
         | "" => false
         | String _ s' => String_includes p s'
         end.
Proof. by destruct s. Qed.

(** replace rewrites the first occurrence and nothing else. *)
Lemma String_replace_first p r s a b :
  first_occurrence p s a b → String_replace p r s = a +:+ r +:+ b.
Proof.
  intros [-> Hfirst]. induction a as [|c a IH].
  - change ("" +:+ p +:+ b) with (p +:+ b).
    by rewrite String_replace_eq, startsWith_app, string_drop_app.
  - rewrite String_replace_eq.
    pose proof (Hfirst 0 ltac:(simpl; lia)) as H0.
    change (string_drop 0 ?s) with s in H0. rewrite H0. simpl.
    rewrite IH; [done|]. intros i Hi. apply (Hfirst (S i)). simpl. lia.
Qed.

Lemma String_replace_absent p r s :
  String_includes p s = false → String_replace p r s = s.
Proof.
  induction s as [|c s IH]; rewrite String_includes_eq, String_replace_eq;
    destruct (startsWith p _); try done.
  intros H. by rewrite IH.
Qed.

(** ** getBaseUrl *)



(** ** connectToNotifications *)

Lemma String_replace_http rest : String_replace "http" "ws" ("http" +:+ rest) = "ws" +:+ rest.
Proof.
  apply (String_replace_first "http" "ws" _ "" rest). split; [done|].
  intros i Hi. simpl in Hi. lia.
Qed.

(** X2. connectToNotifications turns the scheme of the resolved base URL
    from http into ws, so https becomes wss, leaves the rest of the URL
    as it is even where it contains http again, and appends
    /notifications/ws/ and the token; it changes the world only through
    the discovery of the base URL. *)
Theorem connectToNotifications_scheme env token w base w1 rest :
  Api.getWorkingApiBaseUrl env w = (Ok base, w1) →
  base = "http" +:+ rest →
  Api.connectToNotifications env token w =
    (Ok ("ws" +:+ rest +:+ "/notifications/ws/" +:+ token), w1)
  ∧ (∀ host, rest = "s://" +:+ host →
       Api.connectToNotifications env token w =
         (Ok ("wss://" +:+ host +:+ "/notifications/ws/" +:+ token), w1)).
Proof.
  intros H1 ->.
  assert (Hrun : Api.connectToNotifications env token w =
                 (Ok ("ws" +:+ rest +:+ "/notifications/ws/" +:+ token), w1)).
  { unfold Api.connectToNotifications, mbind, M_bind, bind. rewrite H1.
    unfold mret, M_ret, ret. rewrite String_replace_http. reflexivity. }
  split; [exact Hrun|]. intros host ->. rewrite Hrun. reflexivity.
Qed.

Lemma connectToNotifications_scheme_witness :
  ∃ w1, Api.getWorkingApiBaseUrl backend_env fresh_world = (Ok "http://localhost:8000/api", w1)
    ∧ Api.connectToNotifications backend_env "tok123" fresh_world =
        (Ok "ws://localhost:8000/api/notifications/ws/tok123", w1).
Proof.
  set (w1 := (Api.getWorkingApiBaseUrl backend_env fresh_world).2).
  assert (H1 : Api.getWorkingApiBaseUrl backend_env fresh_world =
               (Ok "http://localhost:8000/api", w1)) by (vm_compute; reflexivity).
  exists w1. split; [exact H1|].
  exact (proj1 (connectToNotifications_scheme backend_env "tok123" fresh_world
                  "http://localhost:8000/api" w1 "://localhost:8000/api" H1 eq_refl)).
Defined.

(** ** runDiagnostics *)

(** The loop tests every candidate once, in order, whatever the results:
    it adds one entry per candidate, whose success is that of the probe
    at the moment it is issued. *)
Lemma runDiagnostics_loop_run env now urls w :
  ∃ new, (∀ tests, ConnectionTest.runDiagnostics_loop env now urls tests w =
                     (Ok (tests ++ new),
                      with_net_log (net_log w ++ (probe5 <$> urls)) w))
    ∧ ConnectionTest.test_url <$> new = urls
    ∧ (∀ i t, new !! i = Some t →
         ConnectionTest.test_success t =
           probe_success_json env (net_log w ++ (probe5 <$> take i urls))
             (probe5 (ConnectionTest.test_url t)))
    ∧ (∃ res w', ConnectionTest.testBackendConnection_loop env urls urls w = (Ok res, w')
         ∧ ConnectionTest.workingUrl res =
             ConnectionTest.test_url <$> head (List.filter ConnectionTest.test_success new)).
Proof.
  assert (Hgen : ∀ all, ∃ new,
    (∀ tests, ConnectionTest.runDiagnostics_loop env now urls tests w =
                (Ok (tests ++ new), with_net_log (net_log w ++ (probe5 <$> urls)) w))
    ∧ ConnectionTest.test_url <$> new = urls
    ∧ (∀ i t, new !! i = Some t →
         ConnectionTest.test_success t =
           probe_success_json env (net_log w ++ (probe5 <$> take i urls))
             (probe5 (ConnectionTest.test_url t)))
    ∧ (∃ res w', ConnectionTest.testBackendConnection_loop env all urls w = (Ok res, w')
         ∧ ConnectionTest.workingUrl res =
             ConnectionTest.test_url <$> head (List.filter ConnectionTest.test_success new))).
  2: { apply Hgen. }
  intros all. revert w. induction urls as [|u rest IH]; intros w.
  - exists []. split; [|split; [done|split; [done|]]].
    + intros tests. simpl. run. by rewrite !app_nil_r, with_net_log_id.
    + simpl. run. by eexists _, _.
  - destruct (testSingleConnection_run env u w) as (r & Hr & Hs & Hw).
    destruct (IH (with_net_log (net_log w ++ [probe5 u]) w))
      as (new & Hloop & Hurls & Hsucc & res & w' & Htbc & Hres).
    exists ({| ConnectionTest.test_url := u;
               ConnectionTest.test_success := ConnectionTest.success r;
               ConnectionTest.test_responseTime :=
                 (now (net_log w ++ [probe5 u]) - now (net_log w))%Z;
               ConnectionTest.test_error :=
                 if ConnectionTest.success r then None
                 else Some (ConnectionTest.message r);
               ConnectionTest.test_details := ConnectionTest.details r |} :: new).
    split; [|split; [|split]].
    + intros tests. simpl. run. rewrite Hr. simpl. rewrite Hloop. simpl.
      rewrite <- !app_assoc. reflexivity.
    + rewrite fmap_cons, Hurls. reflexivity.
    + intros [|i] t Ht; simpl in Ht.
      * injection Ht as <-. simpl. by rewrite app_nil_r.
      * rewrite (Hsucc i t Ht). simpl. by rewrite <- app_assoc.
    + simpl. run. rewrite Hr. simpl.
      destruct (ConnectionTest.success r) eqn:Hsr.
      * eexists _, _. split; [done|]. simpl. by rewrite Hw.
      * simpl in Htbc. rewrite Htbc. by eexists _, _.
Qed.

(** X3. runDiagnostics tests every candidate of getPossibleBackendUrls
    exactly once, in list order, and does not stop at a success: the
    report has one test per candidate, in the same order, and the success
    of each is that of its probe (a success status with a JSON body, in
    time) at the moment it is issued. *)
Theorem runDiagnostics_tests_every_candidate env now w :
  ∃ d, ConnectionTest.runDiagnostics env now w =
         (Ok d,
          with_net_log (net_log w ++ (probe5 <$> ConnectionTest.getPossibleBackendUrls env)) w)
    ∧ ConnectionTest.test_url <$> ConnectionTest.diag_tests d =
        ConnectionTest.getPossibleBackendUrls env
    ∧ (∀ i t, ConnectionTest.diag_tests d !! i = Some t →
         ConnectionTest.test_success t =
           probe_success_json env
             (net_log w ++ (probe5 <$> take i (ConnectionTest.getPossibleBackendUrls env)))
             (probe5 (ConnectionTest.test_url t))).
Proof.
  destruct (runDiagnostics_loop_run env now (ConnectionTest.getPossibleBackendUrls env) w)
    as (new & Hloop & Hurls & Hsucc & _).
  unfold ConnectionTest.runDiagnostics. run. rewrite Hloop. simpl.
  eexists. split; [done|]. simpl. done.
Qed.

(** X4. The recommendation of runDiagnostics agrees with
    testBackendConnection started in the same world: when the latter
    finds a working URL, the report recommends that URL after the count
    of successful tests; when it finds none, the report carries the four
    fixed recommendations. *)
Theorem runDiagnostics_recommends_first_working env now w :
  ∃ d w1 res w2,
    ConnectionTest.runDiagnostics env now w = (Ok d, w1)
    ∧ ConnectionTest.testBackendConnection env w = (Ok res, w2)
    ∧ ConnectionTest.diag_recommendations d =
        match ConnectionTest.workingUrl res with
        | Some u =>
            ["Found "
             +:+ pretty (length (List.filter ConnectionTest.test_success
                                   (ConnectionTest.diag_tests d)))
             +:+ " working connection(s)";
             "Recommended URL: " +:+ u]
        | None => no_connection_recommendations
        end.
Proof.
  destruct (runDiagnostics_loop_run env now (ConnectionTest.getPossibleBackendUrls env) w)
    as (new & Hloop & _ & _ & res & w2 & Htbc & Hres).
  unfold ConnectionTest.runDiagnostics, ConnectionTest.testBackendConnection.
  run. rewrite Hloop, Htbc. simpl.
  eexists _, _, res, w2. split; [done|]. split; [done|]. simpl.
  rewrite Hres. by destruct (List.filter _ new).
Qed.

(** ** The two health probes *)

(** X5. The two probes differ in their patience: a backend that answers
    its health check with a success status after 5 s or more but in less
    than 30 s is working for testConnection and failed for
    testSingleConnection, whose result carries the message of the abort. *)
Theorem health_probe_timeouts_differ env url w latency r :
  net env (net_log w) (probe30 url) = Respond latency r →
  net env (net_log w) (probe5 url) = Respond latency r →
  ok r = true →
  (5000 ≤ latency)%N → (latency < 30000)%N →
  (ApiConfig.testConnection env url w).1 = Ok true
  ∧ ∃ res, (ConnectionTest.testSingleConnection env url w).1 = Ok res
      ∧ ConnectionTest.success res = false
      ∧ ConnectionTest.message res = "Connection failed: Aborted"
      ∧ ConnectionTest.workingUrl res = None.
Proof.
  intros H30 H5 Hok Hlo Hhi. split.
  - rewrite testConnection_run. simpl. unfold probe_success, delivered. rewrite H30. simpl.
    unfold ApiConfig.HEALTH_CHECK_TIMEOUT.
    destruct (N.ltb_spec latency 30000); [simpl; f_equal; exact Hok|lia].
  - unfold ConnectionTest.testSingleConnection, ApiConfig.fetchWithTimeout.
    rewrite json_headers_twice. fold (ApiConfig.health_request url 5000).
    fold (probe5 url). unfold try_catch, mbind, M_bind, bind.
    rewrite fetch_run. unfold delivered. rewrite H5. simpl.
    destruct (N.ltb_spec latency 5000); [lia|]. simpl. by eexists.
Qed.

Lemma health_probe_timeouts_differ_witness :
  ApiConfig.findWorkingConnection slow_env fresh_world =
    (Ok (Some "http://localhost:8000/api"),
     with_net_log [probe30 "http://localhost:8000/api"] fresh_world)
  ∧ (ApiConfig.testConnection slow_env "http://localhost:8000/api" fresh_world).1 = Ok true
  ∧ ∃ res, (ConnectionTest.testSingleConnection slow_env "http://localhost:8000/api"
              fresh_world).1 = Ok res
      ∧ ConnectionTest.success res = false.
Proof.
  split; [vm_compute; reflexivity|].
  destruct (health_probe_timeouts_differ slow_env "http://localhost:8000/api" fresh_world
              12000 health_json eq_refl eq_refl eq_refl) as (Ht & res & Hr & Hs & _).
  - vm_compute. discriminate.
  - reflexivity.
  - split; [exact Ht|]. exists res. split; [exact Hr|exact Hs].
Defined.

(** ** The local credential cache *)

Lemma saveLocalUser_run env u password w :
  db_works w → table_ready w →
  AuthContext.saveLocalUser env u password w = (Ok tt, saved_world env u password w).
Proof.
  intros (Hco & Heo & Hqo & Hro) Hready.
  unfold AuthContext.saveLocalUser, AuthContext.initDatabase,
    AuthContext.runAsync_insert_user, AuthContext.openDatabaseAsync,
    AuthContext.execAsync_create_users, saved_world, row_of_user.
  run.
  destruct w as [nl ic st sl [co eo qo ro us] dyn [[]|] u0 t il mv au];
    simpl in *; subst.
  - destruct Hready as [?|[rows Hrows]]; [done|]. unfold table_ready in *.
    simpl in Hrows. subst us. reflexivity.
  - destruct us as [rows|]; reflexivity.
Qed.

Lemma find_removed f g (rows : list Row) :
  (∀ r, f r = true → g r = false) → List.find f (List.filter g rows) = None.
Proof.
  intros H. induction rows as [|r rows IH]; simpl; [done|].
  destruct (g r) eqn:Hg; [|done]. simpl.
  destruct (f r) eqn:Hf; [|done]. by rewrite (H r Hf) in Hg.
Qed.

Lemma find_app_None {A} (f : A → bool) l1 l2 :
  List.find f l1 = None → List.find f (l1 ++ l2) = List.find f l2.
Proof.
  induction l1 as [|a l1 IH]; simpl; [done|]. by destruct (f a).
Qed.

(** After the insertion, the one row of an email is the new one. *)
Lemma find_insert_or_replace r rows password :
  List.find (AuthContext.row_matches (row_email r) password)
    (AuthContext.insert_or_replace r rows)
  = if String.eqb (row_password r) password then Some r else None.
Proof.
  unfold AuthContext.insert_or_replace. rewrite find_app_None.
  - simpl. unfold AuthContext.row_matches. by rewrite String.eqb_refl.
  - apply find_removed. intros r' Hm. apply row_matches_spec in Hm as [-> _].
    by rewrite String.eqb_refl, orb_true_r.
Qed.

Lemma user_of_row_of_user env u password : user_of_row (row_of_user env u password) = u.
Proof. destruct u as [i e n ro [] c]; reflexivity. Qed.

Lemma checkLocalUser_saved env u password p w :
  db_works w →
  AuthContext.checkLocalUser (user_email u) p (saved_world env u password w) =
    (Ok (if String.eqb password p then Some u else None), saved_world env u password w).
Proof.
  intros (Hco & Heo & Hqo & Hro).
  unfold AuthContext.checkLocalUser, AuthContext.getFirstAsync_user. run.
  rewrite Hqo.
  pose proof (find_insert_or_replace (row_of_user env u password)
                (default [] (users (disk w))) p) as Hf.
  simpl in Hf. rewrite Hf.
  destruct (String.eqb password p); [|done].
  pose proof (user_of_row_of_user env u password) as Hu.
  unfold user_of_row in Hu. by rewrite Hu.
Qed.

(** X6. A credential saved by saveLocalUser is found again by
    checkLocalUser: with a working database, looking up the user's email
    with the saved password returns the saved user, field by field, and
    looking it up with any other password returns null, whatever
    password was cached for that email before. *)
Theorem saveLocalUser_checkLocalUser env u password p w :
  db_works w → table_ready w →
  ∃ w1, AuthContext.saveLocalUser env u password w = (Ok tt, w1)
    ∧ AuthContext.checkLocalUser (user_email u) p w1 =
        (Ok (if String.eqb password p then Some u else None), w1).
Proof.
  intros Hdb Hready. exists (saved_world env u password w).
  split; [by apply saveLocalUser_run|by apply checkLocalUser_saved].
Qed.

Lemma saveLocalUser_checkLocalUser_witness :
  ∃ w1, AuthContext.saveLocalUser offline_env sample_user "new-secret"
          (offline_world (healthy_disk (Some [sample_row]))) = (Ok tt, w1)
    ∧ AuthContext.checkLocalUser "ann@example.com" "new-secret" w1 = (Ok (Some sample_user), w1)
    ∧ AuthContext.checkLocalUser "ann@example.com" "secret1" w1 = (Ok None, w1).
Proof.
  assert (Hdb : db_works (offline_world (healthy_disk (Some [sample_row]))))
    by (repeat split).
  assert (Hready : table_ready (offline_world (healthy_disk (Some [sample_row]))))
    by (left; reflexivity).
  destruct (saveLocalUser_checkLocalUser offline_env sample_user "new-secret" "new-secret"
              _ Hdb Hready) as (w1 & Hsave & Hhit).
  exists w1. split; [exact Hsave|]. split; [exact Hhit|].
  destruct (saveLocalUser_checkLocalUser offline_env sample_user "new-secret" "secret1"
              _ Hdb Hready) as (w1' & Hsave' & Hmiss).
  rewrite Hsave in Hsave'. injection Hsave' as <-. exact Hmiss.
Defined.

Lemma NoDup_fmap_filter {A B} (f : A → B) (g : A → bool) l :
  NoDup (f <$> l) → NoDup (f <$> List.filter g l).
Proof.
  induction l as [|a l IH]; simpl; [done|].
  rewrite NoDup_cons. intros [Hna Hnd]. destruct (g a); [|by apply IH].
  rewrite fmap_cons, NoDup_cons. split; [|by apply IH].
  intros Hin. apply Hna. apply list_elem_of_fmap in Hin as (a' & -> & Hin).
  apply list_elem_of_fmap. exists a'. split; [done|].
  apply list_elem_of_In in Hin. apply filter_In in Hin as [Hin _].
  by apply list_elem_of_In.
Qed.

Lemma insert_or_replace_unique r rows :
  users_unique rows → users_unique (AuthContext.insert_or_replace r rows).
Proof.
  intros [Hid Hem]. unfold AuthContext.insert_or_replace.
  split; rewrite fmap_app; apply NoDup_app.
  - split; [by apply NoDup_fmap_filter|]. split; [|apply NoDup_singleton].
    intros x Hx Hx'. apply list_elem_of_singleton in Hx' as ->.
    apply list_elem_of_fmap in Hx as (r' & Heq & Hin).
    apply list_elem_of_In, filter_In in Hin as [_ Hg].
    rewrite <- Heq, Z.eqb_refl in Hg. done.
  - split; [by apply NoDup_fmap_filter|]. split; [|apply NoDup_singleton].
    intros x Hx Hx'. apply list_elem_of_singleton in Hx' as ->.
    apply list_elem_of_fmap in Hx as (r' & Heq & Hin).
    apply list_elem_of_In, filter_In in Hin as [_ Hg].
    rewrite <- Heq, String.eqb_refl, orb_true_r in Hg. done.
Qed.

(** X7. saveLocalUser keeps the constraints of the users table: when no
    two rows share an id or an email before the call, none do after it,
    whether the insertion succeeds or fails, and the table holds at most
    one more row than before. *)
Theorem saveLocalUser_keeps_unique env u password w :
  from_option users_unique True (users (disk w)) →
  from_option users_unique True (users (disk (AuthContext.saveLocalUser env u password w).2))
  ∧ (length (default [] (users (disk (AuthContext.saveLocalUser env u password w).2)))
     ≤ S (length (default [] (users (disk w)))))%nat.
Proof.
  intros Hu.
  assert (Hlen : ∀ r rows,
            (length (AuthContext.insert_or_replace r rows) ≤ S (length rows))%nat).
  { intros r rows. unfold AuthContext.insert_or_replace. rewrite length_app. simpl.
    pose proof (filter_length_le
                  (λ r', negb ((row_id r' =? row_id r)%Z
                               || String.eqb (row_email r') (row_email r))) rows).
    lia. }
  unfold AuthContext.saveLocalUser, AuthContext.initDatabase,
    AuthContext.runAsync_insert_user, AuthContext.openDatabaseAsync,
    AuthContext.execAsync_create_users.
  run.
  destruct w as [nl ic st sl [co eo qo ro us] dyn [h|] u0 t il mv au]; simpl in *.
  - destruct ro; simpl; [|split; [done|lia]].
    destruct us as [rows|]; simpl; [|split; [done|lia]].
    split; [by apply insert_or_replace_unique|apply Hlen].
  - destruct co; simpl; [|split; [done|lia]].
    destruct eo; simpl; destruct ro; simpl; destruct us as [rows|]; simpl.
    all: try (split; [done|lia]).
    all: try (split; [by apply insert_or_replace_unique|apply Hlen]).
    all: split; [try apply insert_or_replace_unique; split; apply NoDup_nil_2|simpl; lia].
Qed.

Lemma saveLocalUser_keeps_unique_witness :
  users_unique [sample_row; bob_row]
  ∧ users (disk (AuthContext.saveLocalUser offline_env sample_user "new-secret"
                   (offline_world (healthy_disk (Some [sample_row; bob_row])))).2)
    = Some [bob_row; row_of_user offline_env sample_user "new-secret"]
  ∧ users_unique [bob_row; row_of_user offline_env sample_user "new-secret"].
Proof.
  assert (Hu : users_unique [sample_row; bob_row]).
  { split; apply NoDup_cons; (split; [|apply NoDup_singleton]);
      intros H; apply list_elem_of_singleton in H; discriminate H. }
  split; [exact Hu|]. split; [reflexivity|].
  exact (proj1 (saveLocalUser_keeps_unique offline_env sample_user "new-secret"
                  (offline_world (healthy_disk (Some [sample_row; bob_row]))) Hu)).
Defined.

(** ** Online sign-in *)

Lemma fetchWithTimeout_run env url method hdrs body t w :
  ApiConfig.fetchWithTimeout env url method hdrs body t w =
    ApiConfig.fetch env {| url := url; method := method;
                           headers := hdrs ∪ ApiConfig.json_headers;
                           body := body; timeout := Some t |} w.
Proof.
  unfold ApiConfig.fetchWithTimeout, try_catch, throw.
  by destruct (ApiConfig.fetch env _ w) as [[r|e|] w'].
Qed.

Lemma fetch_no_response env req w t :
  timeout req = Some t → delivered env (net_log w) req = None →
  ∃ e, ApiConfig.fetch env req w = (Throw e, with_net_log (net_log w ++ [req]) w)
       ∧ NetworkError e.
Proof.
  intros Ht Hd. rewrite fetch_run, Hd, Ht.
  destruct (net env (net_log w) req); by eexists.
Qed.

Lemma signIn_online_no_response env email password w :
  isConnected w = true →
  delivered env (net_log w) (login_request (apiUrl w) email password) = None →
  ∃ e, AuthContext.signIn env email password w =
         (Throw e, request_only_world (login_request (apiUrl w) email password) w)
       ∧ NetworkError e.
Proof.
  intros Hcon Hd.
  destruct (fetch_no_response env (login_request (apiUrl w) email password)
              (with_isLoading true w) 30000%N eq_refl Hd) as (e & Hf & He).
  exists e. split; [|done].
  unfold AuthContext.signIn, AuthContext.NetInfo_fetch, try_finally. run.
  rewrite Hcon. simpl. rewrite fetchWithTimeout_run.
  fold (login_request (apiUrl w) email password). by rewrite Hf.
Qed.


Lemma signIn_online_accepted env email password w r data t u :
  isConnected w = true →
  delivered env (net_log w) (login_request (apiUrl w) email password) = Some r →
  ok r = true → json r = Some data →
  data_access_token data = Some t → data_user data = Some u →
  db_works w → table_ready w →
  AuthContext.signIn env email password w =
    (Ok tt, session_world env (login_request (apiUrl w) email password) t u password w).
Proof.
  intros Hcon Hd Hok Hj Ht Hu Hdb Hready.
  unfold AuthContext.signIn, AuthContext.NetInfo_fetch, try_finally, AsyncStorage.setItem.
  run. rewrite Hcon. simpl. rewrite fetchWithTimeout_run.
  fold (login_request (apiUrl w) email password).
  rewrite fetch_run. simpl. rewrite Hd, Hok. simpl.
  unfold response_json. rewrite Hj. simpl. rewrite Ht, Hu. simpl.
  rewrite saveLocalUser_run by done. simpl.
  unfold session_world. by rewrite <- app_assoc.
Qed.

(** X8. The offline fallback of signIn depends on NetInfo alone: while
    the device reports a connection, a sign-in whose request gets no
    response fails with the transport's error after that single request
    (timer 30 s) and leaves storage, database handle and table untouched,
    although the same call in the same world without connection succeeds
    when the cache holds the credentials. *)
Theorem signIn_connected_no_fallback env email password w :
  isConnected w = true →
  delivered env (net_log w) (login_request (apiUrl w) email password) = None →
  (∃ e w', AuthContext.signIn env email password w = (Throw e, w')
     ∧ NetworkError e
     ∧ net_log w' = net_log w ++ [login_request (apiUrl w) email password]
     ∧ storage w' = storage w ∧ storage_log w' = storage_log w
     ∧ disk w' = disk w ∧ db w' = db w
     ∧ user w' = user w ∧ token w' = token w)
  ∧ (holds_record w email password → db_usable w = true →
     ∃ w', AuthContext.signIn env email password (with_isConnected false w) = (Ok tt, w')).
Proof.
  intros Hcon Hd. split.
  - destruct (signIn_online_no_response env email password w Hcon Hd) as (e & -> & He).
    by eexists _, _.
  - intros Hrec Hdb.
    destruct (signIn_offline env email password (with_isConnected false w) eq_refl)
      as (h & d & ->).
    change (db_usable (with_isConnected false w)) with (db_usable w).
    change (cache_lookup (with_isConnected false w) email password)
      with (cache_lookup w email password).
    destruct (holds_record_lookup _ _ _ Hrec) as [row ->]. rewrite Hdb. simpl.
    by eexists.
Qed.

Lemma signIn_connected_no_fallback_witness :
  holds_record online_cached_world "ann@example.com" "secret1"
  ∧ (AuthContext.signIn down_env "ann@example.com" "secret1" online_cached_world).1
    = Throw (TypeError "Network request failed")
  ∧ (AuthContext.signIn down_env "ann@example.com" "secret1"
       (with_isConnected false online_cached_world)).1 = Ok tt.
Proof.
  assert (Hrec : holds_record online_cached_world "ann@example.com" "secret1").
  { exists [sample_row], sample_row. repeat split. left. }
  destruct (signIn_connected_no_fallback down_env "ann@example.com" "secret1"
              online_cached_world eq_refl eq_refl) as [(e & w' & Hrun & _) Hoff].
  destruct (Hoff Hrec eq_refl) as (w'' & Hrun').
  split; [exact Hrec|]. split; [vm_compute; reflexivity|]. rewrite Hrun'. reflexivity.
Defined.




(** Offline sign-in over the world a session left behind. *)
Lemma signIn_offline_after_session env env' req t u password email p w :
  db_works w →
  ∃ w3, AuthContext.signIn env' email p
          (with_isConnected false (session_world env req t u password w)) =
          (match List.find (AuthContext.row_matches email p)
                   (AuthContext.insert_or_replace (row_of_user env u password)
                      (default [] (users (disk w)))) with
           | Some row => Ok tt
           | None => Throw (Error AuthContext.OFFLINE_AUTH_ERROR)
           end, w3)
    ∧ (∀ row, List.find (AuthContext.row_matches email p)
                (AuthContext.insert_or_replace (row_of_user env u password)
                   (default [] (users (disk w)))) = Some row →
         user w3 = Some (user_of_row row)
         ∧ token w3 = Some (AuthContext.offline_token env')).
Proof.
  intros (Hco & Heo & Hqo & Hro).
  destruct (signIn_offline env' email p
              (with_isConnected false (session_world env req t u password w)) eq_refl)
    as (h & d & ->).
  unfold db_usable, cache_lookup. simpl. rewrite Hqo. simpl.
  destruct (List.find _ _) as [row|]; simpl.
  - eexists. split; [done|]. intros ? [= <-]. done.
  - eexists. split; [done|]. done.
Qed.

(** X10. One successful online sign-in enables the offline one: after
    signIn has succeeded online over a working database, with the server
    returning the user under the email that was typed, the same email
    and password sign in without connection to the same user, with a
    generated offline token in place of the server's. *)
Theorem signIn_online_then_offline env env' email password w r data t u :
  isConnected w = true →
  delivered env (net_log w) (login_request (apiUrl w) email password) = Some r →
  ok r = true → json r = Some data →
  data_access_token data = Some t → data_user data = Some u →
  db_works w → table_ready w →
  user_email u = email →
  ∃ w1 w3,
    AuthContext.signIn env email password w = (Ok tt, w1)
    ∧ user w1 = Some u ∧ token w1 = Some t
    ∧ AuthContext.signIn env' email password (with_isConnected false w1) = (Ok tt, w3)
    ∧ user w3 = Some u
    ∧ token w3 = Some (AuthContext.offline_token env').
Proof.
  intros Hcon Hd Hok Hj Ht Hu Hdb Hready <-.
  destruct (signIn_offline_after_session env env' (login_request (apiUrl w) (user_email u)
              password) t u password (user_email u) password w Hdb) as (w3 & Hrun & Hrow).
  pose proof (find_insert_or_replace (row_of_user env u password)
                (default [] (users (disk w))) password) as Hf.
  simpl in Hf. rewrite String.eqb_refl in Hf. rewrite Hf in Hrun, Hrow.
  destruct (Hrow _ eq_refl) as [Hu3 Ht3]. rewrite user_of_row_of_user in Hu3.
  exists (session_world env (login_request (apiUrl w) (user_email u) password)
            t u password w), w3.
  split; [by eapply signIn_online_accepted|]. done.
Qed.

Lemma signIn_online_then_offline_witness :
  ∃ w1 w3,
    AuthContext.signIn backend_env "ann@example.com" "secret1" fresh_world = (Ok tt, w1)
    ∧ token w1 = Some "tok123"
    ∧ AuthContext.signIn offline_env "ann@example.com" "secret1"
        (with_isConnected false w1) = (Ok tt, w3)
    ∧ user w3 = Some sample_user
    ∧ token w3 = Some "offline_1700000000000_k3j9x0q2a7".
Proof.
  assert (Hdb : db_works fresh_world) by (repeat split).
  assert (Hready : table_ready fresh_world) by (left; reflexivity).
  destruct (signIn_online_then_offline backend_env offline_env "ann@example.com" "secret1"
              fresh_world login_ok _ "tok123" sample_user
              eq_refl eq_refl eq_refl eq_refl eq_refl eq_refl Hdb Hready eq_refl)
    as (w1 & w3 & Hin & _ & Ht1 & Hoff & Hu3 & Ht3).
  exists w1, w3. split; [exact Hin|]. split; [exact Ht1|]. split; [exact Hoff|].
  split; [exact Hu3|exact Ht3].
Defined.

Lemma find_filter_None {A} (f g : A → bool) l :
  List.find f l = None → List.find f (List.filter g l) = None.
Proof.
  induction l as [|a l IH]; simpl; [done|].
  destruct (f a) eqn:Hf; [done|]. intros H. destruct (g a); simpl; [|by apply IH].
  rewrite Hf. by apply IH.
Qed.

(** X11. The cache is keyed by the email the server returns, not by the
    one that was typed: when the user of a successful online sign-in
    carries another spelling of the email and the cache held no record
    for the typed email and password, the offline sign-in with what was
    typed fails with the offline authentication error. *)
Theorem signIn_offline_needs_returned_email env env' email password w r data t u :
  isConnected w = true →
  delivered env (net_log w) (login_request (apiUrl w) email password) = Some r →
  ok r = true → json r = Some data →
  data_access_token data = Some t → data_user data = Some u →
  db_works w → table_ready w →
  user_email u ≠ email →
  ¬ holds_record w email password →
  ∃ w1 w3,
    AuthContext.signIn env email password w = (Ok tt, w1)
    ∧ user w1 = Some u
    ∧ AuthContext.signIn env' email password (with_isConnected false w1)
      = (Throw (Error AuthContext.OFFLINE_AUTH_ERROR), w3).
Proof.
  intros Hcon Hd Hok Hj Ht Hu Hdb Hready Hne Hmiss.
  destruct (signIn_offline_after_session env env' (login_request (apiUrl w) email password)
              t u password email password w Hdb) as (w3 & Hrun & _).
  assert (Hf : List.find (AuthContext.row_matches email password)
                 (AuthContext.insert_or_replace (row_of_user env u password)
                    (default [] (users (disk w)))) = None).
  { unfold AuthContext.insert_or_replace. rewrite find_app_None.
    - simpl. unfold AuthContext.row_matches. simpl.
      by destruct (String.eqb_spec (user_email u) email); [destruct Hne|].
    - apply find_filter_None. apply cache_lookup_None in Hmiss.
      unfold cache_lookup in Hmiss. by destruct (users (disk w)). }
  rewrite Hf in Hrun.
  exists (session_world env (login_request (apiUrl w) email password) t u password w), w3.
  split; [by eapply signIn_online_accepted|]. split; [done|exact Hrun].
Qed.

Lemma signIn_offline_needs_returned_email_witness :
  ∃ w1 w3,
    AuthContext.signIn backend_env "Ann@Example.com" "secret1" fresh_world = (Ok tt, w1)
    ∧ user w1 = Some sample_user
    ∧ AuthContext.signIn offline_env "Ann@Example.com" "secret1"
        (with_isConnected false w1) = (Throw (Error AuthContext.OFFLINE_AUTH_ERROR), w3).
Proof.
  assert (Hdb : db_works fresh_world) by (repeat split).
  assert (Hready : table_ready fresh_world) by (left; reflexivity).
  assert (Hmiss : ¬ holds_record fresh_world "Ann@Example.com" "secret1").
  { apply cache_lookup_None. reflexivity. }
  destruct (signIn_offline_needs_returned_email backend_env offline_env "Ann@Example.com"
              "secret1" fresh_world login_ok _ "tok123" sample_user
              eq_refl eq_refl eq_refl eq_refl eq_refl eq_refl Hdb Hready
              ltac:(discriminate) Hmiss)
    as (w1 & w3 & Hin & Hu1 & Hoff).
  exists w1, w3. split; [exact Hin|]. split; [exact Hu1|exact Hoff].
Defined.

(** ** Registration *)



Lemma signUp_online_accepted env email password name role w r data t u :
  isConnected w = true →
  delivered env (net_log w) (register_request (apiUrl w) email password name role) = Some r →
  ok r = true → json r = Some data →
  data_access_token data = Some t → data_user data = Some u →
  db_works w → table_ready w →
  AuthContext.signUp env email password name role w =
    (Ok tt,
     session_world env (register_request (apiUrl w) email password name role) t u password w).
Proof.
  intros Hcon Hd Hok Hj Ht Hu Hdb Hready.
  unfold AuthContext.signUp, AuthContext.NetInfo_fetch, try_finally, AsyncStorage.setItem.
  run. rewrite Hcon. simpl. rewrite fetchWithTimeout_run.
  fold (register_request (apiUrl w) email password name role).
  rewrite fetch_run. simpl. rewrite Hd, Hok. simpl.
  unfold response_json. rewrite Hj. simpl. rewrite Ht, Hu. simpl.
  rewrite saveLocalUser_run by done. simpl.
  unfold session_world. by rewrite <- app_assoc.
Qed.

(** X12. A registration the server accepts establishes the session and
    caches the credentials: signUp persists the token and the user under
    authToken and user, sets both in the provider, and, when the server
    returns the user under the email that was typed, the same email and
    password then sign in without connection to the same user. *)
Theorem signUp_then_offline_signIn env env' email password name role w r data t u :
  isConnected w = true →
  delivered env (net_log w) (register_request (apiUrl w) email password name role) = Some r →
  ok r = true → json r = Some data →
  data_access_token data = Some t → data_user data = Some u →
  db_works w → table_ready w →
  user_email u = email →
  ∃ w1 w3,
    AuthContext.signUp env email password name role w = (Ok tt, w1)
    ∧ user w1 = Some u ∧ token w1 = Some t
    ∧ storage w1 = <["user" := JSON_stringify env u]> (<["authToken" := t]> (storage w))
    ∧ AuthContext.signIn env' email password (with_isConnected false w1) = (Ok tt, w3)
    ∧ user w3 = Some u.
Proof.
  intros Hcon Hd Hok Hj Ht Hu Hdb Hready <-.
  destruct (signIn_offline_after_session env env'
              (register_request (apiUrl w) (user_email u) password name role)
              t u password (user_email u) password w Hdb) as (w3 & Hrun & Hrow).
  pose proof (find_insert_or_replace (row_of_user env u password)
                (default [] (users (disk w))) password) as Hf.
  simpl in Hf. rewrite String.eqb_refl in Hf. rewrite Hf in Hrun, Hrow.
  destruct (Hrow _ eq_refl) as [Hu3 Ht3]. rewrite user_of_row_of_user in Hu3.
  exists (session_world env (register_request (apiUrl w) (user_email u) password name role)
            t u password w), w3.
  split; [by eapply signUp_online_accepted|]. done.
Qed.

Lemma signUp_then_offline_signIn_witness :
  ∃ w1 w3,
    AuthContext.signUp registering_env "ann@example.com" "secret1" "Ann" "mechanic"
      fresh_world = (Ok tt, w1)
    ∧ storage w1 !! "authToken" = Some "tok123"
    ∧ AuthContext.signIn offline_env "ann@example.com" "secret1"
        (with_isConnected false w1) = (Ok tt, w3)
    ∧ user w3 = Some sample_user.
Proof.
  assert (Hdb : db_works fresh_world) by (repeat split).
  assert (Hready : table_ready fresh_world) by (left; reflexivity).
  destruct (signUp_then_offline_signIn registering_env offline_env "ann@example.com"
              "secret1" "Ann" "mechanic" fresh_world login_ok _ "tok123" sample_user
              eq_refl eq_refl eq_refl eq_refl eq_refl eq_refl Hdb Hready eq_refl)
    as (w1 & w3 & Hup & _ & _ & Hst & Hoff & Hu3).
  exists w1, w3. split; [exact Hup|]. split; [rewrite Hst; reflexivity|].
  split; [exact Hoff|exact Hu3].
Defined.

(** ** The registration screen *)








(** ** loginUser and registerUser *)

Lemma getWorkingApiBaseUrl_storage env w base w1 :
  Api.getWorkingApiBaseUrl env w = (Ok base, w1) →
  storage w1 = storage w ∧ storage_log w1 = storage_log w.
Proof.
  intros H1. destruct (getWorkingApiBaseUrl_frame _ _ _ _ H1) as (dyn & used & ->). done.
Qed.

Lemma loginUser_accepted env email password w base w1 r data :
  Api.getWorkingApiBaseUrl env w = (Ok base, w1) →
  delivered env (net_log w1) (loginUser_request base email password) = Some r →
  ok r = true → json r = Some data →
  Api.loginUser env email password w =
    (Ok data,
     if truthy (data_access_token data) then
       with_storage (<["authToken" := default "" (data_access_token data)]> (storage w))
         (storage_log w ++ [SetItem "authToken" (default "" (data_access_token data))])
         (with_net_log (net_log w1 ++ [loginUser_request base email password]) w1)
     else with_net_log (net_log w1 ++ [loginUser_request base email password]) w1).
Proof.
  intros H1 Hd Hok Hj. destruct (getWorkingApiBaseUrl_storage _ _ _ _ H1) as [Hst Hsl].
  unfold Api.loginUser, AsyncStorage.setItem. run. rewrite H1. simpl.
  fold (loginUser_request base email password). rewrite fetch_run. simpl.
  rewrite Hd, Hok. simpl. unfold response_json. rewrite Hj. simpl.
  destruct (data_access_token data) as [t|]; simpl; [|done].
  destruct (String.eqb t ""); simpl; [done|]. by rewrite Hst, Hsl.
Qed.

(** X16. A login through the API service makes the following calls
    authenticated: when loginUser is answered with a success status and
    a JSON body carrying a non-empty access_token, it returns the body
    and stores the token under authToken, leaving the key user alone,
    and every apiCall made from the resulting world by a caller without
    an Authorization header of its own sends Authorization: Bearer
    followed by that token on its endpoint request. *)
Theorem loginUser_then_apiCall env email password w base w1 r data t :
  Api.getWorkingApiBaseUrl env w = (Ok base, w1) →
  delivered env (net_log w1) (loginUser_request base email password) = Some r →
  ok r = true → json r = Some data →
  data_access_token data = Some t → t ≠ "" →
  ∃ w2, Api.loginUser env email password w = (Ok data, w2)
    ∧ storage w2 = <["authToken" := t]> (storage w)
    ∧ storage w2 !! "user" = storage w !! "user"
    ∧ (∀ endpoint options,
         Api.init_headers options !! "Authorization" = None →
         ∃ base2 used,
           issued (Api.apiCall env endpoint options) w2 =
             (probe30 <$> used) ++ [Api.apiCall_request base2 endpoint options (Some t)]
           ∧ headers (Api.apiCall_request base2 endpoint options (Some t))
               !! "Authorization" = Some ("Bearer " +:+ t)).
Proof.
  intros H1 Hd Hok Hj Ht Hne.
  rewrite (loginUser_accepted env email password w base w1 r data H1 Hd Hok Hj).
  apply truthy_Some in Hne. rewrite Ht, Hne. simpl.
  eexists. split; [done|]. simpl. split; [done|]. split; [by rewrite lookup_insert_ne|].
  intros endpoint options Hopt.
  match goal with |- context [issued _ ?w2] =>
    destruct (issued_apiCall env endpoint options w2) as (base2 & used & Hiss) end.
  simpl in Hiss. rewrite lookup_insert_eq in Hiss.
  exists base2, used. split; [exact Hiss|].
  unfold Api.apiCall_request, Api.auth_header. cbn [headers].
  simpl in Hne. rewrite Hne.
  rewrite !lookup_union, Hopt, lookup_singleton_eq. reflexivity.
Qed.

Lemma loginUser_then_apiCall_witness :
  ∃ w2, (Api.loginUser login_backend_env "ann@example.com" "secret1" fresh_world).2 = w2
    ∧ storage w2 = {[ "authToken" := "tok123" ]}
    ∧ ∃ base2 used,
        issued (Api.fetchDiagnosticHistory login_backend_env) w2 =
          (probe30 <$> used) ++ [Api.apiCall_request base2 "/diagnostics/" Api.no_options
                                   (Some "tok123")]
        ∧ headers (Api.apiCall_request base2 "/diagnostics/" Api.no_options (Some "tok123"))
            !! "Authorization" = Some "Bearer tok123".
Proof.
  set (w1 := (Api.getWorkingApiBaseUrl login_backend_env fresh_world).2).
  assert (H1 : Api.getWorkingApiBaseUrl login_backend_env fresh_world =
               (Ok "http://localhost:8000/api", w1)) by (vm_compute; reflexivity).
  destruct (loginUser_then_apiCall login_backend_env "ann@example.com" "secret1" fresh_world
              "http://localhost:8000/api" w1 login_ok _ "tok123" H1
              eq_refl eq_refl eq_refl eq_refl ltac:(discriminate))
    as (w2 & Hrun & Hst & _ & Hcall).
  exists w2. split; [by rewrite Hrun|]. split; [rewrite Hst; reflexivity|].
  destruct (Hcall "/diagnostics/" Api.no_options eq_refl) as (base2 & used & Hiss & Hh).
  by exists base2, used.
Defined.

(** X17. loginUser and registerUser report every response outside
    200-299 with one fixed message, Invalid credentials and Registration
    failed, whatever the status and the body, and touch the storage in
    no way: a token stored before stays stored also after a 401, which
    apiCall would have removed. *)
Theorem loginUser_registerUser_rejected env email password name w base w1 r :
  Api.getWorkingApiBaseUrl env w = (Ok base, w1) →
  ok r = false →
  (delivered env (net_log w1) (loginUser_request base email password) = Some r →
   ∃ w2, Api.loginUser env email password w = (Throw (Error "Invalid credentials"), w2)
     ∧ storage w2 = storage w ∧ storage_log w2 = storage_log w)
  ∧ (delivered env (net_log w1) (registerUser_request base email password name) = Some r →
     ∃ w2, Api.registerUser env email password name w =
             (Throw (Error "Registration failed"), w2)
       ∧ storage w2 = storage w ∧ storage_log w2 = storage_log w).
Proof.
  intros H1 Hok. destruct (getWorkingApiBaseUrl_storage _ _ _ _ H1) as [Hst Hsl].
  split; intros Hd.
  - unfold Api.loginUser. run. rewrite H1. simpl.
    fold (loginUser_request base email password). rewrite fetch_run. simpl.
    rewrite Hd, Hok. simpl. by eexists.
  - unfold Api.registerUser. run. rewrite H1. simpl.
    fold (registerUser_request base email password name). rewrite fetch_run. simpl.
    rewrite Hd, Hok. simpl. by eexists.
Qed.

Lemma loginUser_registerUser_rejected_witness :
  ∃ w2, Api.registerUser backend_env "ann@example.com" "wrong" "Ann" signed_in_world =
          (Throw (Error "Registration failed"), w2)
    ∧ status unauthorized = 401
    ∧ storage w2 = {[ "authToken" := "stale-token" ]}.
Proof.
  set (w1 := (Api.getWorkingApiBaseUrl backend_env signed_in_world).2).
  assert (H1 : Api.getWorkingApiBaseUrl backend_env signed_in_world =
               (Ok "http://localhost:8000/api", w1)) by (vm_compute; reflexivity).
  destruct (loginUser_registerUser_rejected backend_env "ann@example.com" "wrong" "Ann"
              signed_in_world "http://localhost:8000/api" w1 unauthorized H1 eq_refl)
    as (_ & Hreg).
  destruct (Hreg eq_refl) as (w2 & Hrun & Hst & _).
  exists w2. split; [exact Hrun|]. split; [reflexivity|]. rewrite Hst. reflexivity.
Defined.

(** ** The analysis uploads *)

Lemma analyze_outcomes env loc path dt dn failure file w :
  analysis_outcomes env (Api.analyze env loc path dt dn failure file)
    (λ base t, Api.analyze_request base path t (file_descriptor loc file dt dn)) w.
Proof.
  intros base w1 H1. destruct (getWorkingApiBaseUrl_storage _ _ _ _ H1) as [Hst Hsl].
  split.
  - intros Hno. rewrite <- Hst in Hno.
    unfold Api.analyze, Api.getAuthToken, AsyncStorage.getItem, token_read_world. run.
    rewrite H1. simpl. simpl in Hno.
    destruct (storage w1 !! "authToken") as [t|]; simpl in *; [|done].
    destruct (String.eqb t ""); [done|done].
  - intros t Ht Hne. apply truthy_Some in Hne. simpl in Hne.
    assert (Hrun : Api.analyze env loc path dt dn failure file w =
      match ApiConfig.fetch env
              (Api.analyze_request base path t (file_descriptor loc file dt dn))
              (token_read_world w1) with
      | (Ok r, w3) =>
          if negb (ok r) then
            if (status r =? 401)%nat then
              (Throw (Error Api.NETWORK_REQUEST_FAILED),
               with_storage (delete "authToken" (storage w3))
                 (storage_log w3 ++ [RemoveItem "authToken"]) w3)
            else (Throw (Error Api.NETWORK_REQUEST_FAILED), w3)
          else match json r with
               | Some d => (Ok d, w3)
               | None => (Throw (Error Api.NETWORK_REQUEST_FAILED), w3)
               end
      | (Throw _, w3) => (Throw (Error Api.NETWORK_REQUEST_FAILED), w3)
      | (Pending, w3) => (Pending, w3)
      end).
    { unfold Api.analyze, Api.getAuthToken, AsyncStorage.getItem,
        AsyncStorage.removeItem, file_descriptor, token_read_world. run.
      rewrite H1. simpl. rewrite Hst, Ht. simpl. rewrite Hne. simpl.
      destruct (ApiConfig.fetch env _ _) as [[r|e|] w3]; [|done|done].
      destruct (ok r); simpl.
      - unfold response_json. by destruct (json r).
      - by destruct (status r =? 401)%nat. }
    rewrite Hrun, fetch_run. unfold delivered. simpl.
    split; [by destruct (net env (net_log w1) _) as [lat r| |];
              [destruct (ok r); [destruct (json r)|destruct (status r =? 401)%nat]| |]|].
    split; [done|].
    split; [|split; [|split; [|split; [|split]]]].
    + intros r d Hd Hok Hj. destruct (net env (net_log w1) _); [|done|done].
      injection Hd as ->. rewrite Hok, Hj. simpl. by rewrite Hst.
    + intros r Hd Hok Hj. destruct (net env (net_log w1) _); [|done|done].
      injection Hd as ->. by rewrite Hok, Hj.
    + intros r Hd H401. destruct (net env (net_log w1) _); [|done|done].
      injection Hd as ->. unfold ok. rewrite H401. simpl. by rewrite Hst.
    + intros r Hd Hok H401. destruct (net env (net_log w1) _); [|done|done].
      injection Hd as ->. rewrite Hok. simpl.
      destruct (Nat.eqb_spec (status r) 401); [done|]. simpl. by rewrite Hst.
    + intros Hn. by rewrite Hn.
    + intros Hn. by rewrite Hn.
Qed.

(** X18. analyzeDashboardImage and analyzeEngineSound check the stored
    token after resolving the base URL and before any upload: without a
    token they throw Not authenticated and issue no endpoint request.
    With a token they issue one multipart request without timeout, and
    every failure after that, a network failure, a status outside
    200-299, a body that is not JSON, surfaces as the one message Network
    request failed - check your connection; a 401 still removes the
    stored token but is reported with that same message, and the error
    text of the server is dropped.  A success status with a JSON body
    returns the body, and a network that never answers leaves the call
    pending. *)
Theorem analyze_uploads_outcomes env loc file w :
  analysis_outcomes env (Api.analyzeDashboardImage env loc file)
    (λ base t, Api.analyze_request base "/diagnostics/analyze-dashboard" t
                 (file_descriptor loc file "image/jpeg" "dashboard.jpg")) w
  ∧ analysis_outcomes env (Api.analyzeEngineSound env loc file)
      (λ base t, Api.analyze_request base "/diagnostics/analyze-sound" t
                   (file_descriptor loc file "audio/m4a" "engine_sound.m4a")) w.
Proof. split; apply analyze_outcomes. Qed.

Lemma analyze_uploads_outcomes_witness :
  (Api.analyzeDashboardImage backend_env no_locator dashboard_photo fresh_world).1
    = Throw (Error "Not authenticated")
  ∧ (Api.analyzeDashboardImage backend_env no_locator dashboard_photo signed_in_world).1
    = Throw (Error Api.NETWORK_REQUEST_FAILED)
  ∧ storage (Api.analyzeDashboardImage backend_env no_locator dashboard_photo
               signed_in_world).2 = ∅.
Proof.
  set (w0 := (Api.getWorkingApiBaseUrl backend_env fresh_world).2).
  assert (H0 : Api.getWorkingApiBaseUrl backend_env fresh_world =
               (Ok "http://localhost:8000/api", w0)) by (vm_compute; reflexivity).
  set (w1 := (Api.getWorkingApiBaseUrl backend_env signed_in_world).2).
  assert (H1 : Api.getWorkingApiBaseUrl backend_env signed_in_world =
               (Ok "http://localhost:8000/api", w1)) by (vm_compute; reflexivity).
  destruct (proj1 (analyze_uploads_outcomes backend_env no_locator dashboard_photo
                     fresh_world) _ _ H0) as [Hno _].
  destruct (proj1 (analyze_uploads_outcomes backend_env no_locator dashboard_photo
                     signed_in_world) _ _ H1) as [_ Htok].
  destruct (Htok "stale-token" eq_refl ltac:(discriminate))
    as (_ & _ & _ & _ & H401 & _).
  destruct (H401 unauthorized eq_refl eq_refl) as [Hmsg Hst].
  split; [by rewrite (Hno eq_refl)|]. split; [exact Hmsg|]. rewrite Hst. reflexivity.
Defined.

(** ** More on the dispatcher *)

Lemma apiCall_frame env endpoint options w base w1 :
  Api.getWorkingApiBaseUrl env w = (Ok base, w1) →
  ∃ st sl, (Api.apiCall env endpoint options w).2 =
             with_storage st sl
               (with_net_log (net_log w1 ++ [endpoint_request base endpoint options w]) w1).
Proof.
  intros H1. destruct (getWorkingApiBaseUrl_storage _ _ _ _ H1) as [Hst Hsl].
  unfold Api.apiCall, Api.getAuthToken, AsyncStorage.getItem, AsyncStorage.removeItem,
    endpoint_request.
  run. rewrite H1. simpl. rewrite fetch_run. simpl. rewrite Hst.
  destruct (delivered env _ _) as [r|];
    [|by destruct (net env _ _), (Api.init_signal options); eexists _, _].
  destruct (ok r); simpl.
  - unfold response_json. by destruct (json r); eexists _, _.
  - destruct (status r =? 401)%nat; simpl; [by eexists _, _|].
    unfold response_json. by destruct (json r); eexists _, _.
Qed.

Lemma findWorkingApiUrl_result env w u w1 :
  CLOUD_BACKEND_URL env ≠ "" →
  Api.findWorkingApiUrl env w = (Ok u, w1) →
  DYNAMIC_API_BASE_URL w1 = Some u ∧ u ≠ "".
Proof.
  intros Hc. unfold Api.findWorkingApiUrl. run.
  assert (Hdisc : Api.findWorkingApiUrl_discover env w = (Ok u, w1) →
                  DYNAMIC_API_BASE_URL w1 = Some u ∧ u ≠ "").
  { destruct (findWorkingApiUrl_discover_frame env w) as (v & used & -> & Hv & _).
    intros [= -> <-]. split; [done|].
    destruct Hv as [Hv| ->];
      [by eapply possibleUrls_nonempty|by apply getApiBaseUrl_nonempty]. }
  destruct (DYNAMIC_API_BASE_URL w) as [u0|] eqn:Hd; simpl; [|done].
  destruct (String.eqb_spec u0 ""); simpl; [done|].
  intros [= -> <-]. done.
Qed.

(** X19. apiCall discovers the base URL once: whatever the outcome of a
    first apiCall, a second apiCall in the world it leaves issues exactly
    one request, the one for its endpoint, to the base URL the first one
    used, and no health probe. *)
Theorem apiCall_discovers_once env endpoint options endpoint2 options2 w :
  CLOUD_BACKEND_URL env ≠ "" →
  ∃ base used,
    issued (Api.apiCall env endpoint options) w =
      (probe30 <$> used) ++ [endpoint_request base endpoint options w]
    ∧ issued (Api.apiCall env endpoint2 options2) (Api.apiCall env endpoint options w).2 =
        [endpoint_request base endpoint2 options2 (Api.apiCall env endpoint options w).2].
Proof.
  intros Hc.
  destruct (getWorkingApiBaseUrl_total env w) as (base & w1 & H1).
  destruct (getWorkingApiBaseUrl_frame _ _ _ _ H1) as (dyn & used & Hw1).
  destruct (findWorkingApiUrl_result env w base w1 Hc H1) as [Hdyn Hne].
  destruct (apiCall_frame env endpoint options w base w1 H1) as (st & sl & Hw2).
  exists base, used. split.
  - unfold issued. rewrite (apiCall_net_log _ _ _ _ _ _ H1), Hw1. simpl.
    by rewrite <- app_assoc, drop_app_length.
  - set (w2 := (Api.apiCall env endpoint options w).2) in *.
    assert (H2 : Api.getWorkingApiBaseUrl env w2 = (Ok base, w2)).
    { apply findWorkingApiUrl_cached; [|done]. rewrite Hw2. exact Hdyn. }
    unfold issued. rewrite (apiCall_net_log _ _ _ _ _ _ H2).
    by rewrite drop_app_length.
Qed.

Lemma apiCall_discovers_once_witness :
  CLOUD_BACKEND_URL backend_env ≠ ""
  ∧ issued (Api.fetchMechanics backend_env)
      (Api.fetchDiagnosticHistory backend_env signed_in_world).2 =
      [Api.apiCall_request "http://localhost:8000/api" "/mechanics/" Api.no_options None].
Proof.
  split; [discriminate|].
  destruct (apiCall_discovers_once backend_env "/diagnostics/" Api.no_options
              "/mechanics/" Api.no_options signed_in_world ltac:(discriminate))
    as (base & used & _ & H2).
  vm_compute. reflexivity.
Defined.



(** ** Certificate upload and profile update *)

(** X21. With a token and a connection, uploadCertificate issues one
    request with a 60 s timer: a POST of the FormData descriptor of the
    certificate as image/jpeg named certificate.jpg, with the bearer
    token and, from the defaults of fetchWithTimeout, the JSON content
    type.  Any success status marks the mechanic as verified at once,
    whatever the body; any other status throws Failed to upload
    certificate and, also for a 401, leaves token, user and storage as
    they were. *)
Theorem uploadCertificate_online env certificateUri w t :
  token w = Some t → t ≠ "" → isConnected w = true →
  headers (upload_request (apiUrl w) t certificateUri) !! "Content-Type"
    = Some "application/json"
  ∧ headers (upload_request (apiUrl w) t certificateUri) !! "Authorization"
    = Some ("Bearer " +:+ t)
  ∧ (∀ r, delivered env (net_log w) (upload_request (apiUrl w) t certificateUri) = Some r →
       AuthContext.uploadCertificate env certificateUri w =
         if ok r then
           (Ok tt,
            with_isMechanicVerified true
              (with_net_log (net_log w ++ [upload_request (apiUrl w) t certificateUri]) w))
         else
           (Throw (Error "Failed to upload certificate"),
            with_net_log (net_log w ++ [upload_request (apiUrl w) t certificateUri]) w))
  ∧ (delivered env (net_log w) (upload_request (apiUrl w) t certificateUri) = None →
     ∃ e, AuthContext.uploadCertificate env certificateUri w =
            (Throw e,
             with_net_log (net_log w ++ [upload_request (apiUrl w) t certificateUri]) w)
          ∧ NetworkError e).
Proof.
  intros Ht Hne Hcon. apply truthy_Some in Hne. simpl in Hne.
  split.
  { unfold upload_request. cbn [headers].
    rewrite lookup_union_r by (by apply lookup_singleton_ne). reflexivity. }
  split.
  { unfold upload_request. cbn [headers].
    apply lookup_union_Some_l, lookup_singleton_eq. }
  assert (Hrun : AuthContext.uploadCertificate env certificateUri w =
    match ApiConfig.fetch env (upload_request (apiUrl w) t certificateUri) w with
    | (Ok r, w') =>
        if ok r then (Ok tt, with_isMechanicVerified true w')
        else (Throw (Error "Failed to upload certificate"), w')
    | (Throw e, w') => (Throw e, w')
    | (Pending, w') => (Pending, w')
    end).
  { unfold AuthContext.uploadCertificate, AuthContext.NetInfo_fetch. run.
    rewrite Ht. simpl. rewrite Hne. simpl. rewrite Hcon. simpl.
    rewrite fetchWithTimeout_run.
    fold (upload_request (apiUrl w) t certificateUri).
    destruct (ApiConfig.fetch env _ w) as [[r|e|] w']; [|done|done].
    by destruct (ok r). }
  split.
  - intros r Hd. rewrite Hrun, fetch_run, Hd. by destruct (ok r).
  - intros Hd. rewrite Hrun.
    destruct (fetch_no_response env (upload_request (apiUrl w) t certificateUri) w
                ApiConfig.API_TIMEOUT eq_refl Hd) as (e & -> & He).
    by exists e.
Qed.

Lemma uploadCertificate_online_witness :
  AuthContext.uploadCertificate backend_env "file:///cert.jpg" mechanic_world =
    (Throw (Error "Failed to upload certificate"),
     with_net_log [upload_request "http://localhost:8000/api" "tok123" "file:///cert.jpg"]
       mechanic_world)
  ∧ AuthContext.uploadCertificate login_backend_env "file:///cert.jpg" mechanic_world =
      (Ok tt,
       with_isMechanicVerified true
         (with_net_log [upload_request "http://localhost:8000/api" "tok123" "file:///cert.jpg"]
            mechanic_world)).
Proof.
  destruct (uploadCertificate_online backend_env "file:///cert.jpg" mechanic_world "tok123"
              eq_refl ltac:(discriminate) eq_refl) as (_ & _ & H401 & _).
  destruct (uploadCertificate_online login_backend_env "file:///cert.jpg" mechanic_world
              "tok123" eq_refl ltac:(discriminate) eq_refl) as (_ & _ & Hok & _).
  split; [exact (H401 unauthorized eq_refl)|exact (Hok health_json eq_refl)].
Defined.



(** ** Start of the provider *)

Lemma initDatabase_frame w :
  ∃ h d, AuthContext.initDatabase w = (Ok tt, with_db h (with_disk d w)).
Proof.
  unfold AuthContext.initDatabase, AuthContext.openDatabaseAsync,
    AuthContext.execAsync_create_users. run.
  destruct w as [nl ic st sl [co eo qo ro us] dyn h u t il mv au]; simpl.
  destruct co; simpl; [|by exists h; eexists].
  exists (Some carfirstaid_db). destruct eo; simpl; eexists; unfold with_db, with_disk;
    simpl; reflexivity.
Qed.

Lemma loadUser_run parse w init :
  ∃ h d,
    AuthContext.loadUser parse (w, init) =
      (Ok tt,
       (with_user
          (if truthy (storage w !! "authToken") && truthy (storage w !! "user") then
             match storage w !! "user" ≫= parse with
             | Some u => Some u
             | None => user w
             end
           else user w)
          (with_token
             (if truthy (storage w !! "authToken") && truthy (storage w !! "user")
              then storage w !! "authToken" else token w)
             (with_storage (storage w)
                (storage_log w ++ [GetItem "authToken"; GetItem "user"])
                (with_db h (with_disk d w)))),
        true)).
Proof.
  destruct (initDatabase_frame w) as (h & d & Hinit). exists h, d.
  unfold AuthContext.loadUser, AsyncStorage.getItem. run. rewrite Hinit. simpl.
  destruct (truthy (storage w !! "authToken") && truthy (storage w !! "user")); simpl.
  - destruct (option_bind _ _ parse _); simpl;
      rewrite <- app_assoc; destruct w; reflexivity.
  - rewrite <- app_assoc. destruct w; reflexivity.
Qed.

(** X23. loadUser never throws and always ends initialised, and it
    restores a session only from both keys: when authToken or user is
    missing or empty, token and user of the provider stay as they are;
    when both are present, the token is set, and the user too unless the
    stored text does not parse, in which case the provider is left with
    a token and the user it had.  The storage is only read. *)
Theorem loadUser_restores_from_both_keys parse w init :
  ∃ w', AuthContext.loadUser parse (w, init) = (Ok tt, (w', true))
    ∧ storage w' = storage w
    ∧ (truthy (storage w !! "authToken") = false ∨ truthy (storage w !! "user") = false →
       token w' = token w ∧ user w' = user w)
    ∧ (∀ t j, storage w !! "authToken" = Some t → t ≠ "" →
         storage w !! "user" = Some j → j ≠ "" →
         token w' = Some t
         ∧ user w' = match parse j with Some u => Some u | None => user w end).
Proof.
  destruct (loadUser_run parse w init) as (h & d & ->).
  eexists. split; [done|]. simpl. split; [done|]. split.
  - intros [H|H]; rewrite H; simpl; rewrite ?andb_false_r; done.
  - intros t j Ht Hne Hj Hnej. rewrite Ht, Hj.
    apply truthy_Some in Hne, Hnej. rewrite Hne, Hnej. done.
Qed.

Lemma loadUser_restores_from_both_keys_witness :
  ∃ w', AuthContext.loadUser parse_sample (corrupt_user_world, false) = (Ok tt, (w', true))
    ∧ token w' = Some "tok123" ∧ user w' = None.
Proof.
  destruct (loadUser_restores_from_both_keys parse_sample corrupt_user_world false)
    as (w' & Hrun & _ & _ & Hboth).
  exists w'. split; [exact Hrun|].
  apply (Hboth "tok123" "{id:"); [reflexivity | discriminate | reflexivity | discriminate].
Defined.

Lemma signIn_ok_session env email password w w1 :
  AuthContext.signIn env email password w = (Ok tt, w1) →
  ∃ t u, storage w1 = <["user" := JSON_stringify env u]> (<["authToken" := t]> (storage w))
         ∧ token w1 = Some t ∧ user w1 = Some u.
Proof.
  destruct (isConnected w) eqn:Hcon.
  - unfold AuthContext.signIn, AuthContext.NetInfo_fetch, ApiConfig.fetchWithTimeout,
      try_finally, AsyncStorage.setItem. run. rewrite Hcon. simpl.
    rewrite fetch_run. simpl.
    destruct (delivered env _ _) as [r|];
      [|by destruct (net env _ _)].
    destruct (ok r); simpl; [|done].
    unfold response_json. destruct (json r) as [data|]; simpl; [|done].
    destruct (data_access_token data) as [t|]; simpl; [|done].
    destruct (data_user data) as [u|]; simpl; [|done].
    match goal with
    | |- context [AuthContext.saveLocalUser env u password ?w0] =>
        destruct (saveLocalUser_spec env u password w0) as (h & d & ->)
    end.
    simpl. intros [= <-]. simpl. by eexists _, _.
  - destruct (signIn_offline env email password w Hcon) as (h & d & ->).
    destruct (if db_usable w then _ else _) as [localUser|]; [|done].
    intros [= <-]. simpl. by eexists _, _.
Qed.

(** X24. A session survives a restart: after a signIn that succeeded
    with a non-empty token, a new process over the same storage, in
    which the provider starts without token and user, gets both back
    from loadUser, equal to those of the session, as long as JSON.parse
    inverts JSON.stringify on the user of the session and that user is
    not serialised to the empty string. *)
Theorem signIn_then_loadUser env parse email password w w1 :
  AuthContext.signIn env email password w = (Ok tt, w1) →
  (∀ u, user w1 = Some u → parse (JSON_stringify env u) = Some u) →
  (∀ u, user w1 = Some u → JSON_stringify env u ≠ "") →
  token w1 ≠ Some "" →
  ∃ w2, AuthContext.loadUser parse (restarted env w1, false) = (Ok tt, (w2, true))
    ∧ token w2 = token w1 ∧ user w2 = user w1 ∧ storage w2 = storage w1.
Proof.
  intros Hin Hparse Hnonempty Htok.
  destruct (signIn_ok_session _ _ _ _ _ Hin) as (t & u & Hst & Ht & Hu).
  destruct (loadUser_run parse (restarted env w1) false) as (h & d & ->).
  eexists. split; [done|]. simpl. rewrite Hst.
  rewrite lookup_insert_ne, !lookup_insert_eq by done. simpl.
  assert (t ≠ "") as Hne by (intros ->; by rewrite Ht in Htok).
  apply truthy_Some in Hne. simpl in Hne. rewrite Hne.
  pose proof (Hnonempty u Hu) as Hj. apply truthy_Some in Hj. simpl in Hj. rewrite Hj.
  simpl. rewrite (Hparse u Hu). by rewrite Ht, Hu.
Qed.

Lemma signIn_then_loadUser_witness :
  ∃ w1 w2,
    AuthContext.signIn backend_env "ann@example.com" "secret1" fresh_world = (Ok tt, w1)
    ∧ AuthContext.loadUser parse_sample (restarted backend_env w1, false)
      = (Ok tt, (w2, true))
    ∧ token w2 = token w1 ∧ user w2 = user w1 ∧ storage w2 = storage w1.
Proof.
  set (w1 := (AuthContext.signIn backend_env "ann@example.com" "secret1" fresh_world).2).
  assert (Hin : AuthContext.signIn backend_env "ann@example.com" "secret1" fresh_world =
                (Ok tt, w1)) by (vm_compute; reflexivity).
  assert (Hu : user w1 = Some sample_user) by (vm_compute; reflexivity).
  destruct (signIn_then_loadUser backend_env parse_sample _ _ _ w1 Hin) as (w2 & H).
  - intros u Hu'. rewrite Hu in Hu'. injection Hu' as <-. vm_compute. reflexivity.
  - intros u Hu'. rewrite Hu in Hu'. injection Hu' as <-. vm_compute. discriminate.
  - vm_compute. discriminate.
  - exists w1, w2. split; [exact Hin | exact H].
Defined.

Lemma signIn_online_request env email password w :
  isConnected w = true →
  net_log (AuthContext.signIn env email password w).2 =
    net_log w ++ [login_request (apiUrl w) email password].
Proof.
  intros Hcon.
  unfold AuthContext.signIn, AuthContext.NetInfo_fetch, ApiConfig.fetchWithTimeout,
    try_finally, AsyncStorage.setItem. run. rewrite Hcon. simpl.
  rewrite fetch_run. simpl.
  fold (login_request (apiUrl w) email password).
  destruct (delivered env _ _) as [r|]; [|by destruct (net env _ _)].
  destruct (ok r); simpl; [|done].
  unfold response_json. destruct (json r) as [data|]; simpl; [|done].
  destruct (data_access_token data) as [t|]; simpl; [|done].
  destruct (data_user data) as [u|]; simpl; [|done].
  match goal with
  | |- context [AuthContext.saveLocalUser env u password ?w0] =>
      destruct (saveLocalUser_spec env u password w0) as (h & d & ->)
  end.
  done.
Qed.

Lemma findApi_run env base w :
  ∃ r used,
    ApiConfig.findWorkingConnection env w =
      (Ok r, with_net_log (net_log w ++ (probe30 <$> used)) w)
    ∧ AuthContext.findApi env base w =
        (Ok (if truthy r then default base r else base),
         with_apiUrl (if truthy r then default base r else base)
           (with_net_log (net_log w ++ (probe30 <$> used)) w)).
Proof.
  destruct (findWorkingConnection_loop_frame env (ApiConfig.possibleUrls env) w)
    as (r & used & Hloop & _).
  exists r, used. split; [done|].
  unfold AuthContext.findApi, ApiConfig.findWorkingConnection. run. rewrite Hloop. simpl.
  destruct r as [u|]; [|done]. by destruct (truthy (Some u)).
Qed.

(** X25. findApi always completes; besides the health probes it
    logs, it writes the provider's apiUrl and nothing else, so the URL
    cache of the API service stays as it was.  apiUrl becomes the first
    candidate of findWorkingConnection whose health probe succeeds (no
    candidate after it is probed), and the module's base URL when every
    candidate fails.  When the device is connected, the next signIn
    sends exactly one request, the login request to that URL. *)
Theorem findApi_sets_apiUrl env base w :
  (∀ k u, first_success (probe_success env) probe30 (net_log w)
            (ApiConfig.possibleUrls env) k u →
     u ≠ "" →
     AuthContext.findApi env base w =
       (Ok u,
        with_apiUrl u
          (with_net_log
             (net_log w ++ (probe30 <$> take (S k) (ApiConfig.possibleUrls env))) w)))
  ∧ (fails_before (probe_success env) probe30 (net_log w)
       (ApiConfig.possibleUrls env) (length (ApiConfig.possibleUrls env)) →
     AuthContext.findApi env base w =
       (Ok base,
        with_apiUrl base
          (with_net_log (net_log w ++ (probe30 <$> ApiConfig.possibleUrls env)) w)))
  ∧ ∃ b used,
      AuthContext.findApi env base w =
        (Ok b, with_apiUrl b (with_net_log (net_log w ++ (probe30 <$> used)) w))
      ∧ ∀ email password, isConnected w = true →
          issued (AuthContext.signIn env email password)
            (with_apiUrl b (with_net_log (net_log w ++ (probe30 <$> used)) w))
          = [login_request b email password].
Proof.
  split; [|split].
  - intros k u Hfirst Hne.
    destruct (findApi_run env base w) as (r & used & Hfind & ->).
    pose proof (findWorkingConnection_loop_first env _ k u w Hfirst) as Hloop.
    unfold ApiConfig.findWorkingConnection in Hfind. rewrite Hloop in Hfind.
    injection Hfind as <- Hw. rewrite <- Hw.
    apply truthy_Some in Hne. simpl in Hne. simpl. by rewrite Hne.
  - intros Hfail.
    destruct (findApi_run env base w) as (r & used & Hfind & ->).
    pose proof (findWorkingConnection_loop_all_fail env _ w Hfail) as Hloop.
    unfold ApiConfig.findWorkingConnection in Hfind. rewrite Hloop in Hfind.
    injection Hfind as <- Hw. by rewrite <- Hw.
  - destruct (findApi_run env base w) as (r & used & _ & Hrun).
    eexists _, used. split; [exact Hrun|].
    intros email password Hcon. unfold issued.
    rewrite signIn_online_request by done. simpl.
    by rewrite drop_app_length.
Qed.

Lemma findApi_sets_apiUrl_witness :
  AuthContext.findApi ios_second_env "http://localhost:8000/api" fresh_world =
    (Ok "http://127.0.0.1:8000/api",
     with_apiUrl "http://127.0.0.1:8000/api"
       (with_net_log
          (probe30 <$> ["http://localhost:8000/api"; "http://127.0.0.1:8000/api"])
          fresh_world)).
Proof.
  destruct (findApi_sets_apiUrl ios_second_env "http://localhost:8000/api" fresh_world)
    as (Hfirst & _ & _).
  apply (Hfirst 1 "http://127.0.0.1:8000/api").
  - split; [reflexivity|]. split; [|vm_compute; reflexivity].
    intros i u Hi Hu. destruct i as [|i]; [|lia].
    injection Hu as <-. vm_compute. reflexivity.
  - discriminate.
Defined.

(** X26. The two ways of ending a session differ in the running
    process and agree after a restart.  logout of the API service
    removes the stored authToken only: the stored user stays, and the
    provider keeps its token and user.  signOut of the provider removes
    both keys and clears token and user.  After either one, loadUser in
    a new process restores nothing, as it wants both keys. *)
Theorem logout_signOut_end_session env parse w :
  (∃ w1, Api.logout w = (Ok tt, w1)
     ∧ storage w1 = delete "authToken" (storage w)
     ∧ token w1 = token w ∧ user w1 = user w
     ∧ ∃ w2, AuthContext.loadUser parse (restarted env w1, false) = (Ok tt, (w2, true))
          ∧ token w2 = None ∧ user w2 = None)
  ∧ (∃ w1, AuthContext.signOut w = (Ok tt, w1)
     ∧ storage w1 = delete "user" (delete "authToken" (storage w))
     ∧ token w1 = None ∧ user w1 = None
     ∧ ∃ w2, AuthContext.loadUser parse (restarted env w1, false) = (Ok tt, (w2, true))
          ∧ token w2 = None ∧ user w2 = None).
Proof.
  split.
  - eexists. split; [reflexivity|]. do 3 (split; [done|]).
    match goal with
    | |- context [AuthContext.loadUser parse (?w0, false)] =>
        destruct (loadUser_run parse w0 false) as (h & d & ->)
    end.
    eexists. split; [done|]. simpl. by rewrite lookup_delete_eq.
  - rewrite signOut_run. eexists. split; [reflexivity|]. do 3 (split; [done|]).
    match goal with
    | |- context [AuthContext.loadUser parse (?w0, false)] =>
        destruct (loadUser_run parse w0 false) as (h & d & ->)
    end.
    eexists. split; [done|]. simpl. rewrite lookup_delete_eq.
    by rewrite andb_false_r.
Qed.
